(* ===== verification/_CoqProject ===== *)
-Q . S2P
Prelude.v
Http.v
Db.v
RateLimit.v
Vote.v
VoteSafety.v
Race.v
Libraries.v
Polls.v
Clients.v
Admin.v
Comments.v
CommentsClient.v
Email.v
Chart.v
Pages.v
Store.v
JestConfig.v
