(* ===== verification/Prelude.v ===== *)
(** * A verification development for alx-polly

    alx-polly is a Next.js polling application: users create polls,
    vote on them and comment, and administrators manage users and polls.
    All persistent state lives in a hosted Postgres database reached
    through the Supabase client.  The request handlers under
    [src/app/api/] and the server actions under [src/app/lib/actions/]
    validate their input, issue one to five queries and answer with
    JSON; the pages and components under [src/app/(dashboard)/] and
    [src/components/] build the requests and keep the answers.

    The development models the server side, and the client code that
    builds requests, as executable functions over an explicit database
    state, and proves what the code guarantees and what it does not.

    ** How the program is modelled

    - The database ([Db.v]) is a record of tables, each a list of rows
      in insertion order.  The Supabase query builder becomes list
      functions: [.eq] is [filter], [.order(c, desc)] an insertion sort
      ([order_desc]), [.limit] is [take], [.single()] is [single] (one
      row or PostgREST's error).  Inserted rows get an id from a counter
      and the request clock as [created_at].
    - A request runs in a context [Ctx] ([Http.v]): the session user of
      [supabase.auth.getUser()], its error, the clock in milliseconds,
      and a fault oracle naming which store round trips of the request
      fail and with what message, so every error branch of the code is
      reachable.  A route is a function [Ctx -> inputs -> Db -> response
      * Db]; a server action returns its [{ error }] value instead.
    - JSON values, JavaScript property reads, truthiness, [FormData]
      and [String.prototype.trim] are written out in [Http.v], with the
      laws the proofs use (trim is idempotent, form updates commute with
      reads of other names, [getAll] after [delete] and [append]).  The
      TypeScript types a client assumes of a body are a judgement
      [has_type] on JSON, and [route_typed] is the contract of a route:
      the success type on a 2xx status, [{ error: string }] otherwise.
    - React components are functions from their props and state to
      what they show; their event handlers are state updates, and where
      an [await] lets other events in between, a step relation.
    - Two npm packages are interfaces ([Libraries.v]): [csrf] is the
      class [CsrfTokens] and [DOMPurify] the class [Sanitizer], each with
      the laws the handlers rely on.  The theorems hold for every
      instance; reference instances run the witnesses.

    ** Files, in dependency order

    - [Prelude.v] (this file): the scope [polly_scope] with the
      early-return notations [let! x := o else r in k] and
      [when c return r ;; k], the hint databases [polly] and
      [polly_rw], and lemmas on sorted lists, [filter], [take] and
      updates of a list by position.
    - [Http.v]: JSON and its types, responses, request context,
      Supabase results, [FormData] and [trim].
    - [Db.v]: rows ([src/app/lib/types/index.ts]), tables and query
      primitives, with the sort and [single] lemmas.
    - [RateLimit.v]: the guard of [POST /api/polls/[id]/vote] lines
      31-47 (also in [submitVote]), refined to the sliding window
      (fewer than 5 of the caller's votes in the last 60 s), and
      independent of how the store orders equal timestamps.
    - [Vote.v]: [POST /api/polls/[id]/vote] ([vote_POST]) and the
      server action [submitVote]: every branch, including fail-open
      rate limiting and the loss of the duplicate guard once a pair
      has two votes.
    - [VoteSafety.v]: sequential requests as a step relation
      [seq_step]; the invariants one vote per (poll, voter) and at most
      5 votes per caller in any 60 s window hold in every reachable
      store, by rule induction.
    - [Race.v]: [submitVote] split at its awaits; concurrent requests
      are interleavings of those steps ([cstep]).  Run alone a request
      is [submitVote]; the double-vote race and the rate-limit race
      (any number of votes in one minute) are reachable configurations.
    - [Libraries.v]: the [CsrfTokens] and [Sanitizer] classes.
    - [Polls.v]: [createPoll], [updatePoll], [deletePoll],
      [getUserPolls], [getPollById] of [poll-actions.ts] and the routes
      [POST /api/polls], [GET]/[PUT]/[DELETE /api/polls/[id]]; the
      validation specification, the option-count invariant (kept by
      creation and deletion, broken by update), ownership of updates
      and deletions, the agreement of routes and actions, and the
      JSON types of the route answers.
    - [Clients.v]: [GET /api/csrf], [PollCreateForm] and
      [EditPollForm]: neither form can ever pass the CSRF check; the
      option list of both keeps at least two entries under any edits;
      the edit form starts from the stored poll and its [FormData]
      reads back as the question, options and token it holds; the
      browser's [required] check and what both forms render.
    - [Admin.v]: [isAdmin], the five admin actions, the admin page and
      the dashboard (its view, and its buttons split at their [await]):
      the admin gate, role updates, the statistics, self-demotion, the
      busy state that does not stop a second click, and the props the
      page passes to the dashboard.
    - [Comments.v]: the comments routes and component: stored comments
      are trimmed and non-empty, the component's list after a post is
      the list a refetch returns, and what it shows after a fetch.
    - [CommentsClient.v]: the comments component as a state machine
      (its state, the requests in flight with the [pollId] they
      captured, one step per event).  On one poll it never has two
      requests in flight and, when idle, shows exactly the route's list;
      after a change of [pollId] a late answer shows the previous
      poll's comments under the new one.
    - [Email.v]: [sendPollClosingEmail], over the poll object its
      caller passes, the [user_id] it records and the lines it logs;
      its unit test, run against the model, fails on both of its
      content expectations.
    - [Pages.v]: the My Polls page (it fetches a URL no route serves
      and never lists a poll), [PollActions] (its card, the owner's
      controls, and its delete button split at its [await]: one delete
      at a time per card), the edit page (no
      ownership check) and the detail page: voting from the page
      records the picked option, a refused vote replaces the page by its
      error, every load of an expired poll records another closing
      notification, the results show no bar and 0 votes, and the share
      code encodes [undefined/polls/<id>] when the base URL is unset;
      the page past its early returns (comments of [params.id], the
      share section whose two buttons have no [onClick]) and the unused
      [getPercentage].
    - [Chart.v]: [PollChart] (rows, [toFixed(1)] percentages, colours),
      the results table, [PollResultsChart] and [QRCodeDisplay]: printed
      percentages are the nearest tenth of the exact share, and the
      table names every option in full with the colour of its slice.
    - [Store.v]: the composition of every handler that writes
      ([store_request], [run]) and the polls table seen as a map from
      id to row ([poll_map]).  On a store whose poll ids are distinct
      (which the id counter, standing for the key default, keeps:
      [keyed_reachable]) each request changes the map as an abstract
      specification of the poll writes allows ([store_refines_spec]:
      creation inserts a fresh id of the session user, update and
      deletion touch only the caller's own poll).
    - [JestConfig.v]: the configuration [jest.config.js] exports and
      the two objects it builds, with Jest's module mapping and ignore
      patterns: the mapper sends [@/lib/<rest>] to
      [<rootDir>/app/lib/<rest>].

    ** Bounds and fuel

    Everything is structural except the interleaving model: [run_alone]
    takes fuel, and 3 steps suffice because a [submitVote] request has
    three store round trips after the session read (rate query,
    duplicate query, insert); [thread_alone_is_submitVote] proves it.
    The rate limiter is checked at the code's own arithmetic: the time
    difference is the rational [(now - t) / 1000], compared with 60.

    ** What is not modelled

    Markup, styling and layout (cards, tabs, recharts' drawing, the
    SVG of the QR code); floating point (numbers are rationals, so the
    double rounding before [toFixed] is not modelled); dates printed
    with [toLocaleString]; navigation ([router.push], [router.refresh],
    [window.location.reload] are outcomes, not modelled further);
    [revalidatePath] (it refreshes Next.js's page cache);
    [console.log]; the daylight-saving shift of [Date.setDate]; the
    [AuthProvider] context behind [useAuth] (its user is an input); the
    loading of the Jest configuration (which of its two objects Jest
    uses, [next/jest]'s additions) and module resolution against the
    file system (the repository holds [src/] only, and several modules
    the code imports are not in it), and the identity of jest's mock
    objects.  The authentication provider and
    the store are inputs of [Ctx]: their answers, not their
    implementation.  [Number.prototype.toString] is an argument of the
    client model; no proved flow prints a number.  The database schema
    (constraints, foreign keys, row-level security) is not in the
    repository and no constraint is assumed; the one the code names,
    the foreign key [polls_user_id_fkey] of [getAllPolls]' embedding,
    means every poll of a real store has an owner profile, so the
    [null] email [poll_with_email] allows does not arise there. *)

From stdpp Require Export base list strings sorting pretty relations.
From Stdlib Require Export ZArith QArith Lia.
(* QArith opens [Q_scope]; the development reads [<] on [nat] by default. *)
Global Close Scope Q_scope.

Declare Scope polly_scope.
Delimit Scope polly_scope with polly.
Open Scope polly_scope.

(** Early returns, the shape of every handler of the code:
    [if (!user) return r;] and [if (cond) return r;]. *)
Notation "'let!' x ':=' o 'else' r 'in' k" :=
  (match o with Some x => k | None => r end)
  (at level 10, x pattern, o at level 100, r at level 100, k at level 200)
  : polly_scope.

Notation "'when' c 'return' r ;; k" :=
  (if c then r else k)
  (at level 10, c at level 99, r at level 99, k at level 200)
  : polly_scope.

(** Structural equality of rationals: the representation a JSON number
    parses to is compared, as row equality needs. *)
#[export] Instance Q_eq_dec : EqDecision Q.
Proof. intros [n1 d1] [n2 d2]. solve_decision. Defined.

Create HintDb polly discriminated.
Create Rewrite HintDb polly_rw.
#[export] Hint Constants Transparent : polly.

(** ** Generic lemmas on lists *)

Section sorted_prefix.
Context {A : Type} (R : relation A) (P : A -> Prop) `{!forall x, Decision (P x)}.

(** [P] is closed upwards along [R]: if an element satisfies it, so
    does every element that comes before it in an [R]-sorted list. *)
Hypothesis P_up : forall x y, R x y -> P y -> P x.

Lemma filter_nil_of_not_head x (l : list A) :
  Forall (R x) l -> ~ P x -> filter P l = [].
Proof.
  intros Hall HPx. induction Hall as [|y l Hxy _ IH]; [done|].
  rewrite filter_cons. case_decide as HPy; [|done].
  exfalso. by apply HPx, (P_up x y).
Qed.

(** In a sorted list the elements satisfying [P] form a prefix, so the
    [k]-th element satisfies [P] exactly when at least [k+1] do. *)
Lemma filter_sorted_prefix (l : list A) k d :
  StronglySorted R l ->
  k < length (filter P l) <-> k < length l /\ P (nth k l d).
Proof.
  revert k. induction l as [|x l IH]; intros k Hs; simpl; [lia|].
  inversion Hs as [|? ? Hs' Hall]; subst. rewrite filter_cons.
  case_decide as HPx.
  - destruct k as [|k]; simpl; [split; [intros _; split; [lia|done]|lia]|].
    rewrite <-!Nat.succ_lt_mono. by apply IH.
  - rewrite (filter_nil_of_not_head x l) by done. simpl.
    split; [lia|]. intros [Hk HP]. destruct k as [|k]; [done|].
    exfalso. apply HPx, (P_up x (nth k l d)); [|done].
    apply (proj1 (Forall_nth _ d l) Hall). simpl in Hk. lia.
Qed.
End sorted_prefix.

(** Counting with a predicate does not depend on the order of the list. *)
Lemma length_filter_perm {A} (P : A -> Prop) `{!forall x, Decision (P x)} (l1 l2 : list A) :
  l1 ≡ₚ l2 -> length (filter P l1) = length (filter P l2).
Proof. intros Hp. by rewrite Hp. Qed.

(** [take] keeps the first [n] positions of a list. *)
Lemma nth_take_lt {A} (l : list A) n k d :
  k < n -> nth k (take n l) d = nth k l d.
Proof. intros Hk. rewrite nth_firstn. by rewrite (proj2 (Nat.ltb_lt k n) Hk). Qed.

(** Counting with a weaker predicate counts at least as many elements. *)
Lemma length_filter_le {A} (P Q : A -> Prop) `{!forall x, Decision (P x), !forall x, Decision (Q x)}
    (l : list A) :
  Forall (fun x => P x -> Q x) l -> length (filter P l) <= length (filter Q l).
Proof.
  induction 1 as [|x l HPQ _ IH]; [done|]. rewrite !filter_cons.
  repeat case_decide; simpl; naive_solver lia.
Qed.

Lemma length_filter_app {A} (P : A -> Prop) `{!forall x, Decision (P x)} (l1 l2 : list A) :
  length (filter P (l1 ++ l2)) = length (filter P l1) + length (filter P l2).
Proof. by rewrite filter_app, length_app. Qed.

(** [l.filter((_, i) => i !== idx)]: filtering a list by position
    removes the element at [idx], and nothing when [idx] is out of
    range; [l.map((x, i) => i === idx ? v : x)] replaces it. *)
Section by_index.
Context {A : Type}.

Lemma filter_index_below (l : list A) m n :
  m < n -> snd <$> filter (fun io => io.1 <> m) (imap (fun i x => (i + n, x)) l) = l.
Proof.
  revert n. induction l as [|y l IH]; intros n Hm; [done|].
  rewrite imap_cons, filter_cons, decide_True by (simpl; lia). simpl. f_equal.
  rewrite (imap_ext _ (fun i x => (i + S n, x))) by (intros; simpl; f_equal; lia).
  apply IH. lia.
Qed.

Lemma filter_index_shift (l : list A) idx n :
  snd <$> filter (fun io => io.1 <> idx + n) (imap (fun i x => (i + n, x)) l) = delete idx l.
Proof.
  revert idx n. induction l as [|y l IH]; intros idx n; [done|].
  rewrite imap_cons, (imap_ext _ (fun i x => (i + S n, x))) by (intros; simpl; f_equal; lia).
  rewrite filter_cons. destruct idx as [|idx]; simpl.
  - rewrite decide_False by lia. apply filter_index_below. lia.
  - rewrite decide_True by lia. rewrite fmap_cons. f_equal. replace (S (idx + n)) with (idx + S n) by lia. apply IH.
Qed.

Lemma filter_index_delete (l : list A) idx :
  snd <$> filter (fun io => io.1 <> idx) (imap pair l) = delete idx l.
Proof.
  rewrite <-(filter_index_shift l idx 0), Nat.add_0_r.
  f_equal. f_equal. apply imap_ext. intros. by rewrite Nat.add_0_r.
Qed.

Lemma imap_replace_insert (l : list A) idx v :
  imap (fun i x => if decide (i = idx) then v else x) l = <[idx:=v]> l.
Proof.
  revert idx. induction l as [|y l IH]; intros idx; [done|].
  rewrite imap_cons. destruct idx as [|idx]; simpl.
  - f_equal. rewrite <-(list_insert_ge l (length l) v) at 2 by lia.
    rewrite <-(IH (length l)). apply imap_ext. intros i x Hi%lookup_lt_Some.
    simpl. by rewrite !decide_False by lia.
  - f_equal. rewrite <-IH. apply imap_ext. intros i x _. simpl.
    by destruct (decide (i = idx)); [rewrite decide_True by lia|rewrite decide_False by lia].
Qed.
Lemma length_delete_ge (l : list A) i : length l - 1 <= length (delete i l).
Proof. revert i. induction l as [|y l IH]; intros [|i]; simpl; [lia..|]. specialize (IH i). lia. Qed.
End by_index.

#[export] Hint Resolve length_filter_perm nth_take_lt length_filter_le : polly.
#[export] Hint Rewrite @length_filter_app : polly_rw.
