(* ===== verification/Http.v ===== *)
(** * HTTP, JSON and the request context

    The vocabulary shared by every handler: JSON values as
    [request.json()] returns them and [NextResponse.json] sends them, the
    [{ data, error }] result of a Supabase call, the context of one
    request (session user, clock, store faults), and the TypeScript
    types a client assumes of a body ([has_type], [route_typed]). *)

From S2P Require Import Prelude.

#[local] Set Warnings "-register-all".

(** ** JSON values *)

Inductive json :=
| JNull
| JBool (b : bool)
| JNum (q : Q)
| JStr (s : string)
| JArr (items : list json)
| JObj (fields : list (string * json)).

(** A property read on a JavaScript value: [undefined] or a value. *)
Inductive jsval :=
| JsUndefined
| JsVal (j : json).

(** [o[k]] on a parsed object.  [JSON.parse] keeps the last of
    duplicate keys, so the last binding wins. *)
Fixpoint obj_get (fields : list (string * json)) (k : string) : jsval :=
  match fields with
  | [] => JsUndefined
  | (k', v) :: rest =>
      match obj_get rest k with
      | JsUndefined => if decide (k = k') then JsVal v else JsUndefined
      | found => found
      end
  end.

(** [const { k } = j]: destructuring [null] throws a [TypeError]
    ([None]); a primitive or an array has no such property. *)
Definition destructure (j : json) (k : string) : option jsval :=
  match j with
  | JNull => None
  | JObj fields => Some (obj_get fields k)
  | _ => Some JsUndefined
  end.

(** [poll.k] on a value that is not [null]. *)
Definition prop (o : json) (k : string) : jsval :=
  match o with JObj fields => obj_get fields k | _ => JsUndefined end.

(** ** Responses *)

Record response := mkResponse { status : Z; body : json }.

(** [NextResponse.json(body)] answers 200 unless a status is given. *)
Definition json_ok (j : json) : response := mkResponse 200 j.

Definition error_response (msg : string) (st : Z) : response :=
  mkResponse st (JObj [("error", JStr msg)]).

Definition success_response : response := json_ok (JObj [("success", JBool true)]).

Definition internal_error : response := error_response "Internal server error" 500.

(** The error message carried by a route response, the way a client
    reads [data.error]: a string there, or nothing. *)
Definition response_error (r : response) : option string :=
  match body r with
  | JObj fields => match obj_get fields "error" with JsVal (JStr m) => Some m | _ => None end
  | _ => None
  end.

(** The [{ error: string | null }] object a server action returns. *)
Definition action_result := option string.

(** Truthiness of a JavaScript value. *)
Definition js_truthy (v : jsval) : bool :=
  match v with
  | JsUndefined | JsVal JNull => false
  | JsVal (JBool b) => b
  | JsVal (JNum q) => negb (Qeq_bool q 0)
  | JsVal (JStr s) => negb (bool_decide (s = ""))
  | JsVal (JArr _) | JsVal (JObj _) => true
  end.

(** [response.ok] on the client. *)
Definition response_ok (r : response) : bool := bool_decide (200 <= status r <= 299)%Z.

(** [data.error || fallback] on the client. *)
Definition error_or (r : response) (fallback : string) : string :=
  match response_error r with
  | Some m => if bool_decide (m = "") then fallback else m
  | None => fallback
  end.

(** A handler that throws outside its [try]: Next.js answers 500
    without the handler's JSON. *)
Definition unhandled_error : response := mkResponse 500 JNull.

(** ** JSON types

    The TypeScript types a client assumes of a parsed body, as a
    judgement on [json]: an object type lists its properties, each
    optional or not; other properties are allowed, as in TypeScript's
    structural typing. *)
Inductive jtype :=
| TUnknown
| TNull
| TBoolean
| TNumber
| TString
| TLiteral (s : string)
| TArray (t : jtype)
| TObject (props : list (string * bool * jtype))
| TUnion (t1 t2 : jtype).

Fixpoint has_type (t : jtype) (j : json) : bool :=
  match t, j with
  | TUnknown, _ => true
  | TNull, JNull | TBoolean, JBool _ | TNumber, JNum _ | TString, JStr _ => true
  | TLiteral s, JStr s' => bool_decide (s = s')
  | TArray t', JArr xs => forallb (has_type t') xs
  | TObject props, JObj fields =>
      (fix go (props : list (string * bool * jtype)) : bool :=
         match props with
         | [] => true
         | (k, optional, t') :: rest =>
             match obj_get fields k with
             | JsUndefined => optional
             | JsVal v => has_type t' v
             end && go rest
         end) props
  | TUnion t1 t2, _ => has_type t1 j || has_type t2 j
  | _, _ => false
  end.

(** [{ error: string }], the body of every failure a route answers. *)
Definition error_body : jtype := TObject [("error", false, TString)].

(** [{ success: boolean }]. *)
Definition success_body : jtype := TObject [("success", false, TBoolean)].

(** A route's contract: the success type on a 2xx status, the error
    type otherwise, the split every client makes with [response.ok]. *)
Definition route_typed (ok_type : jtype) (r : response) : bool :=
  has_type (if response_ok r then ok_type else error_body) (body r).

(** ** Supabase results *)

(** Every query of the Supabase client resolves to [{ data, error }]:
    [data] is [null] exactly when [error] is set. *)
Inductive sb_result (A : Type) :=
| SbOk (data : A)
| SbErr (message : string).
Arguments SbOk {A} data.
Arguments SbErr {A} message.

Definition sb_data {A} (r : sb_result A) : option A :=
  match r with SbOk d => Some d | SbErr _ => None end.

Definition sb_error {A} (r : sb_result A) : option string :=
  match r with SbOk _ => None | SbErr m => Some m end.

(** ** The context of one request *)

(** [ctx_user] and [ctx_user_error] are what [supabase.auth.getUser()]
    returns: the id of [data.user] and [error.message].  [ctx_now] is
    [Date.now()] in milliseconds; the store stamps [created_at] with the
    same clock.  [ctx_fault n] is the error of the [n]-th store round
    trip of the request, counted from 0, when that round trip fails. *)
Record Ctx := mkCtx {
  ctx_user : option string;
  ctx_user_error : option string;
  ctx_now : Z;
  ctx_fault : nat -> option string
}.

(** ** Form data *)

(** A [FormData]: its entries in order, duplicates allowed.  Only
    string entries are modelled (no files). *)
Definition formdata := list (string * string).

(** [formData.get(k)]: the first value, [null] when absent. *)
Fixpoint form_get (fd : formdata) (k : string) : option string :=
  match fd with
  | [] => None
  | (k', v) :: rest => if decide (k = k') then Some v else form_get rest k
  end.

(** [formData.getAll(k)]: every value, in order. *)
Definition form_getAll (fd : formdata) (k : string) : list string :=
  snd <$> filter (fun e => e.1 = k) (fd : list (string * string)).

(** [formData.append(k, v)]. *)
Definition form_append (fd : formdata) (k v : string) : formdata := fd ++ [(k, v)].

(** [formData.delete(k)]: every entry of that name goes. *)
Definition form_delete (fd : formdata) (k : string) : formdata :=
  filter (fun e => e.1 <> k) (fd : list (string * string)).

(** [formData.set(k, v)]: the first entry of that name takes the value
    and the others go; with no such entry, the pair is appended. *)
Fixpoint form_set_go (fd : formdata) (k v : string) : formdata :=
  match fd with
  | [] => []
  | (k', v') :: rest =>
      if decide (k = k') then (k, v) :: form_delete rest k
      else (k', v') :: form_set_go rest k v
  end.

Definition form_set (fd : formdata) (k v : string) : formdata :=
  if decide (k ∈ fd.*1) then form_set_go fd k v else form_append fd k v.

(** [.filter(Boolean)] on strings: the empty string is falsy. *)
Definition filter_truthy (l : list string) : list string := filter (fun s => s <> "") l.

(** ** Strings *)

(** The white space [String.prototype.trim] removes, in the 8-bit range:
    tab, line feed, vertical tab, form feed, carriage return, space and
    no-break space. *)
Definition js_space (c : Ascii.ascii) : bool :=
  match Ascii.nat_of_ascii c with
  | 9 | 10 | 11 | 12 | 13 | 32 | 160 => true
  | _ => false
  end.

Fixpoint trim_start (s : string) : string :=
  match s with
  | EmptyString => EmptyString
  | String c rest => if js_space c then trim_start rest else s
  end.

Fixpoint trim_end (s : string) : string :=
  match s with
  | EmptyString => EmptyString
  | String c rest =>
      let r := trim_end rest in
      if js_space c && bool_decide (r = EmptyString) then EmptyString else String c r
  end.

(** [s.trim()]. *)
Definition trim (s : string) : string := trim_end (trim_start s).

(** [forbiddenChars.test(s)]: the forbidden characters of poll text
    are [<], [>], [&], the single quote and the double quote. *)
Definition forbidden_char (c : Ascii.ascii) : bool :=
  match Ascii.nat_of_ascii c with
  | 60 | 62 | 34 | 39 | 38 => true
  | _ => false
  end.

Fixpoint has_forbidden (s : string) : bool :=
  match s with
  | EmptyString => false
  | String c rest => forbidden_char c || has_forbidden rest
  end.

(** ** Store round trips *)

(** A store round trip: the query's own result unless the context makes
    this call fail. *)

Definition round_trip {A} (ctx : Ctx) (call : nat) (q : sb_result A) : sb_result A :=
  match ctx_fault ctx call with
  | Some m => SbErr m
  | None => q
  end.

Definition no_fault (ctx : Ctx) (call : nat) : Prop := ctx_fault ctx call = None.

Lemma round_trip_ok {A} ctx call (q : sb_result A) :
  no_fault ctx call -> round_trip ctx call q = q.
Proof. unfold no_fault, round_trip. by intros ->. Qed.

Lemma round_trip_fault {A} ctx call (q : sb_result A) m :
  ctx_fault ctx call = Some m -> round_trip ctx call q = SbErr m.
Proof. unfold round_trip. by intros ->. Qed.

#[export] Hint Rewrite @round_trip_ok @round_trip_fault using assumption : polly_rw.

(** ** [FormData] laws *)

Lemma form_get_app_some fd fd' k v :
  form_get fd k = Some v -> form_get (fd ++ fd') k = Some v.
Proof. induction fd as [|[k' v'] fd IH]; simpl; [done|]. case_decide; auto. Qed.

Lemma form_get_append_other fd k k' v :
  k <> k' -> form_get (form_append fd k' v) k = form_get fd k.
Proof.
  intros Hk. unfold form_append. induction fd as [|[k'' v''] fd IH]; simpl.
  - by rewrite decide_False.
  - by case_decide.
Qed.

Lemma form_get_append_new fd k v :
  form_get fd k = None -> form_get (form_append fd k v) k = Some v.
Proof.
  unfold form_append. induction fd as [|[k' v'] fd IH]; simpl.
  - by rewrite decide_True.
  - by case_decide.
Qed.

Lemma form_get_delete_other fd k k' :
  k <> k' -> form_get (form_delete fd k') k = form_get fd k.
Proof.
  intros Hk. unfold form_delete. induction fd as [|[k'' v''] fd IH]; [done|].
  cbn. case_decide as Hd; simpl.
  - case_decide; [done|]. exact IH.
  - rewrite decide_False; [exact IH|]. naive_solver.
Qed.

Lemma form_get_set_other fd k k' v :
  k <> k' -> form_get (form_set fd k' v) k = form_get fd k.
Proof.
  intros Hk. unfold form_set. case_decide as Hin; [|by apply form_get_append_other].
  induction fd as [|[k'' v''] fd IH]; simpl; [done|].
  case_decide as Hkk; subst; simpl.
  - rewrite decide_False by done. rewrite decide_False by done.
    by apply form_get_delete_other.
  - case_decide; [done|]. apply IH.
    apply elem_of_cons in Hin as [Heq|Hin]; [simpl in Heq; congruence|done].
Qed.

Lemma form_get_foldl_append_other (fd : formdata) k k' (vs : list string) :
  k <> k' -> form_get (foldl (fun fd v => form_append fd k' v) fd vs) k = form_get fd k.
Proof.
  intros Hk. revert fd. induction vs as [|v vs IH]; intros fd; simpl; [done|].
  by rewrite IH, form_get_append_other.
Qed.

Lemma form_get_set_same fd k v : form_get (form_set fd k v) k = Some v.
Proof.
  unfold form_set. case_decide as Hin.
  - induction fd as [|[k' v'] fd IH]; simpl in *; [inversion Hin|].
    rewrite elem_of_cons in Hin.
    case_decide; simpl; [by rewrite decide_True|]. rewrite decide_False by done.
    apply IH. by destruct Hin.
  - apply form_get_append_new. induction fd as [|[k' v'] fd IH]; [done|].
    simpl in *. rewrite elem_of_cons in Hin. rewrite decide_False by tauto. tauto.
Qed.

Lemma form_getAll_app fd1 fd2 k : form_getAll (fd1 ++ fd2) k = form_getAll fd1 k ++ form_getAll fd2 k.
Proof. unfold form_getAll. by rewrite filter_app, fmap_app. Qed.

Lemma form_getAll_delete fd k : form_getAll (form_delete fd k) k = [].
Proof.
  unfold form_getAll, form_delete. induction fd as [|[k' v'] fd IH]; [done|].
  rewrite filter_cons. case_decide as Hk; [|done]. simpl in *.
  by rewrite filter_cons, decide_False, IH.
Qed.

Lemma form_getAll_foldl_append fd k vs :
  form_getAll (foldl (fun fd v => form_append fd k v) fd vs) k = form_getAll fd k ++ vs.
Proof.
  revert fd. induction vs as [|v vs IH]; intros fd; simpl; [by rewrite app_nil_r|].
  rewrite IH. unfold form_append. rewrite form_getAll_app, <-app_assoc. f_equal.
  unfold form_getAll. by rewrite filter_cons, filter_nil, decide_True.
Qed.

#[export] Hint Rewrite form_get_append_other form_get_delete_other form_get_set_other
  form_get_foldl_append_other using done : polly_rw.

(** ** [trim] laws *)

Lemma trim_end_idem s : trim_end (trim_end s) = trim_end s.
Proof.
  induction s as [|c s IH]; [done|]. cbn [trim_end].
  destruct (js_space c && bool_decide (trim_end s = EmptyString)) eqn:E; [done|].
  cbn [trim_end]. by rewrite IH, E.
Qed.

(** After [trim_start], the string is empty or starts with a character
    that is not white space, and [trim_end] keeps that character. *)
Lemma trim_start_trim_end s : trim_start (trim_end (trim_start s)) = trim_end (trim_start s).
Proof.
  induction s as [|c s IH]; [done|]. cbn [trim_start].
  destruct (js_space c) eqn:Hc; [exact IH|]. cbn [trim_end]. rewrite Hc. simpl. by rewrite Hc.
Qed.

Lemma trim_idem s : trim (trim s) = trim s.
Proof. unfold trim. by rewrite trim_start_trim_end, trim_end_idem. Qed.

Lemma string_length_zero s : String.length s = 0 <-> s = "".
Proof. destruct s; simpl; split; done || lia. Qed.

#[export] Hint Rewrite trim_idem : polly_rw.
