(* ===== verification/Db.v ===== *)
(** * The database

    The Postgres tables the program reads and writes (types of
    [src/app/lib/types/index.ts] and the columns the queries name), and
    the Supabase query builder as list functions: [.eq] filters,
    [.order(c, { ascending: false })] sorts by descending key, [.limit(n)]
    takes, [.single()] demands exactly one row, [.insert] appends a row
    stamped with a fresh id and the clock. *)

From S2P Require Import Prelude Http.

(** ** Rows *)

Record poll := mkPoll {
  poll_id : string;
  poll_user_id : string;
  question : string;
  options : list string;
  poll_created_at : Z;
  expires_at : option Z
}.

(** [option_index] holds the JavaScript number the handler sent. *)
Record vote := mkVote {
  vote_id : string;
  vote_poll_id : string;
  vote_user_id : string;
  option_index : Q;
  vote_created_at : Z
}.

Record comment := mkComment {
  comment_id : string;
  comment_poll_id : string;
  comment_user_id : string;
  content : string;
  comment_created_at : Z
}.

Record profile := mkProfile {
  profile_id : string;
  email : string;
  role : string;
  profile_created_at : Z
}.

(** A row of [email_notifications]; [notif_user_id] is the JSON value
    the code sends for the [user_id] column. *)
Record notification := mkNotification {
  notif_user_id : json;
  notif_poll_id : json;
  notif_type : string;
  notif_email : string
}.

Record Db := mkDb {
  polls : list poll;
  votes : list vote;
  comments : list comment;
  profiles : list profile;
  notifications : list notification;
  next_id : nat
}.

#[export] Instance poll_eq_dec : EqDecision poll.
Proof. solve_decision. Defined.
#[export] Instance vote_eq_dec : EqDecision vote.
Proof. solve_decision. Defined.
#[export] Instance comment_eq_dec : EqDecision comment.
Proof. solve_decision. Defined.
#[export] Instance profile_eq_dec : EqDecision profile.
Proof. solve_decision. Defined.

Definition empty_db : Db := mkDb [] [] [] [] [] 0.

(** The id the store assigns to the next inserted row. *)
Definition fresh_id (db : Db) : string := pretty (next_id db).

Definition with_polls (db : Db) (ps : list poll) : Db :=
  mkDb ps (votes db) (comments db) (profiles db) (notifications db) (next_id db).
Definition with_votes (db : Db) (vs : list vote) : Db :=
  mkDb (polls db) vs (comments db) (profiles db) (notifications db) (next_id db).
Definition with_comments (db : Db) (cs : list comment) : Db :=
  mkDb (polls db) (votes db) cs (profiles db) (notifications db) (next_id db).
Definition with_profiles (db : Db) (prs : list profile) : Db :=
  mkDb (polls db) (votes db) (comments db) prs (notifications db) (next_id db).
Definition with_notifications (db : Db) (ns : list notification) : Db :=
  mkDb (polls db) (votes db) (comments db) (profiles db) ns (next_id db).
Definition bump_id (db : Db) : Db :=
  mkDb (polls db) (votes db) (comments db) (profiles db) (notifications db) (S (next_id db)).

(** ** Query primitives *)

Section order.
Context {A : Type} (key : A -> Z).

(** [.order(key, { ascending: false })]: insertion sort, newest first. *)
Fixpoint insert_desc (x : A) (l : list A) : list A :=
  match l with
  | [] => [x]
  | y :: l' => if Z.leb (key y) (key x) then x :: l else y :: insert_desc x l'
  end.

Definition order_desc (l : list A) : list A := foldr insert_desc [] l.

Definition key_ge (x y : A) : Prop := (key y <= key x)%Z.
End order.

(** [.single()]: exactly one row, otherwise PostgREST's error. *)
Definition single_error : string :=
  "JSON object requested, multiple (or no) rows returned".

Definition single {A} (rows : list A) : sb_result A :=
  match rows with
  | [x] => SbOk x
  | _ => SbErr single_error
  end.

Section order_lemmas.
Context {A : Type} (key : A -> Z).

Lemma insert_desc_perm x l : insert_desc key x l ≡ₚ x :: l.
Proof.
  induction l as [|y l IH]; simpl; [done|].
  destruct (Z.leb _ _); [done|]. rewrite IH. by constructor.
Qed.

Lemma order_desc_perm l : order_desc key l ≡ₚ l.
Proof.
  induction l as [|x l IH]; simpl; [done|].
  by rewrite insert_desc_perm, IH.
Qed.

Lemma insert_desc_sorted x l :
  StronglySorted (key_ge key) l -> StronglySorted (key_ge key) (insert_desc key x l).
Proof.
  unfold key_ge. induction l as [|y l IH]; intros Hs; simpl.
  - repeat constructor.
  - inversion Hs as [|? ? Hs' Hall]; subst.
    destruct (Z.leb_spec (key y) (key x)).
    + constructor; [done|]. constructor; [lia|].
      eapply Forall_impl; [exact Hall|]. simpl. lia.
    + constructor; [by apply IH|].
      rewrite insert_desc_perm.
      constructor; [simpl; lia|done].
Qed.

Lemma order_desc_sorted l : StronglySorted (key_ge key) (order_desc key l).
Proof. induction l; simpl; [constructor|]. by apply insert_desc_sorted. Qed.

(** A row strictly newer than every other comes first. *)
Lemma order_desc_app_newest l x :
  Forall (fun y => (key y < key x)%Z) l -> order_desc key (l ++ [x]) = x :: order_desc key l.
Proof.
  induction 1 as [|y l Hy _ IH]; [done|]. unfold order_desc in *. cbn [app foldr].
  rewrite IH. cbn [insert_desc]. by rewrite (proj2 (Z.leb_gt _ _) Hy).
Qed.
End order_lemmas.

Lemma single_ok {A} (rows : list A) x : single rows = SbOk x <-> rows = [x].
Proof.
  destruct rows as [|y [|z rows]]; simpl; split; intros H; try done; by simplify_eq.
Qed.

Lemma single_none {A} (rows : list A) : length rows <> 1 -> sb_data (single rows) = None.
Proof. destruct rows as [|y [|z rows]]; simpl; done || lia. Qed.

#[export] Hint Resolve order_desc_perm order_desc_sorted : polly.
