(* ===== verification/RateLimit.v ===== *)
(** * The vote rate limiter

    Lines 30-47 of [src/app/api/polls/[id]/vote/route.ts], repeated as
    lines 130-144 of [submitVote] in [src/app/lib/actions/poll-actions.ts]:
    fetch the caller's 5 most recent vote timestamps, newest first, and
    refuse the vote when there are 5 and the oldest of them is less
    than 60 seconds old.

    The main result, [rate_limited_iff_window], refines this check to
    the sliding-window specification: the vote is refused exactly when
    at least 5 of the caller's votes are less than 60 s old.  The
    decision does not depend on how the store breaks ties between equal
    timestamps. *)

From S2P Require Import Prelude Http Db.

Module RateLimit.

(** [(new Date().getTime() - oldestVote.getTime()) / 1000], in seconds. *)
Definition time_diff (now t : Z) : Q := inject_Z (now - t) / inject_Z 1000.

(** [supabase.from('votes').select('created_at').eq('user_id', uid)
     .order('created_at', { ascending: false }).limit(5)]. *)
Definition recent_votes_query (uid : string) (vs : list vote) : list Z :=
  take 5 (map vote_created_at
            (order_desc vote_created_at (filter (fun v => vote_user_id v = uid) vs))).

(** The guard of lines 38-47.  [recentVotes] is [null] when the query
    failed, and then the check is skipped. *)
Definition rate_limited (now : Z) (recentVotes : option (list Z)) : bool :=
  match recentVotes with
  | Some rv =>
      if decide (5 <= length rv) then
        let oldestVote := nth 4 rv 0%Z in
        negb (Qle_bool 60 (time_diff now oldestVote))
      else false
  | None => false
  end.

(** ** The sliding-window specification *)

(** A vote stamped [t] is in the window of [now] when it is less than
    60 000 ms old. *)
Definition in_window (now t : Z) : Prop := (now - t < 60000)%Z.

#[export] Instance in_window_dec now t : Decision (in_window now t).
Proof. unfold in_window. apply _. Defined.

Definition votes_in_window (uid : string) (now : Z) (vs : list vote) : nat :=
  length (filter (fun v => vote_user_id v = uid /\ in_window now (vote_created_at v)) vs).

Definition dummy_vote : vote := mkVote "" "" "" 0 0.

(** The newest-first list of the caller's votes, before [.limit(5)]. *)
Definition sorted_votes (uid : string) (vs : list vote) : list vote :=
  order_desc vote_created_at (filter (fun v => vote_user_id v = uid) vs).

(** ** Lemmas *)

(** The seconds comparison of the code is the millisecond comparison. *)
Lemma time_diff_lt_60 now t :
  negb (Qle_bool 60 (time_diff now t)) = true <-> in_window now t.
Proof.
  unfold time_diff, in_window, Qle_bool, Qdiv, Qmult, Qinv, inject_Z. simpl.
  rewrite negb_true_iff, Z.leb_gt. lia.
Qed.

Lemma in_window_up now : forall x y : vote,
  key_ge vote_created_at x y -> in_window now (vote_created_at y) ->
  in_window now (vote_created_at x).
Proof. unfold key_ge, in_window. intros. lia. Qed.

Lemma votes_in_window_sorted uid now vs :
  votes_in_window uid now vs =
  length (filter (fun v => in_window now (vote_created_at v)) (sorted_votes uid vs)).
Proof.
  unfold votes_in_window, sorted_votes.
  rewrite (length_filter_perm _ _ _ (order_desc_perm _ _)), list_filter_filter.
  f_equal. apply list_filter_iff. tauto.
Qed.

(** ** Refinement *)

(** The check of the code refuses a vote exactly when 5 or more of
    the caller's votes are less than 60 seconds old. *)
Lemma rate_limited_iff_window uid now vs :
  rate_limited now (Some (recent_votes_query uid vs)) = true <->
  5 <= votes_in_window uid now vs.
Proof.
  rewrite votes_in_window_sorted.
  transitivity (4 < length (filter (fun v => in_window now (vote_created_at v))
                              (sorted_votes uid vs))); [|lia].
  rewrite (filter_sorted_prefix (key_ge vote_created_at) _ (in_window_up now) _ 4 dummy_vote)
    by apply order_desc_sorted.
  unfold rate_limited, recent_votes_query. fold (sorted_votes uid vs).
  set (s := sorted_votes uid vs).
  rewrite length_take, length_map.
  case_decide as Hlen.
  - assert (4 < length s) by lia. simpl.
    rewrite nth_take_lt by lia.
    rewrite (nth_indep _ 0%Z (vote_created_at dummy_vote)) by (rewrite length_map; lia).
    rewrite map_nth, time_diff_lt_60. split; [|intros [_ ?]]; auto with lia.
  - split; [done|]. lia.
Qed.

(** Ties between equal timestamps do not matter: any two vote tables
    with the same votes in another order get the same decision. *)
Corollary rate_limited_perm uid now vs1 vs2 :
  vs1 ≡ₚ vs2 ->
  rate_limited now (Some (recent_votes_query uid vs1)) =
  rate_limited now (Some (recent_votes_query uid vs2)).
Proof.
  intros Hp. apply eq_bool_prop_intro. rewrite !Is_true_true, !rate_limited_iff_window.
  unfold votes_in_window. by rewrite Hp.
Qed.

(** ** Witnesses *)

(** Two votes stamped at the same millisecond, stored in either order. *)
Lemma rate_limited_perm_witness :
  rate_limited 1000 (Some (recent_votes_query "U1"
    [mkVote "a" "P1" "U1" 0 500; mkVote "b" "P2" "U1" 0 500])) =
  rate_limited 1000 (Some (recent_votes_query "U1"
    [mkVote "b" "P2" "U1" 0 500; mkVote "a" "P1" "U1" 0 500])).
Proof.
  apply rate_limited_perm. apply (bool_decide_unpack _). vm_compute. exact I.
Defined.

End RateLimit.
