(* ===== verification/Vote.v ===== *)
(** * Vote submission

    The route [POST /api/polls/[id]/vote]
    ([src/app/api/polls/[id]/vote/route.ts]) and the server action
    [submitVote] ([src/app/lib/actions/poll-actions.ts], lines 122-168).
    Both run the same pipeline: session user, rate limiter, duplicate
    guard, insert.  Only the route validates [optionIndex].

    The theorems give the behaviour of every branch of the route, the
    guard as the route runs it (refused for speed exactly when the
    recent-votes query succeeds and the sliding window is full), the
    agreement of action and route, and the two ways the guards are
    lost: a failed rate query and a pair with two votes.

    Store round trips of one request, as counted by [ctx_fault]:
    0 = recent votes of the caller, 1 = the caller's vote on this poll,
    2 = the insert. *)

From S2P Require Import Prelude Http Db RateLimit.

Module Vote.
Import RateLimit.

(** ** Store round trips of the pipeline *)

(** Lines 31-36; [recentVotes] is [null] when the query fails. *)
Definition recent_votes_data (ctx : Ctx) (uid : string) (db : Db) : option (list Z) :=
  sb_data (round_trip ctx 0 (SbOk (recent_votes_query uid (votes db)))).

(** The caller's votes on one poll: [.eq("poll_id", pid).eq("user_id", uid)]. *)
Definition votes_for (pid uid : string) (vs : list vote) : list vote :=
  filter (fun v => vote_poll_id v = pid /\ vote_user_id v = uid) vs.

(** Lines 50-55: [existingVote] is [data] of [.single()], [null] when
    there is not exactly one row or the query fails. *)
Definition existing_vote (ctx : Ctx) (pid uid : string) (db : Db) : option vote :=
  sb_data (round_trip ctx 1 (single (votes_for pid uid (votes db)))).

(** The row of lines 64-70: [id] and [created_at] are column defaults. *)
Definition new_vote (ctx : Ctx) (pid uid : string) (q : Q) (db : Db) : vote :=
  mkVote (fresh_id db) pid uid q (ctx_now ctx).

Definition add_vote (ctx : Ctx) (pid uid : string) (q : Q) (db : Db) : Db :=
  bump_id (with_votes db (votes db ++ [new_vote ctx pid uid q db])).

(** [const { error } = await supabase.from("votes").insert([...])]. *)
Definition insert_vote (ctx : Ctx) (pid uid : string) (q : Q) (db : Db)
    : option string * Db :=
  match round_trip ctx 2 (SbOk tt) with
  | SbOk _ => (None, add_vote ctx pid uid q db)
  | SbErr m => (Some m, db)
  end.

(** ** The route *)

(** Line 11: [typeof optionIndex !== 'number' || optionIndex < 0]. *)
Definition valid_index (oi : jsval) : option Q :=
  match oi with
  | JsVal (JNum q) => if Qle_bool 0 q then Some q else None
  | _ => None
  end.

Definition msg_invalid_index : string := "Invalid option index".
Definition msg_login : string := "You must be logged in to vote.".
Definition msg_too_fast : string := "Voting too fast. Please wait before voting again.".
Definition msg_already : string := "You have already voted on this poll".

(** The whole handler.  [body] is [None] when [request.json()] throws;
    every exception lands in the [catch] of lines 80-85. *)
Definition vote_POST (ctx : Ctx) (params_id : string) (body : option json) (db : Db)
    : response * Db :=
  let! j := body else (internal_error, db) in
  let! oi := destructure j "optionIndex" else (internal_error, db) in
  let! optionIndex := valid_index oi else (error_response msg_invalid_index 400, db) in
  let! uid := ctx_user ctx else (error_response msg_login 401, db) in
  when rate_limited (ctx_now ctx) (recent_votes_data ctx uid db)
    return (error_response msg_too_fast 429, db) ;;
  match existing_vote ctx params_id uid db with
  | Some _ => (error_response msg_already 409, db)
  | None =>
      match insert_vote ctx params_id uid optionIndex db with
      | (Some m, db') => (error_response m 500, db')
      | (None, db') => (success_response, db')
      end
  end.

(** C21. Every answer of the vote route has the type its clients
    assume: [{ success: boolean }] with a 2xx status and
    [{ error: string }] otherwise, on every path, the body that is not
    JSON and the store errors included. *)
Theorem vote_POST_typed ctx pid body db :
  route_typed success_body (vote_POST ctx pid body db).1 = true.
Proof. unfold vote_POST. repeat case_match; reflexivity. Qed.

(** ** The server action *)

Definition submitVote (ctx : Ctx) (pollId : string) (optionIndex : Q) (db : Db)
    : action_result * Db :=
  let! uid := ctx_user ctx else (Some msg_login, db) in
  when rate_limited (ctx_now ctx) (recent_votes_data ctx uid db)
    return (Some msg_too_fast, db) ;;
  match existing_vote ctx pollId uid db with
  | Some _ => (Some msg_already, db)
  | None => insert_vote ctx pollId uid optionIndex db
  end.

(** ** Scenarios of the specification (section 8) *)

(** Caller [U1] at time [now] (ms), with every store call answered. *)
Definition u1_ctx (now : Z) : Ctx := mkCtx (Some "U1") None now (fun _ => None).

(** Poll [P1] with options [A] and [B], owned by [U2]. *)
Definition p1_db : Db :=
  with_polls empty_db [mkPoll "P1" "U2" "Pick one" ["A"; "B"] 0 None].

Definition body_index (q : Q) : json := JObj [("optionIndex", JNum q)].

(** [U1]'s votes 5, 10, 15, 20 and 25 seconds before [now] on polls
    [P2] to [P6]. *)
Definition busy_db (now : Z) : Db :=
  with_votes p1_db
    (map (fun k => mkVote (pretty k) ("P" +:+ pretty (k + 1)) "U1" 0
                          (now - 5000 * Z.of_nat k)%Z) [5; 4; 3; 2; 1]).

(** The duplicate-vote query of this request fails. *)
Definition flaky_ctx (call : nat) (now : Z) : Ctx :=
  mkCtx (Some "U1") None now (fun n => if decide (n = call) then Some "fetch failed" else None).

(** [U1] already has two votes on [P1]. *)
Definition doubled_db : Db :=
  with_votes p1_db [mkVote "0" "P1" "U1" 0 1000; mkVote "1" "P1" "U1" 1 1000].

(** ** Shape of the outcomes *)

(** A request either leaves the store as it was, or inserts exactly
    one vote after passing all the guards. *)
Definition inserted (ctx : Ctx) (pid : string) (q : Q) (db db' : Db) : Prop :=
  exists uid,
    ctx_user ctx = Some uid /\
    rate_limited (ctx_now ctx) (recent_votes_data ctx uid db) = false /\
    existing_vote ctx pid uid db = None /\
    ctx_fault ctx 2 = None /\
    db' = add_vote ctx pid uid q db.

Lemma insert_vote_cases ctx pid uid q db r db' :
  insert_vote ctx pid uid q db = (r, db') ->
  (r = None /\ ctx_fault ctx 2 = None /\ db' = add_vote ctx pid uid q db) \/
  (exists m, r = Some m /\ db' = db).
Proof.
  unfold insert_vote, round_trip. destruct (ctx_fault ctx 2); intros; simplify_eq; eauto.
Qed.

Lemma vote_POST_cases ctx pid body db r db' :
  vote_POST ctx pid body db = (r, db') ->
  db' = db \/ exists q, valid_index <$> (body ≫= fun j => destructure j "optionIndex") = Some (Some q)
                        /\ inserted ctx pid q db db'.
Proof.
  unfold vote_POST. destruct body as [j|]; simpl; [|intros; simplify_eq; auto].
  destruct (destructure j _) as [oi|]; simpl; [|intros; simplify_eq; auto].
  destruct (valid_index oi) as [q|]; [|intros; simplify_eq; auto].
  destruct (ctx_user ctx) as [uid|] eqn:Hu; [|intros; simplify_eq; auto].
  destruct (rate_limited _ _) eqn:Hr; [intros; simplify_eq; auto|].
  destruct (existing_vote _ _ _ _) eqn:He; [intros; simplify_eq; auto|].
  destruct (insert_vote _ _ _ _ _) as [[m|] db''] eqn:Hi; intros; simplify_eq;
    apply insert_vote_cases in Hi as [(?&?&?)|(?&?&?)]; simplify_eq; auto.
  right. exists q. split; [done|]. exists uid. auto.
Qed.

Lemma submitVote_cases ctx pid q db r db' :
  submitVote ctx pid q db = (r, db') -> db' = db \/ inserted ctx pid q db db'.
Proof.
  unfold submitVote.
  destruct (ctx_user ctx) as [uid|] eqn:Hu; [|intros; simplify_eq; auto].
  destruct (rate_limited _ _) eqn:Hr; [intros; simplify_eq; auto|].
  destruct (existing_vote _ _ _ _) eqn:He; [intros; simplify_eq; auto|].
  intros Hi. apply insert_vote_cases in Hi as [(?&?&?)|(?&?&?)]; simplify_eq; auto.
  right. exists uid. auto.
Qed.


(** ** The guards, one lemma each *)

Lemma rate_limited_data_false ctx uid db :
  votes_in_window uid (ctx_now ctx) (votes db) < 5 ->
  rate_limited (ctx_now ctx) (recent_votes_data ctx uid db) = false.
Proof.
  intros Hw. unfold recent_votes_data, round_trip.
  destruct (ctx_fault ctx 0); [done|]. cbn [sb_data].
  apply not_true_is_false. rewrite rate_limited_iff_window. lia.
Qed.

Lemma rate_limited_data_true ctx uid db :
  no_fault ctx 0 -> 5 <= votes_in_window uid (ctx_now ctx) (votes db) ->
  rate_limited (ctx_now ctx) (recent_votes_data ctx uid db) = true.
Proof.
  intros Hf Hw. unfold recent_votes_data. rewrite round_trip_ok by done.
  by apply rate_limited_iff_window.
Qed.

Lemma existing_vote_none ctx pid uid db :
  votes_for pid uid (votes db) = [] -> existing_vote ctx pid uid db = None.
Proof.
  intros Hn. unfold existing_vote, round_trip. rewrite Hn.
  by destruct (ctx_fault ctx 1).
Qed.

Lemma existing_vote_one ctx pid uid db v :
  no_fault ctx 1 -> votes_for pid uid (votes db) = [v] ->
  existing_vote ctx pid uid db = Some v.
Proof. intros Hf Hv. unfold existing_vote. by rewrite round_trip_ok, Hv. Qed.

Lemma insert_vote_ok ctx pid uid q db :
  no_fault ctx 2 -> insert_vote ctx pid uid q db = (None, add_vote ctx pid uid q db).
Proof. intros Hf. unfold insert_vote. by rewrite round_trip_ok. Qed.

Lemma valid_index_num q : (0 <= q)%Q -> valid_index (JsVal (JNum q)) = Some q.
Proof. intros Hq. simpl. by rewrite (proj2 (Qle_bool_iff 0 q) Hq). Qed.

#[local] Hint Resolve rate_limited_data_false rate_limited_data_true
  existing_vote_none existing_vote_one insert_vote_ok valid_index_num : polly.

(** Unfold the route down to the guards, given the body. *)
Ltac vote_route Hj Hq :=
  unfold vote_POST; cbv beta iota; rewrite Hj; cbv beta iota;
  rewrite (valid_index_num _ Hq); cbv beta iota.

(** ** Functional behaviour of the route *)

(** C1. The rate guard as the route runs it: a vote is refused for
    speed exactly when the recent-votes query succeeds and 5 or more of
    the caller's votes are less than 60 seconds old; a failed query
    never refuses. *)
Theorem rate_guard_refuses_iff ctx uid db :
  rate_limited (ctx_now ctx) (recent_votes_data ctx uid db) = true <->
  no_fault ctx 0 /\ 5 <= votes_in_window uid (ctx_now ctx) (votes db).
Proof.
  unfold recent_votes_data, no_fault, round_trip.
  destruct (ctx_fault ctx 0); cbn [sb_data].
  - split; [done|]. by intros [? _].
  - rewrite rate_limited_iff_window. split; [by split | by intros [_ ?]].
Qed.

(** C5. A logged-in caller with a non-negative numeric [optionIndex],
    fewer than 5 votes in the last 60 s and no vote on the poll gets
    200 [{ success: true }], and exactly the row
    [{ poll_id, user_id, option_index, created_at = now }] is appended
    to [votes].  The index is not checked against the poll's options,
    nor for being an integer, nor is the poll checked to exist. *)
Theorem vote_POST_records_vote ctx pid uid j q db :
  destructure j "optionIndex" = Some (JsVal (JNum q)) -> (0 <= q)%Q ->
  ctx_user ctx = Some uid ->
  votes_in_window uid (ctx_now ctx) (votes db) < 5 ->
  votes_for pid uid (votes db) = [] ->
  no_fault ctx 2 ->
  exists db', vote_POST ctx pid (Some j) db = (success_response, db') /\
    votes db' = votes db ++ [mkVote (fresh_id db) pid uid q (ctx_now ctx)] /\
    polls db' = polls db /\ comments db' = comments db /\ profiles db' = profiles db /\
    notifications db' = notifications db.
Proof.
  intros Hj Hq Hu Hw Hn Hf. vote_route Hj Hq. rewrite Hu.
  rewrite rate_limited_data_false, existing_vote_none, insert_vote_ok by done.
  by eexists.
Qed.

(** C8. Line 11: an [optionIndex] that is not a number, or a negative
    number, is refused with 400 before anything else, and the store is
    unchanged. *)
Theorem vote_POST_invalid_index ctx pid j oi db :
  destructure j "optionIndex" = Some oi ->
  (forall q, oi = JsVal (JNum q) -> (q < 0)%Q) ->
  vote_POST ctx pid (Some j) db = (error_response msg_invalid_index 400, db).
Proof.
  intros Hj Hneg. unfold vote_POST. simpl. rewrite Hj. simpl.
  destruct oi as [|[| |q| | |]]; simpl; try done.
  specialize (Hneg q eq_refl).
  destruct (Qle_bool 0 q) eqn:Hle; [|done].
  apply Qle_bool_iff in Hle. exfalso. by apply (Qlt_not_le q 0).
Qed.

(** C6. When the rate query succeeds and the caller has 5 or more
    votes less than 60 s old, the route answers 429 and the store is
    unchanged. *)
Theorem vote_POST_rate_limited ctx pid uid j q db :
  destructure j "optionIndex" = Some (JsVal (JNum q)) -> (0 <= q)%Q ->
  ctx_user ctx = Some uid -> no_fault ctx 0 ->
  5 <= votes_in_window uid (ctx_now ctx) (votes db) ->
  vote_POST ctx pid (Some j) db = (error_response msg_too_fast 429, db).
Proof.
  intros Hj Hq Hu Hf Hw. vote_route Hj Hq. rewrite Hu.
  by rewrite rate_limited_data_true.
Qed.

(** C7. A caller who has exactly one vote on the poll gets 409 and the
    store is unchanged. *)
Theorem vote_POST_conflict ctx pid uid j q v db :
  destructure j "optionIndex" = Some (JsVal (JNum q)) -> (0 <= q)%Q ->
  ctx_user ctx = Some uid ->
  votes_in_window uid (ctx_now ctx) (votes db) < 5 ->
  no_fault ctx 1 -> votes_for pid uid (votes db) = [v] ->
  vote_POST ctx pid (Some j) db = (error_response msg_already 409, db).
Proof.
  intros Hj Hq Hu Hw Hf Hv. vote_route Hj Hq. rewrite Hu.
  by rewrite rate_limited_data_false, (existing_vote_one _ _ _ _ v).
Qed.

(** A failed insert is reported as 500 with the store's message,
    and nothing is written. *)
Theorem vote_POST_insert_failure ctx pid uid j q db m :
  destructure j "optionIndex" = Some (JsVal (JNum q)) -> (0 <= q)%Q ->
  ctx_user ctx = Some uid ->
  votes_in_window uid (ctx_now ctx) (votes db) < 5 ->
  votes_for pid uid (votes db) = [] ->
  ctx_fault ctx 2 = Some m ->
  vote_POST ctx pid (Some j) db = (error_response m 500, db).
Proof.
  intros Hj Hq Hu Hw Hn Hf. vote_route Hj Hq. rewrite Hu.
  rewrite rate_limited_data_false, existing_vote_none by done.
  unfold insert_vote. by rewrite (round_trip_fault _ _ _ m).
Qed.

(** C9. Without a session user nothing is written and the request
    does not succeed, whatever the body. *)
Theorem vote_POST_unauthenticated ctx pid body db r db' :
  ctx_user ctx = None ->
  vote_POST ctx pid body db = (r, db') ->
  db' = db /\ r <> success_response.
Proof.
  intros Hu. unfold vote_POST.
  destruct body as [j|]; simpl; [|intros; simplify_eq; done].
  destruct (destructure j _) as [oi|]; simpl; [|intros; simplify_eq; done].
  destruct (valid_index oi); [|intros; simplify_eq; done].
  rewrite Hu. intros; simplify_eq; done.
Qed.

(** C12. Fail-open rate limiting: when the recent-votes query fails,
    [recentVotes] is [null], the limiter is skipped, and a caller's
    vote is recorded however many votes they cast in the last minute. *)
Theorem rate_check_fails_open ctx pid uid j q db m :
  destructure j "optionIndex" = Some (JsVal (JNum q)) -> (0 <= q)%Q ->
  ctx_user ctx = Some uid -> ctx_fault ctx 0 = Some m ->
  votes_for pid uid (votes db) = [] -> no_fault ctx 2 ->
  vote_POST ctx pid (Some j) db = (success_response, add_vote ctx pid uid q db).
Proof.
  intros Hj Hq Hu Hm Hn Hf. unfold vote_POST. cbv beta iota. rewrite Hj. cbv beta iota.
  rewrite (valid_index_num _ Hq). cbv beta iota. rewrite Hu.
  unfold recent_votes_data. rewrite (round_trip_fault _ _ _ m Hm). cbn [sb_data rate_limited].
  by rewrite existing_vote_none, insert_vote_ok.
Qed.

(** C13. The duplicate guard is lost for good: once a caller has two
    or more votes on a poll, [.single()] fails on every later check,
    [existingVote] is [null], and each new vote is recorded. *)
Theorem duplicate_guard_lost ctx pid uid j q db :
  destructure j "optionIndex" = Some (JsVal (JNum q)) -> (0 <= q)%Q ->
  ctx_user ctx = Some uid ->
  votes_in_window uid (ctx_now ctx) (votes db) < 5 ->
  2 <= length (votes_for pid uid (votes db)) -> no_fault ctx 2 ->
  vote_POST ctx pid (Some j) db = (success_response, add_vote ctx pid uid q db).
Proof.
  intros Hj Hq Hu Hw H2 Hf. unfold vote_POST. cbv beta iota. rewrite Hj. cbv beta iota.
  rewrite (valid_index_num _ Hq). cbv beta iota. rewrite Hu.
  rewrite rate_limited_data_false by done.
  assert (existing_vote ctx pid uid db = None) as ->.
  { unfold existing_vote, round_trip. destruct (ctx_fault ctx 1); [done|].
    apply single_none. lia. }
  by rewrite insert_vote_ok.
Qed.

(** ** The server action *)

(** [submitVote] has no check on [optionIndex]: for any number,
    negative ones included, a logged-in caller under the rate limit
    and without a vote on the poll gets [{ error: null }] and the vote
    is stored with that index. *)
Theorem submitVote_records_any_index ctx pid uid q db :
  ctx_user ctx = Some uid ->
  votes_in_window uid (ctx_now ctx) (votes db) < 5 ->
  votes_for pid uid (votes db) = [] ->
  no_fault ctx 2 ->
  submitVote ctx pid q db = (None, add_vote ctx pid uid q db).
Proof.
  intros Hu Hw Hn Hf. unfold submitVote. rewrite Hu.
  by rewrite rate_limited_data_false, existing_vote_none, insert_vote_ok.
Qed.

(** C36. On a valid index the route and the action are the same
    program: they leave the same store and report the same error
    message, [null] on success. *)
Theorem submitVote_agrees_with_route ctx pid j q db :
  destructure j "optionIndex" = Some (JsVal (JNum q)) -> (0 <= q)%Q ->
  snd (vote_POST ctx pid (Some j) db) = snd (submitVote ctx pid q db) /\
  response_error (fst (vote_POST ctx pid (Some j) db)) = fst (submitVote ctx pid q db).
Proof.
  intros Hj Hq. vote_route Hj Hq. unfold submitVote.
  destruct (ctx_user ctx); [|done].
  destruct (rate_limited _ _); [done|].
  destruct (existing_vote _ _ _ _); [done|].
  by destruct (insert_vote _ _ _ _ _) as [[m|] db'].
Qed.

(** ** Witnesses *)

(** The first scenario of the specification: [U1] votes for option 1
    of [P1] with no earlier vote. *)
Lemma vote_POST_records_vote_witness :
  exists db', vote_POST (u1_ctx 100000) "P1" (Some (body_index 1)) p1_db = (success_response, db') /\
    votes db' = votes p1_db ++ [mkVote (fresh_id p1_db) "P1" "U1" 1 (ctx_now (u1_ctx 100000))] /\
    polls db' = polls p1_db /\ comments db' = comments p1_db /\ profiles db' = profiles p1_db /\
    notifications db' = notifications p1_db.
Proof.
  apply (vote_POST_records_vote _ _ "U1" _ 1).
  all: first [reflexivity | apply Qle_bool_imp_le; reflexivity | vm_compute; lia].
Defined.

Lemma vote_POST_invalid_index_witness :
  vote_POST (u1_ctx 100000) "P1" (Some (body_index (-1))) p1_db =
  (error_response msg_invalid_index 400, p1_db).
Proof.
  apply (vote_POST_invalid_index _ _ _ (JsVal (JNum (-1)))); [reflexivity|].
  intros q Hq. injection Hq as <-. reflexivity.
Defined.

(** The second scenario: a sixth vote 5 s after five others. *)
Lemma vote_POST_rate_limited_witness :
  vote_POST (u1_ctx 100000) "P1" (Some (body_index 1)) (busy_db 100000) =
  (error_response msg_too_fast 429, busy_db 100000).
Proof.
  apply (vote_POST_rate_limited _ _ "U1" _ 1).
  all: first [reflexivity | apply Qle_bool_imp_le; reflexivity | vm_compute; lia].
Defined.

(** The third scenario: [U1] votes on [P1] twice. *)
Lemma vote_POST_conflict_witness :
  let db := snd (vote_POST (u1_ctx 100000) "P1" (Some (body_index 1)) p1_db) in
  vote_POST (u1_ctx 100500) "P1" (Some (body_index 0)) db =
  (error_response msg_already 409, db).
Proof.
  apply (vote_POST_conflict _ _ "U1" _ 0
           (new_vote (u1_ctx 100000) "P1" "U1" 1 p1_db)).
  all: first [reflexivity | apply Qle_bool_imp_le; reflexivity | vm_compute; lia].
Defined.

Lemma vote_POST_insert_failure_witness :
  vote_POST (mkCtx (Some "U1") None 100000 (fun n => if decide (n = 2) then Some "timeout" else None))
    "P1" (Some (body_index 1)) p1_db =
  (error_response "timeout" 500, p1_db).
Proof.
  apply (vote_POST_insert_failure _ _ "U1" _ 1).
  all: first [reflexivity | apply Qle_bool_imp_le; reflexivity | vm_compute; lia].
Defined.

Lemma vote_POST_unauthenticated_witness :
  snd (vote_POST (mkCtx None None 100000 (fun _ => None)) "P1" (Some (body_index 1)) p1_db)
  = p1_db.
Proof.
  destruct (vote_POST_unauthenticated (mkCtx None None 100000 (fun _ => None)) "P1"
              (Some (body_index 1)) p1_db _ _ eq_refl
              (surjective_pairing _)) as [H _].
  exact H.
Defined.

(** The action stores a negative index. *)
Lemma submitVote_records_any_index_witness :
  submitVote (u1_ctx 100000) "P1" (-1) p1_db =
  (None, add_vote (u1_ctx 100000) "P1" "U1" (-1) p1_db).
Proof.
  apply submitVote_records_any_index.
  all: first [reflexivity | vm_compute; lia].
Defined.

Lemma submitVote_agrees_with_route_witness :
  snd (vote_POST (u1_ctx 100000) "P1" (Some (body_index 1)) (busy_db 100000)) =
  snd (submitVote (u1_ctx 100000) "P1" 1 (busy_db 100000)) /\
  response_error (fst (vote_POST (u1_ctx 100000) "P1" (Some (body_index 1)) (busy_db 100000))) =
  fst (submitVote (u1_ctx 100000) "P1" 1 (busy_db 100000)).
Proof.
  apply submitVote_agrees_with_route; [reflexivity|].
  apply Qle_bool_imp_le. reflexivity.
Defined.

(** With the rate query failing, a sixth vote in 25 seconds is
    recorded and the window holds 6 votes. *)
Lemma rate_check_fails_open_witness :
  vote_POST (flaky_ctx 0 100000) "P1" (Some (body_index 1)) (busy_db 100000) =
    (success_response, add_vote (flaky_ctx 0 100000) "P1" "U1" 1 (busy_db 100000)) /\
  votes_in_window "U1" 100000 (votes (add_vote (flaky_ctx 0 100000) "P1" "U1" 1 (busy_db 100000)))
    = 6.
Proof.
  split; [|vm_compute; reflexivity].
  apply (rate_check_fails_open _ _ "U1" _ 1 _ "fetch failed").
  all: first [reflexivity | apply Qle_bool_imp_le; reflexivity].
Defined.

(** A third vote of [U1] on [P1] is recorded. *)
Lemma duplicate_guard_lost_witness :
  vote_POST (u1_ctx 100000) "P1" (Some (body_index 0)) doubled_db =
    (success_response, add_vote (u1_ctx 100000) "P1" "U1" 0 doubled_db) /\
  length (votes_for "P1" "U1" (votes (add_vote (u1_ctx 100000) "P1" "U1" 0 doubled_db))) = 3.
Proof.
  split; [|vm_compute; reflexivity].
  apply (duplicate_guard_lost _ _ "U1" _ 0).
  all: first [reflexivity | apply Qle_bool_imp_le; reflexivity | vm_compute; lia].
Defined.

End Vote.
