(* ===== verification/VoteSafety.v ===== *)
(** * What the vote pipeline guarantees, and what breaks it

    Two invariants of the [votes] table, for requests handled one after
    the other in time order:
    - at most one vote per (poll, voter) pair, the intent of lines 49-62
      of the route;
    - at most 5 votes of a caller in any 60 s window, the intent of the
      rate limiter ("5 votes per minute").
    Both hold in every state reachable from the empty store by such
    requests ([reachable_invariants]), as long as the two guard queries
    do not fail.

    They fail otherwise: [Vote.v] shows that a failed rate query turns
    the limiter off ([Vote.rate_check_fails_open]) and that once a pair
    has two votes (a failed duplicate query, or the race of [Race.v])
    [.single()] errors on every later check and the duplicate guard
    never fires again ([Vote.duplicate_guard_lost]). *)

From S2P Require Import Prelude Http Db RateLimit Vote.

Module VoteSafety.
Import RateLimit Vote.

(** ** Invariants *)

Definition one_vote_per_voter (db : Db) : Prop :=
  forall pid uid, length (votes_for pid uid (votes db)) <= 1.

(** The caller's votes stamped in the window [(T - 60 s, T]]. *)
Definition window_count (uid : string) (T : Z) (vs : list vote) : nat :=
  length (filter (fun v => vote_user_id v = uid /\
                           (T - 60000 < vote_created_at v <= T)%Z) vs).

Definition rate_respected (db : Db) : Prop :=
  forall uid T, window_count uid T (votes db) <= 5.

(** The request clock is not behind any stored vote. *)
Definition clock_after (now : Z) (db : Db) : Prop :=
  Forall (fun v => (vote_created_at v <= now)%Z) (votes db).

(** ** Sequential executions *)

Inductive vote_request :=
| RouteReq (pid : string) (body : option json)
| ActionReq (pid : string) (q : Q).

Definition run_request (ctx : Ctx) (req : vote_request) (db : Db) : Db :=
  match req with
  | RouteReq pid b => snd (vote_POST ctx pid b db)
  | ActionReq pid q => snd (submitVote ctx pid q db)
  end.

(** One request, handled after all earlier ones, with its guard
    queries answered. *)
Inductive seq_step : Db -> Db -> Prop :=
| SeqStep ctx req db :
    no_fault ctx 0 -> no_fault ctx 1 -> clock_after (ctx_now ctx) db ->
    seq_step db (run_request ctx req db).

Inductive reachable : Db -> Prop :=
| reach_init : reachable empty_db
| reach_step db db' : reachable db -> seq_step db db' -> reachable db'.

(** ** Lemmas *)

Lemma votes_add_vote ctx pid uid q db :
  votes (add_vote ctx pid uid q db) = votes db ++ [new_vote ctx pid uid q db].
Proof. done. Qed.

Lemma run_request_cases ctx req db :
  run_request ctx req db = db \/
  exists pid q, inserted ctx pid q db (run_request ctx req db).
Proof.
  destruct req as [pid b|pid q]; simpl.
  - destruct (vote_POST ctx pid b db) as [r db'] eqn:E. simpl.
    apply vote_POST_cases in E as [->|(q&_&Hi)]; eauto.
  - destruct (submitVote ctx pid q db) as [r db'] eqn:E. simpl.
    apply submitVote_cases in E as [->|Hi]; eauto.
Qed.

(** With its query answered, the duplicate guard lets a vote through
    only when the pair has no vote or more than one. *)
Lemma existing_vote_none_length ctx pid uid db :
  no_fault ctx 1 -> existing_vote ctx pid uid db = None ->
  length (votes_for pid uid (votes db)) <> 1.
Proof.
  intros Hf. unfold existing_vote. rewrite round_trip_ok by done.
  destruct (votes_for pid uid (votes db)) as [|v [|w l]]; simpl; done || lia.
Qed.

(** With its query answered, the rate guard lets a vote through only
    when fewer than 5 of the caller's votes are in the window. *)
Lemma rate_limited_false_window ctx uid db :
  no_fault ctx 0 -> rate_limited (ctx_now ctx) (recent_votes_data ctx uid db) = false ->
  votes_in_window uid (ctx_now ctx) (votes db) < 5.
Proof.
  intros Hf. unfold recent_votes_data. rewrite round_trip_ok by done. cbn [sb_data].
  intros Hr. destruct (decide (5 <= votes_in_window uid (ctx_now ctx) (votes db))) as [Hw|];
    [|lia].
  apply rate_limited_iff_window in Hw. congruence.
Qed.

Lemma votes_for_new ctx pid uid q db p u :
  length (votes_for p u [new_vote ctx pid uid q db]) =
  if decide (pid = p /\ uid = u) then 1 else 0.
Proof.
  unfold votes_for. rewrite filter_cons, filter_nil. simpl.
  repeat case_decide; simpl; naive_solver.
Qed.

Lemma inserted_one_vote ctx pid q db db' :
  no_fault ctx 1 -> one_vote_per_voter db -> inserted ctx pid q db db' ->
  one_vote_per_voter db'.
Proof.
  intros Hf Hinv (uid & _ & _ & He & _ & ->) p u.
  apply existing_vote_none_length in He; [|done].
  rewrite votes_add_vote. unfold votes_for at 1.
  rewrite length_filter_app. fold (votes_for p u (votes db)).
  fold (votes_for p u [new_vote ctx pid uid q db]).
  rewrite votes_for_new. specialize (Hinv p u).
  case_decide as Heq; [destruct Heq; subst|]; lia.
Qed.

Lemma window_count_new ctx pid uid q db u T :
  window_count u T [new_vote ctx pid uid q db] =
  if decide (uid = u /\ (T - 60000 < ctx_now ctx <= T)%Z) then 1 else 0.
Proof.
  unfold window_count. rewrite filter_cons, filter_nil. simpl.
  repeat case_decide; simpl; naive_solver.
Qed.

(** A window that contains [now] contains no more of the old votes than
    the window the limiter looked at. *)
Lemma window_count_le_in_window uid T now vs :
  Forall (fun v => (vote_created_at v <= now)%Z) vs -> (T - 60000 < now <= T)%Z ->
  window_count uid T vs <= votes_in_window uid now vs.
Proof.
  intros Hclock HT. apply length_filter_le.
  eapply Forall_impl; [exact Hclock|]. unfold in_window. simpl.
  intros v Hv [Hu Ht]. split; [done|lia].
Qed.

Lemma inserted_rate ctx pid q db db' :
  no_fault ctx 0 -> clock_after (ctx_now ctx) db -> rate_respected db ->
  inserted ctx pid q db db' -> rate_respected db'.
Proof.
  intros Hf Hclock Hinv (uid & _ & Hr & _ & _ & ->) u T.
  apply rate_limited_false_window in Hr; [|done].
  rewrite votes_add_vote. unfold window_count at 1.
  rewrite length_filter_app. fold (window_count u T (votes db)).
  fold (window_count u T [new_vote ctx pid uid q db]).
  rewrite window_count_new. specialize (Hinv u T).
  case_decide as Hin; [|lia]. destruct Hin as [-> HT].
  pose proof (window_count_le_in_window u T (ctx_now ctx) (votes db) Hclock HT). lia.
Qed.

Lemma seq_step_invariants db db' :
  seq_step db db' -> one_vote_per_voter db -> rate_respected db ->
  one_vote_per_voter db' /\ rate_respected db'.
Proof.
  intros Hs H1 H2. inversion Hs as [ctx req ? Hf0 Hf1 Hclock]; subst.
  destruct (run_request_cases ctx req db) as [->|(pid & q & Hi)]; [done|].
  split; [by eapply inserted_one_vote | by eapply inserted_rate].
Qed.

(** ** Theorems *)

(** C3. A route request whose duplicate query is answered keeps every
    (poll, voter) pair at one vote or fewer. *)
Theorem vote_POST_preserves_one_vote ctx pid body db :
  no_fault ctx 1 -> one_vote_per_voter db ->
  one_vote_per_voter (snd (vote_POST ctx pid body db)).
Proof.
  intros Hf Hinv. destruct (vote_POST ctx pid body db) as [r db'] eqn:E. simpl.
  apply vote_POST_cases in E as [->|(q & _ & Hi)]; [done|].
  by eapply inserted_one_vote.
Qed.

(** C4. A route request whose rate query is answered, handled at a
    time not earlier than any stored vote, keeps every caller at 5
    votes or fewer in every 60 s window. *)
Theorem vote_POST_preserves_rate_window ctx pid body db :
  no_fault ctx 0 -> clock_after (ctx_now ctx) db -> rate_respected db ->
  rate_respected (snd (vote_POST ctx pid body db)).
Proof.
  intros Hf Hclock Hinv. destruct (vote_POST ctx pid body db) as [r db'] eqn:E. simpl.
  apply vote_POST_cases in E as [->|(q & _ & Hi)]; [done|].
  by eapply inserted_rate.
Qed.

(** C2. Every store reachable from the empty one by route and action
    requests handled in time order, with their guard queries answered,
    has at most one vote per (poll, voter) and at most 5 votes per
    caller in any 60 s window. *)
Theorem reachable_invariants db :
  reachable db -> one_vote_per_voter db /\ rate_respected db.
Proof.
  induction 1 as [|db db' _ [IH1 IH2] Hstep].
  - split; intros ??; [unfold votes_for | unfold window_count]; simpl; lia.
  - by apply (seq_step_invariants db).
Qed.

(** ** Witnesses *)

Lemma reachable_invariants_witness :
  let db := run_request (u1_ctx 200000) (ActionReq "P2" 0)
              (run_request (u1_ctx 100000) (RouteReq "P1" (Some (body_index 1))) empty_db) in
  one_vote_per_voter db /\ rate_respected db.
Proof.
  apply reachable_invariants.
  apply reach_step with
    (db := run_request (u1_ctx 100000) (RouteReq "P1" (Some (body_index 1))) empty_db).
  - apply reach_step with (db := empty_db); [apply reach_init|].
    apply SeqStep; [reflexivity | reflexivity | constructor].
  - apply SeqStep; [reflexivity | reflexivity |].
    apply (bool_decide_unpack _). vm_compute. exact I.
Defined.

Lemma vote_POST_preserves_one_vote_witness :
  one_vote_per_voter (snd (vote_POST (u1_ctx 100000) "P1" (Some (body_index 1)) p1_db)).
Proof.
  apply vote_POST_preserves_one_vote; [reflexivity|].
  intros pid uid. vm_compute. lia.
Defined.

Lemma vote_POST_preserves_rate_window_witness :
  rate_respected (snd (vote_POST (u1_ctx 100000) "P1" (Some (body_index 1)) (busy_db 100000))).
Proof.
  apply vote_POST_preserves_rate_window; [reflexivity | |].
  - apply (bool_decide_unpack _). vm_compute. exact I.
  - intros uid T. unfold window_count. etrans; [apply length_filter|]. vm_compute. lia.
Defined.

End VoteSafety.
