(* ===== verification/Race.v ===== *)
(** * Concurrent vote requests

    Each request of [submitVote] (and of the vote route past its input
    checks, [Vote.submitVote_agrees_with_route]) makes three store round
    trips: the rate query, the duplicate query and the insert.  Next.js
    serves requests concurrently and the code takes no lock, so round
    trips of different requests interleave.

    A request is a thread with a program counter ([thread]).  A
    configuration is the store and the list of threads.  [cstep] runs
    one round trip of one unfinished thread.  A thread run alone computes
    exactly [submitVote] ([thread_alone_is_submitVote]).  Two requests
    of the same caller on the same poll can both pass the duplicate
    guard and both insert ([double_vote_race]): the race the
    specification names in its section 4.1.  The same holds of the rate
    limiter: requests that all read the recent votes before any insert
    all pass, so any number of votes lands in one minute
    ([rate_limit_race]).  For many requests, [cstep_frame] lets a step
    of one thread ignore the threads around it, and the schedule runs
    every rate check first ([start_phase]) and then each request's
    check and insert in turn ([insert_phase]). *)

From S2P Require Import Prelude Http Db RateLimit Vote.

Module Race.
Import RateLimit Vote.

(** The program counter of one request, after [getUser]. *)
Inductive thread :=
| TStart (ctx : Ctx) (pid : string) (q : Q)
| TRated (ctx : Ctx) (uid pid : string) (q : Q)
| TChecked (ctx : Ctx) (uid pid : string) (q : Q)
| TDone (r : action_result).

(** One round trip of a thread against the current store. *)
Definition thread_step (t : thread) (db : Db) : thread * Db :=
  match t with
  | TStart ctx pid q =>
      let! uid := ctx_user ctx else (TDone (Some msg_login), db) in
      when rate_limited (ctx_now ctx) (recent_votes_data ctx uid db)
        return (TDone (Some msg_too_fast), db) ;;
      (TRated ctx uid pid q, db)
  | TRated ctx uid pid q =>
      match existing_vote ctx pid uid db with
      | Some _ => (TDone (Some msg_already), db)
      | None => (TChecked ctx uid pid q, db)
      end
  | TChecked ctx uid pid q =>
      let (r, db') := insert_vote ctx pid uid q db in (TDone r, db')
  | TDone r => (TDone r, db)
  end.

Definition is_done (t : thread) : Prop := match t with TDone _ => True | _ => False end.

#[export] Instance is_done_dec t : Decision (is_done t).
Proof. destruct t; simpl; apply _. Defined.

Definition config : Type := Db * list thread.

(** The scheduler picks any unfinished thread. *)
Inductive cstep : config -> config -> Prop :=
| CStep db ts i t t' db' :
    ts !! i = Some t -> ~ is_done t -> thread_step t db = (t', db') ->
    cstep (db, ts) (db', <[i:=t']> ts).

(** A thread run alone for [fuel] round trips. *)
Fixpoint run_alone (fuel : nat) (t : thread) (db : Db) : thread * Db :=
  match fuel with
  | 0 => (t, db)
  | S n => let (t', db') := thread_step t db in run_alone n t' db'
  end.

(** ** Many requests *)

(** A request of the action: its context, the poll and the index. *)
Definition req : Type := Ctx * string * Q.
Definition req_ctx (r : req) : Ctx := r.1.1.
Definition req_poll (r : req) : string := r.1.2.

Definition start (r : req) : thread := TStart (req_ctx r) (req_poll r) r.2.
Definition rated (uid : string) (r : req) : thread := TRated (req_ctx r) uid (req_poll r) r.2.

(** The store after the requests' inserts, in list order. *)
Fixpoint insert_all (uid : string) (rs : list req) (db : Db) : Db :=
  match rs with
  | [] => db
  | r :: rs' => insert_all uid rs' (add_vote (req_ctx r) (req_poll r) uid r.2 db)
  end.

(** Six requests of [U1] on six polls, at time [now]. *)
Definition six_requests (now : Z) : list req :=
  (fun pid => (u1_ctx now, pid, 0%Q)) <$> ["P1"; "P2"; "P3"; "P4"; "P5"; "P6"].

(** ** Lemmas *)

Lemma cstep_to db ts ts' i t t' db' :
  ts !! i = Some t -> ~ is_done t -> thread_step t db = (t', db') -> <[i:=t']> ts = ts' ->
  cstep (db, ts) (db', ts').
Proof. intros ??? <-. by econstructor. Qed.

Lemma thread_step_start ctx pid q uid db :
  ctx_user ctx = Some uid ->
  rate_limited (ctx_now ctx) (recent_votes_data ctx uid db) = false ->
  thread_step (TStart ctx pid q) db = (TRated ctx uid pid q, db).
Proof. intros Hu Hr. simpl. by rewrite Hu, Hr. Qed.

Lemma thread_step_rated ctx uid pid q db :
  existing_vote ctx pid uid db = None ->
  thread_step (TRated ctx uid pid q) db = (TChecked ctx uid pid q, db).
Proof. intros He. simpl. by rewrite He. Qed.

Lemma thread_step_checked ctx uid pid q db :
  no_fault ctx 2 ->
  thread_step (TChecked ctx uid pid q) db = (TDone None, add_vote ctx pid uid q db).
Proof. intros Hf. simpl. by rewrite insert_vote_ok. Qed.

Lemma votes_for_add_vote_same ctx pid uid q db :
  votes_for pid uid (votes (add_vote ctx pid uid q db)) =
  votes_for pid uid (votes db) ++ [new_vote ctx pid uid q db].
Proof.
  unfold votes_for. simpl. rewrite filter_app, filter_cons, filter_nil.
  by rewrite decide_True by done.
Qed.

Lemma votes_for_add_vote_other ctx pid pid' uid q db :
  pid' <> pid -> votes_for pid' uid (votes (add_vote ctx pid uid q db)) = votes_for pid' uid (votes db).
Proof.
  intros Hp. unfold votes_for. simpl. rewrite filter_app, filter_cons, filter_nil.
  rewrite decide_False by (intros [Hp' _]; apply Hp; simpl in Hp'; congruence).
  by rewrite app_nil_r.
Qed.

(** Other requests around a step do not matter. *)
Lemma cstep_frame pre post db ts db' ts' :
  cstep (db, ts) (db', ts') -> cstep (db, pre ++ ts ++ post) (db', pre ++ ts' ++ post).
Proof.
  intros Hc. inversion Hc as [db0 ts0 i t t' db1 Hi Hnd Hs]; subst.
  apply (cstep_to _ _ _ (length pre + i) t t'); [| done | done |].
  - rewrite lookup_app_r by lia. replace (length pre + i - length pre) with i by lia.
    by apply lookup_app_l_Some.
  - rewrite insert_app_r, insert_app_l; [done|]. by eapply lookup_lt_Some.
Qed.

Lemma rtc_frame pre post c c' :
  rtc cstep c c' -> rtc cstep (c.1, pre ++ c.2 ++ post) (c'.1, pre ++ c'.2 ++ post).
Proof.
  induction 1 as [c|[db1 ts1] [db2 ts2] c3 Hs _ IH]; [done|].
  eapply rtc_l; [|exact IH]. by apply cstep_frame.
Qed.

(** A step of the thread at the front of [rest], after the threads [pre]. *)
Lemma cstep_front pre rest db t t' db' :
  ~ is_done t -> thread_step t db = (t', db') ->
  cstep (db, pre ++ t :: rest) (db', (pre ++ [t']) ++ rest).
Proof.
  intros Hnd Hs. rewrite <-app_assoc.
  apply (cstep_frame pre rest db [t] db' [t']).
  by apply (cstep_to _ _ _ 0 t t').
Qed.

(** Phase one: every request reads the recent votes, and none is refused. *)
Lemma start_phase uid db pre rs :
  Forall (fun r => ctx_user (req_ctx r) = Some uid /\
                   rate_limited (ctx_now (req_ctx r)) (recent_votes_data (req_ctx r) uid db) = false) rs ->
  rtc cstep (db, pre ++ (start <$> rs)) (db, pre ++ (rated uid <$> rs)).
Proof.
  revert pre. induction rs as [|r rs IH]; intros pre Hall; [done|].
  inversion Hall as [|? ? [Hu Hr] Hrest]; subst. rewrite !fmap_cons.
  eapply rtc_l; [apply cstep_front; [simpl; tauto | by apply thread_step_start]|].
  replace (pre ++ rated uid r :: (rated uid <$> rs))
    with ((pre ++ [rated uid r]) ++ (rated uid <$> rs)) by (by rewrite <-app_assoc).
  by apply IH.
Qed.

(** Phase two: each request checks its poll and inserts, in turn. *)
Lemma insert_phase uid pre rs db :
  Forall (fun r => no_fault (req_ctx r) 2 /\ votes_for (req_poll r) uid (votes db) = []) rs ->
  NoDup (req_poll <$> rs) ->
  rtc cstep (db, pre ++ (rated uid <$> rs))
            (insert_all uid rs db, pre ++ ((fun _ => TDone None) <$> rs)).
Proof.
  revert pre db. induction rs as [|r rs IH]; intros pre db Hall Hnd; [done|].
  inversion Hall as [|? ? [Hf Hn] Hrest]; subst. rewrite !fmap_cons in *.
  apply NoDup_cons in Hnd as [Hnotin Hnd].
  eapply rtc_l; [apply cstep_front; [simpl; tauto | by apply thread_step_rated, existing_vote_none]|].
  rewrite <-app_assoc. simpl.
  eapply rtc_l; [apply cstep_front; [simpl; tauto | by apply thread_step_checked]|].
  replace (pre ++ TDone None :: ((fun _ => TDone None) <$> rs))
    with ((pre ++ [TDone None]) ++ ((fun _ => TDone None) <$> rs)) by (by rewrite <-app_assoc).
  apply IH; [|done].
  apply Forall_forall. intros r' Hr'. rewrite Forall_forall in Hrest.
  destruct (Hrest r' Hr') as [Hf' Hn']. split; [done|].
  rewrite votes_for_add_vote_other; [done|].
  intros Heq. apply Hnotin. rewrite <-Heq. by apply list_elem_of_fmap_2.
Qed.

Lemma window_insert_all uid now rs db :
  Forall (fun r => ctx_now (req_ctx r) = now) rs ->
  votes_in_window uid now (votes (insert_all uid rs db)) = votes_in_window uid now (votes db) + length rs.
Proof.
  revert db. induction rs as [|r rs IH]; intros db Hall; simpl; [lia|].
  inversion Hall as [|? ? Hnow Hrest]; subst. rewrite IH by done.
  unfold votes_in_window. simpl. rewrite filter_app, length_app, filter_cons, filter_nil.
  rewrite decide_True; [simpl; lia|]. split; [done|]. unfold in_window. simpl. lia.
Qed.

(** ** Theorems *)

(** A request run with no other request in between computes
    exactly the server action: the interleaving model refines
    [submitVote]. *)
Theorem thread_alone_is_submitVote ctx pid q db :
  let (t, db') := run_alone 3 (TStart ctx pid q) db in
  t = TDone (fst (submitVote ctx pid q db)) /\ db' = snd (submitVote ctx pid q db).
Proof.
  unfold submitVote. simpl.
  destruct (ctx_user ctx) as [uid|]; [|done].
  destruct (rate_limited _ _); [done|]. simpl.
  destruct (existing_vote _ _ _ _); [done|]. simpl.
  by destruct (insert_vote _ _ _ _ _).
Qed.

(** C10. The known race.  Two requests of one caller on one poll where
    the caller has no vote yet: if both rate queries and both duplicate
    queries run before either insert, both requests succeed and the
    pair ends with two votes. *)
Theorem double_vote_race ctx1 ctx2 pid uid q1 q2 db :
  ctx_user ctx1 = Some uid -> ctx_user ctx2 = Some uid ->
  votes_in_window uid (ctx_now ctx1) (votes db) < 5 ->
  votes_in_window uid (ctx_now ctx2) (votes db) < 5 ->
  votes_for pid uid (votes db) = [] ->
  no_fault ctx1 2 -> no_fault ctx2 2 ->
  exists db',
    rtc cstep (db, [TStart ctx1 pid q1; TStart ctx2 pid q2]) (db', [TDone None; TDone None]) /\
    length (votes_for pid uid (votes db')) = 2.
Proof.
  intros Hu1 Hu2 Hw1 Hw2 Hn Hf1 Hf2.
  eexists. split.
  - (* both rate checks, both duplicate checks, then both inserts *)
    eapply rtc_l.
    { eapply (cstep_to _ _ _ 0); [reflexivity | simpl; tauto | |reflexivity].
      by apply thread_step_start, rate_limited_data_false. }
    eapply rtc_l.
    { eapply (cstep_to _ _ _ 1); [reflexivity | simpl; tauto | |reflexivity].
      by apply thread_step_start, rate_limited_data_false. }
    eapply rtc_l.
    { eapply (cstep_to _ _ _ 0); [reflexivity | simpl; tauto | |reflexivity].
      by apply thread_step_rated, existing_vote_none. }
    eapply rtc_l.
    { eapply (cstep_to _ _ _ 1); [reflexivity | simpl; tauto | |reflexivity].
      by apply thread_step_rated, existing_vote_none. }
    eapply rtc_l.
    { eapply (cstep_to _ _ _ 0); [reflexivity | simpl; tauto | |reflexivity].
      by apply thread_step_checked. }
    apply rtc_once.
    eapply (cstep_to _ _ _ 1); [reflexivity | simpl; tauto | |reflexivity].
    by apply thread_step_checked.
  - rewrite !votes_for_add_vote_same, Hn. done.
Qed.

(** C11. The rate limit does not hold under concurrency.  Requests of
    one caller, each on a poll the caller has not voted on, that all
    read the recent votes before any of them inserts, all pass the
    check and are all recorded: the caller gains one vote in the window
    per request, however many there are. *)
Theorem rate_limit_race uid now rs db :
  Forall (fun r => ctx_user (req_ctx r) = Some uid /\ ctx_now (req_ctx r) = now /\
                   no_fault (req_ctx r) 2) rs ->
  NoDup (req_poll <$> rs) ->
  Forall (fun r => votes_for (req_poll r) uid (votes db) = []) rs ->
  votes_in_window uid now (votes db) < 5 ->
  exists db',
    rtc cstep (db, start <$> rs) (db', (fun _ => TDone None) <$> rs) /\
    votes_in_window uid now (votes db') = votes_in_window uid now (votes db) + length rs.
Proof.
  intros Hall Hnd Hnone Hw. exists (insert_all uid rs db). split.
  - eapply rtc_trans.
    + apply (start_phase uid db [] rs). eapply Forall_impl; [exact Hall|].
      intros r (Hu & Hnow & _). split; [done|]. apply rate_limited_data_false. by rewrite Hnow.
    + apply (insert_phase uid [] rs db); [|done].
      apply Forall_and. split; [|done]. eapply Forall_impl; [exact Hall|]. by intros r (_ & _ & Hf).
  - apply window_insert_all. eapply Forall_impl; [exact Hall|]. by intros r (_ & Hnow & _).
Qed.

(** ** Witnesses *)

(** [U1] sends two votes on [P1] one millisecond apart. *)
Lemma double_vote_race_witness :
  exists db',
    rtc cstep (p1_db, [TStart (u1_ctx 100000) "P1" 0; TStart (u1_ctx 100001) "P1" 1])
      (db', [TDone None; TDone None]) /\
    length (votes_for "P1" "U1" (votes db')) = 2.
Proof.
  apply (double_vote_race _ _ _ "U1").
  all: first [reflexivity | vm_compute; lia].
Defined.

(** Six concurrent requests of a caller with no vote: six votes in one
    minute. *)
Lemma rate_limit_race_witness :
  exists db',
    rtc cstep (empty_db, start <$> six_requests 100000) (db', (fun _ => TDone None) <$> six_requests 100000) /\
    votes_in_window "U1" 100000 (votes db') = votes_in_window "U1" 100000 (votes empty_db) + 6.
Proof.
  apply (rate_limit_race "U1" 100000 (six_requests 100000) empty_db).
  - repeat constructor.
  - apply (bool_decide_unpack _). vm_compute. exact I.
  - repeat constructor.
  - vm_compute. lia.
Defined.

End Race.
