(* ===== verification/Libraries.v ===== *)
(** * The external libraries the handlers call

    Two npm packages the code imports, as interfaces whose laws are what
    the handlers rely on:
    - [csrf] ([import Tokens from 'csrf']): [secret()] draws a fresh
      random secret, [create(secret)] makes a token (salt, a dash, and a
      keyed hash), and [verify(secret, token)] checks that the token was
      made from that secret.  The laws state what the package promises:
      a non-string token never verifies; a token verifies exactly when
      it was created from the secret; tokens are written in the URL-safe
      base64 alphabet; a token names its secret (the hash is taken to be
      collision-free); fresh secrets differ.
    - [dompurify]: [sanitize] leaves plain text alone.  A string of
      printable ASCII characters without [<], [>], [&] or a quote has no
      markup, no entity and nothing the HTML parser rewrites.

    Each class has a reference instance.  The instances are only used
    to run the witnesses; every theorem of the handlers holds for any
    instance. *)

From S2P Require Import Prelude Http.

(** The URL-safe base64 alphabet and the dash, the characters of a
    [csrf] token. *)
Definition url_safe (c : Ascii.ascii) : bool :=
  let n := Ascii.nat_of_ascii c in
  bool_decide (48 <= n <= 57 \/ 65 <= n <= 90 \/ 97 <= n <= 122 \/ n = 45 \/ n = 95).

Definition url_safe_string (s : string) : bool := forallb url_safe (String.list_ascii_of_string s).

(** Printable ASCII, from space to tilde. *)
Definition printable (c : Ascii.ascii) : bool :=
  let n := Ascii.nat_of_ascii c in bool_decide (32 <= n <= 126).

(** Text with no markup: printable and no forbidden character. *)
Definition plain_text (s : string) : bool :=
  forallb (fun c => printable c && negb (forbidden_char c)) (String.list_ascii_of_string s).

Class CsrfTokens := {
  (** [await csrf.secret()], drawn from the randomness [n]. *)
  csrf_secret : nat -> string;
  (** [csrf.create(secret)], salted by [salt]. *)
  csrf_create : string -> nat -> string;
  (** [csrf.verify(secret, token)]; [None] is a token that is no string. *)
  csrf_verify : string -> option string -> bool;
  csrf_verify_null s : csrf_verify s None = false;
  csrf_verify_sound s t : csrf_verify s (Some t) = true -> exists salt, t = csrf_create s salt;
  csrf_verify_complete s salt : csrf_verify s (Some (csrf_create s salt)) = true;
  csrf_token_url_safe n salt : url_safe_string (csrf_create (csrf_secret n) salt) = true;
  csrf_create_secret s1 s2 a b : csrf_create s1 a = csrf_create s2 b -> s1 = s2;
  csrf_secret_inj n m : csrf_secret n = csrf_secret m -> n = m
}.

Class Sanitizer := {
  (** [DOMPurify.sanitize(s)]. *)
  sanitize : string -> string;
  sanitize_plain s : plain_text s = true -> sanitize s = s
}.

(** ** Reference instances *)

Fixpoint a_string (n : nat) : string :=
  match n with 0 => EmptyString | S n => String (Ascii.ascii_of_nat 97) (a_string n) end.
Definition ref_secret (n : nat) : string := String (Ascii.ascii_of_nat 107) (a_string n).
Definition ref_create (s : string) (salt : nat) : string := String.append "t-" s.
Definition ref_verify (s : string) (t : option string) : bool :=
  match t with Some t => bool_decide (t = ref_create s 0) | None => false end.

(** A sanitizer that escapes the five forbidden characters the way an
    HTML serializer does, by an ampersand entity. *)
Fixpoint ref_sanitize (s : string) : string :=
  match s with
  | EmptyString => EmptyString
  | String c rest =>
      if forbidden_char c then String.append "&#" (ref_sanitize rest)
      else String c (ref_sanitize rest)
  end.

(** ** Lemmas *)

Lemma a_string_url_safe n : forallb url_safe (String.list_ascii_of_string (a_string n)) = true.
Proof. induction n as [|n IH]; simpl; [done|]. by rewrite IH. Qed.

Lemma ref_secret_url_safe n : forallb url_safe (String.list_ascii_of_string (ref_secret n)) = true.
Proof. unfold ref_secret. simpl. apply a_string_url_safe. Qed.

Lemma ref_verify_sound s t : ref_verify s (Some t) = true -> exists salt, t = ref_create s salt.
Proof. simpl. intros H. apply bool_decide_eq_true in H. by exists 0. Qed.

Lemma ref_verify_complete s salt : ref_verify s (Some (ref_create s salt)) = true.
Proof. simpl. by apply bool_decide_eq_true. Qed.

Lemma ref_create_secret s1 s2 a b : ref_create s1 a = ref_create s2 b -> s1 = s2.
Proof. unfold ref_create. simpl. by intros; simplify_eq. Qed.

Lemma a_string_inj n m : a_string n = a_string m -> n = m.
Proof.
  revert m. induction n as [|n IH]; intros [|m]; simpl; intros H; try done.
  injection H as H. by rewrite (IH m H).
Qed.

Lemma ref_secret_inj n m : ref_secret n = ref_secret m -> n = m.
Proof. unfold ref_secret. intros H. injection H as H. by apply a_string_inj. Qed.

#[export] Instance ref_csrf : CsrfTokens := {|
  csrf_secret := ref_secret;
  csrf_create := ref_create;
  csrf_verify := ref_verify;
  csrf_verify_null s := eq_refl;
  csrf_verify_sound := ref_verify_sound;
  csrf_verify_complete := ref_verify_complete;
  csrf_token_url_safe n salt := ref_secret_url_safe n;
  csrf_create_secret := ref_create_secret;
  csrf_secret_inj := ref_secret_inj
|}.

Lemma ref_sanitize_plain s : plain_text s = true -> ref_sanitize s = s.
Proof.
  induction s as [|c s IH]; [done|]. unfold plain_text in *.
  cbn [String.list_ascii_of_string forallb ref_sanitize].
  intros H. apply andb_prop in H as [Hc Hs]. apply andb_prop in Hc as [_ Hc].
  apply negb_true_iff in Hc. by rewrite Hc, IH.
Qed.

#[export] Instance ref_sanitizer : Sanitizer := {| sanitize := ref_sanitize; sanitize_plain := ref_sanitize_plain |}.

Section csrf_laws.
Context `{!CsrfTokens}.

(** A token made from the secret of one request never verifies
    against the fresh secret of another. *)
Lemma csrf_fresh_secret_rejects n m salt :
  n <> m -> csrf_verify (csrf_secret n) (Some (csrf_create (csrf_secret m) salt)) = false.
Proof.
  intros Hnm. apply not_true_is_false. intros Hv.
  apply csrf_verify_sound in Hv as [salt' Heq].
  apply Hnm. symmetry. apply csrf_secret_inj. by apply (csrf_create_secret _ _ salt salt').
Qed.

(** A string with a character outside the token alphabet never
    verifies against a secret drawn by [csrf.secret()]. *)
Lemma csrf_rejects_non_token n t :
  url_safe_string t = false -> csrf_verify (csrf_secret n) (Some t) = false.
Proof.
  intros Ht. apply not_true_is_false. intros Hv.
  apply csrf_verify_sound in Hv as [salt ->].
  by rewrite csrf_token_url_safe in Ht.
Qed.
End csrf_laws.
