(* ===== verification/Polls.v ===== *)
(** * Poll creation, update, deletion and reads

    The server actions of [src/app/lib/actions/poll-actions.ts]
    ([createPoll], [getUserPolls], [getPollById], [deletePoll],
    [updatePoll]) and the routes that repeat them with HTTP statuses:
    [POST /api/polls] ([src/app/api/polls/route.ts]) and
    [GET]/[DELETE]/[PUT /api/polls/[id]] ([src/app/api/polls/[id]/route.ts]).

    The CSRF check draws a fresh secret for every request
    ([csrf_secret seed], [seed] being the request's randomness) and
    verifies the submitted token against it.  [DOMPurify.sanitize] is the
    [Sanitizer] interface.  Store round trips are counted from 0 after
    [getUser], as in [Vote.v].

    What the handlers guarantee:
    - validation: [validate_poll_input] accepts exactly the well-formed
      polls (a question with a non-blank trim of at most 255 characters,
      2 to 100 options, none of [<>&] or a quote anywhere);
    - creation: with a verified token and a session, [createPoll] stores
      the sanitized poll; it refuses every token made from another
      request's secret;
    - option bounds: creation and deletion keep every poll at 2 to 100
      options, but [updatePoll] does not check the upper bound, nor the
      characters, nor sanitizes;
    - ownership: updates touch only the caller's rows; deletion removes
      a poll only for its owner; an update that matches no row still
      reports success;
    - the routes are the actions with HTTP statuses. *)

From S2P Require Import Prelude Http Db Libraries.

Module Polls.

(** ** Messages *)

Definition msg_csrf : string := "Invalid CSRF token".
Definition msg_valid_question : string := "Please provide a valid question.".
Definition msg_question_long : string := "Question is too long (maximum 255 characters).".
Definition msg_two_options : string := "Please provide at least two options.".
Definition msg_question_chars : string := "Question contains invalid characters".
Definition msg_option_chars : string := "Options contain invalid characters".
Definition msg_options_long : string := "Options are too long (maximum 100 characters).".
Definition msg_login_create : string := "You must be logged in to create a poll.".
Definition msg_update_input : string := "Please provide a question and at least two options.".
Definition msg_login_update : string := "You must be logged in to update a poll.".
Definition msg_login_delete : string := "You must be logged in to delete a poll.".
Definition msg_not_found : string := "Poll not found".
Definition msg_no_permission : string := "You don't have permission to delete this poll".
Definition msg_not_authenticated : string := "Not authenticated".

(** ** Input validation of [createPoll] (lines 27-55) and of the POST
    route (lines 28-72): the first failing check gives its message,
    otherwise the question. *)
Definition validate_poll_input (question : option string) (options : list string)
    : string + string :=
  let! q := question else inl msg_valid_question in
  when bool_decide (q = "") || bool_decide (String.length (trim q) = 0)
    return inl msg_valid_question ;;
  when bool_decide (255 < String.length q) return inl msg_question_long ;;
  when bool_decide (length options < 2) return inl msg_two_options ;;
  when has_forbidden q return inl msg_question_chars ;;
  when existsb has_forbidden options return inl msg_option_chars ;;
  when bool_decide (100 < length options) return inl msg_options_long ;;
  inr q.

(** [formData.getAll("options").filter(Boolean)]. *)
Definition form_options (fd : formdata) : list string := filter_truthy (form_getAll fd "options").

(** The row of lines 74-80: [id] and [created_at] are column defaults. *)
Definition new_poll (ctx : Ctx) (uid q : string) (opts : list string) (db : Db) : poll :=
  mkPoll (fresh_id db) uid q opts (ctx_now ctx) None.

Definition add_poll (ctx : Ctx) (uid q : string) (opts : list string) (db : Db) : Db :=
  bump_id (with_polls db (polls db ++ [new_poll ctx uid q opts db])).

(** [.update({ question, options }).eq("id", pid).eq("user_id", uid)]. *)
Definition update_polls (pid uid q : string) (opts : list string) (ps : list poll) : list poll :=
  (fun p => if decide (poll_id p = pid /\ poll_user_id p = uid)
            then mkPoll (poll_id p) (poll_user_id p) q opts (poll_created_at p) (expires_at p)
            else p) <$> ps.

(** [.delete().eq("id", pid)]. *)
Definition delete_polls (pid : string) (ps : list poll) : list poll :=
  filter (fun p => poll_id p <> pid) ps.

(** [.select("*").eq("id", id)]. *)
Definition polls_with_id (pid : string) (ps : list poll) : list poll :=
  filter (fun p => poll_id p = pid) ps.

(** [.select("*").eq("user_id", uid).order("created_at", { ascending: false })]. *)
Definition user_polls_query (uid : string) (ps : list poll) : list poll :=
  order_desc poll_created_at (filter (fun p => poll_user_id p = uid) ps).

(** A poll row as the JSON the routes send ([select("*")]: every
    column); timestamps are sent as numbers. *)
Definition poll_json (p : poll) : json :=
  JObj [("id", JStr (poll_id p)); ("user_id", JStr (poll_user_id p));
        ("question", JStr (question p)); ("options", JArr (JStr <$> options p));
        ("created_at", JNum (inject_Z (poll_created_at p)));
        ("expires_at", match expires_at p with Some t => JNum (inject_Z t) | None => JNull end)].

(** The poll the pages read from [GET /api/polls/[id]]: the properties
    of the [Poll] interface the model represents.  Timestamps are left
    [unknown]: the model sends them as numbers where the store sends
    ISO strings. *)
Definition poll_type : jtype :=
  TObject [("id", false, TString); ("user_id", false, TString); ("question", false, TString);
           ("options", false, TArray TString); ("created_at", false, TUnknown);
           ("expires_at", true, TUnknown)].

(** [{ poll, error: null }]. *)
Definition poll_body : jtype := TObject [("poll", false, poll_type); ("error", false, TNull)].

Section handlers.
Context `{!CsrfTokens} `{!Sanitizer}.

(** Lines 11-13: [generateCsrfToken], exported and never called. *)
Definition generateCsrfToken (seed : nat) : string := csrf_secret seed.

(** ** [createPoll], lines 15-88 *)
Definition createPoll (ctx : Ctx) (seed : nat) (formData : formdata) (db : Db)
    : action_result * Db :=
  when negb (csrf_verify (csrf_secret seed) (form_get formData "csrf_token"))
    return (Some msg_csrf, db) ;;
  let options := form_options formData in
  match validate_poll_input (form_get formData "question") options with
  | inl e => (Some e, db)
  | inr question =>
      let sanitizedQuestion := sanitize question in
      let sanitizedOptions := sanitize <$> options in
      match ctx_user_error ctx with
      | Some m => (Some m, db)
      | None =>
          let! uid := ctx_user ctx else (Some msg_login_create, db) in
          match round_trip ctx 0 (SbOk tt) with
          | SbErr m => (Some m, db)
          | SbOk _ => (None, add_poll ctx uid sanitizedQuestion sanitizedOptions db)
          end
      end
  end.
(** ** [POST /api/polls], lines 9-120 of [src/app/api/polls/route.ts].
    [formData] is [None] when [request.formData()] throws. *)
Definition polls_POST (ctx : Ctx) (seed : nat) (fd : option formdata) (db : Db) : response * Db :=
  let! formData := fd else (internal_error, db) in
  when negb (csrf_verify (csrf_secret seed) (form_get formData "csrf_token"))
    return (error_response msg_csrf 403, db) ;;
  let options := form_options formData in
  match validate_poll_input (form_get formData "question") options with
  | inl e => (error_response e 400, db)
  | inr question =>
      let sanitizedQuestion := sanitize question in
      let sanitizedOptions := sanitize <$> options in
      match ctx_user_error ctx with
      | Some m => (error_response m 401, db)
      | None =>
          let! uid := ctx_user ctx else (error_response msg_login_create 401, db) in
          match round_trip ctx 0 (SbOk tt) with
          | SbErr m => (error_response m 500, db)
          | SbOk _ => (success_response, add_poll ctx uid sanitizedQuestion sanitizedOptions db)
          end
      end
  end.

(** ** [updatePoll], lines 217-258 *)
Definition updatePoll (ctx : Ctx) (seed : nat) (pollId : string) (formData : formdata) (db : Db)
    : action_result * Db :=
  when negb (csrf_verify (csrf_secret seed) (form_get formData "csrf_token"))
    return (Some msg_csrf, db) ;;
  let options := form_options formData in
  let! question := form_get formData "question" else (Some msg_update_input, db) in
  when bool_decide (question = "") || bool_decide (length options < 2)
    return (Some msg_update_input, db) ;;
  match ctx_user_error ctx with
  | Some m => (Some m, db)
  | None =>
      let! uid := ctx_user ctx else (Some msg_login_update, db) in
      match round_trip ctx 0 (SbOk tt) with
      | SbErr m => (Some m, db)
      | SbOk _ => (None, with_polls db (update_polls pollId uid question options (polls db)))
      end
  end.

(** ** [PUT /api/polls/[id]], lines 112-180 of [src/app/api/polls/[id]/route.ts] *)
Definition poll_PUT (ctx : Ctx) (seed : nat) (params_id : string) (fd : option formdata) (db : Db)
    : response * Db :=
  let! formData := fd else (internal_error, db) in
  when negb (csrf_verify (csrf_secret seed) (form_get formData "csrf_token"))
    return (error_response msg_csrf 403, db) ;;
  let options := form_options formData in
  let! question := form_get formData "question" else (error_response msg_update_input 400, db) in
  when bool_decide (question = "") || bool_decide (length options < 2)
    return (error_response msg_update_input 400, db) ;;
  match ctx_user_error ctx with
  | Some m => (error_response m 401, db)
  | None =>
      let! uid := ctx_user ctx else (error_response msg_login_update 401, db) in
      match round_trip ctx 0 (SbOk tt) with
      | SbErr m => (error_response m 500, db)
      | SbOk _ => (success_response, with_polls db (update_polls params_id uid question options (polls db)))
      end
  end.
End handlers.

(** ** [getUserPolls], lines 91-106: the caller's polls, newest first. *)
Definition getUserPolls (ctx : Ctx) (db : Db) : list poll * option string :=
  let! uid := ctx_user ctx else ([], Some msg_not_authenticated) in
  match round_trip ctx 0 (SbOk (user_polls_query uid (polls db))) with
  | SbErr m => ([], Some m)
  | SbOk data => (data, None)
  end.

(** ** [getPollById], lines 109-119 *)
Definition getPollById (ctx : Ctx) (id : string) (db : Db) : option poll * option string :=
  match round_trip ctx 0 (single (polls_with_id id (polls db))) with
  | SbErr m => (None, Some m)
  | SbOk p => (Some p, None)
  end.

(** ** [GET /api/polls/[id]], lines 9-35 *)
Definition poll_GET (ctx : Ctx) (params_id : string) (db : Db) : response :=
  match round_trip ctx 0 (single (polls_with_id params_id (polls db))) with
  | SbErr m => mkResponse 404 (JObj [("poll", JNull); ("error", JStr m)])
  | SbOk p => json_ok (JObj [("poll", poll_json p); ("error", JNull)])
  end.

(** ** [deletePoll], lines 171-214.  The owner check reads [user_id]
    with [.single()], so a missing poll ends in the store's error, and
    the [!poll] branch cannot be reached. *)
Definition deletePoll (ctx : Ctx) (id : string) (db : Db) : action_result * Db :=
  match ctx_user_error ctx with
  | Some m => (Some m, db)
  | None =>
      let! uid := ctx_user ctx else (Some msg_login_delete, db) in
      match round_trip ctx 0 (single (polls_with_id id (polls db))) with
      | SbErr m => (Some m, db)
      | SbOk p =>
          when negb (bool_decide (poll_user_id p = uid)) return (Some msg_no_permission, db) ;;
          match round_trip ctx 1 (SbOk tt) with
          | SbErr m => (Some m, db)
          | SbOk _ => (None, with_polls db (delete_polls id (polls db)))
          end
      end
  end.

(** ** [DELETE /api/polls/[id]], lines 37-110 *)
Definition poll_DELETE (ctx : Ctx) (params_id : string) (db : Db) : response * Db :=
  match ctx_user_error ctx with
  | Some m => (error_response m 401, db)
  | None =>
      let! uid := ctx_user ctx else (error_response msg_login_delete 401, db) in
      match round_trip ctx 0 (single (polls_with_id params_id (polls db))) with
      | SbErr m => (error_response m 404, db)
      | SbOk p =>
          when negb (bool_decide (poll_user_id p = uid))
            return (error_response msg_no_permission 403, db) ;;
          match round_trip ctx 1 (SbOk tt) with
          | SbErr m => (error_response m 500, db)
          | SbOk _ => (success_response, with_polls db (delete_polls params_id (polls db)))
          end
      end
  end.

(** ** Invariants *)

Definition option_bounds (p : poll) : Prop := 2 <= length (options p) <= 100.

Definition polls_option_bounds (db : Db) : Prop := Forall option_bounds (polls db).

(** The rows a request by [caller] on poll [pid] may not touch stay put. *)
Definition unchanged_unless_owned (caller : option string) (pid : string) (ps ps' : list poll)
    : Prop :=
  forall i p, ps !! i = Some p -> ~ (poll_id p = pid /\ caller = Some (poll_user_id p)) ->
  ps' !! i = Some p.

(** A form with a question, options and a token. *)
Definition poll_form (token q : string) (opts : list string) : formdata :=
  ("csrf_token", token) :: ("question", q) :: (pair "options" <$> opts).

(** [a_poll] has two options and is owned by [U2]; [U1] is logged in. *)
Definition a_poll : poll := mkPoll "P1" "U2" "Pick one" ["A"; "B"] 0 None.
Definition a_db : Db := with_polls empty_db [a_poll].
Definition ctx_of (uid : string) : Ctx := mkCtx (Some uid) None 1000 (fun _ => None).

(** A token made from the secret of the request with randomness 0. *)
Definition good_token : string := csrf_create (csrf_secret 0) 0.

(** ** Lemmas *)

Lemma existsb_false_Forall {A} (f : A -> bool) l :
  existsb f l = false <-> Forall (fun x => f x = false) l.
Proof.
  induction l as [|x l IH]; simpl; [split; auto|].
  rewrite orb_false_iff, Forall_cons, IH. done.
Qed.

Lemma with_polls_same db : with_polls db (polls db) = db.
Proof. by destruct db. Qed.

Lemma length_trim_empty : String.length (trim "") = 0.
Proof. done. Qed.

Lemma poll_json_typed p : has_type poll_type (poll_json p) = true.
Proof.
  unfold poll_json. simpl. rewrite andb_true_r.
  induction (options p) as [|x l IH]; [done|]. exact IH.
Qed.

Section props.
Context `{!CsrfTokens} `{!Sanitizer}.

Lemma sanitize_plain_list (l : list string) :
  Forall (fun o => plain_text o = true) l -> sanitize <$> l = l.
Proof.
  induction 1 as [|x l Hx _ IH]; [done|]. by rewrite fmap_cons, sanitize_plain, IH.
Qed.

Lemma validate_poll_input_bounds q opts q' :
  validate_poll_input (Some q) opts = inr q' -> 2 <= length opts <= 100.
Proof.
  unfold validate_poll_input. cbv beta iota.
  destruct (bool_decide (q = "") || bool_decide (String.length (trim q) = 0));
    [by inversion 1|].
  destruct (bool_decide (255 < String.length q)); [by inversion 1|].
  case_bool_decide as H2; [by inversion 1|].
  destruct (has_forbidden q); [by inversion 1|].
  destruct (existsb has_forbidden opts); [by inversion 1|].
  case_bool_decide as H100; [by inversion 1|].
  intros _. lia.
Qed.

(** Every way [createPoll] ends: the store is unchanged, or the poll the
    validation accepted is appended, sanitized. *)
Lemma createPoll_cases ctx seed fd db r db' :
  createPoll ctx seed fd db = (r, db') ->
  db' = db \/ exists uid q, validate_poll_input (form_get fd "question") (form_options fd) = inr q /\
                             ctx_user ctx = Some uid /\
                             db' = add_poll ctx uid (sanitize q) (sanitize <$> form_options fd) db.
Proof.
  unfold createPoll. destruct (csrf_verify _ _); simpl; [|intros; simplify_eq; auto].
  destruct (validate_poll_input _ _) as [e|q] eqn:Hv; [intros; simplify_eq; auto|].
  destruct (ctx_user_error ctx); [intros; simplify_eq; auto|].
  destruct (ctx_user ctx) as [uid|]; [|intros; simplify_eq; auto].
  destruct (round_trip ctx 0 _); intros; simplify_eq; eauto 10.
Qed.

Lemma polls_POST_cases ctx seed fd db r db' :
  polls_POST ctx seed fd db = (r, db') ->
  db' = db \/ exists fd' uid q, fd = Some fd' /\
    validate_poll_input (form_get fd' "question") (form_options fd') = inr q /\
    ctx_user ctx = Some uid /\
    db' = add_poll ctx uid (sanitize q) (sanitize <$> form_options fd') db.
Proof.
  unfold polls_POST. destruct fd as [fd|]; simpl; [|intros; simplify_eq; auto].
  destruct (csrf_verify _ _); simpl; [|intros; simplify_eq; auto].
  destruct (validate_poll_input _ _) as [e|q] eqn:Hv; [intros; simplify_eq; auto|].
  destruct (ctx_user_error ctx); [intros; simplify_eq; auto|].
  destruct (ctx_user ctx) as [uid|] eqn:Hu; [|intros; simplify_eq; auto].
  destruct (round_trip ctx 0 _); intros; simplify_eq; eauto 10.
Qed.

Lemma add_poll_bounds ctx uid q opts db :
  2 <= length opts <= 100 -> polls_option_bounds db ->
  polls_option_bounds (add_poll ctx uid q (sanitize <$> opts) db).
Proof.
  intros Hb Hinv. unfold polls_option_bounds, add_poll. simpl.
  apply Forall_app. split; [done|]. constructor; [|done].
  unfold option_bounds. simpl. by rewrite length_fmap.
Qed.

Lemma deletePoll_cases ctx id db r db' :
  deletePoll ctx id db = (r, db') ->
  db' = db \/ (r = None /\ exists p, polls_with_id id (polls db) = [p] /\
                                     ctx_user ctx = Some (poll_user_id p) /\
                                     db' = with_polls db (delete_polls id (polls db))).
Proof.
  unfold deletePoll. destruct (ctx_user_error ctx); [intros; simplify_eq; auto|].
  destruct (ctx_user ctx) as [uid|] eqn:Hu; [|intros; simplify_eq; auto].
  destruct (round_trip ctx 0 _) as [p|m] eqn:Hq; [|intros; simplify_eq; auto].
  case_bool_decide as Ho; simpl; [|intros; simplify_eq; auto].
  destruct (round_trip ctx 1 _); intros; simplify_eq; [|auto].
  right. split; [done|]. exists p. split; [|split; [congruence|done]].
  unfold round_trip in Hq. destruct (ctx_fault ctx 0); [done|]. by apply single_ok.
Qed.

Lemma poll_DELETE_cases ctx id db r db' :
  poll_DELETE ctx id db = (r, db') ->
  db' = db \/ (r = success_response /\ exists p, polls_with_id id (polls db) = [p] /\
                                     ctx_user ctx = Some (poll_user_id p) /\
                                     db' = with_polls db (delete_polls id (polls db))).
Proof.
  unfold poll_DELETE. destruct (ctx_user_error ctx); [intros; simplify_eq; auto|].
  destruct (ctx_user ctx) as [uid|] eqn:Hu; [|intros; simplify_eq; auto].
  destruct (round_trip ctx 0 _) as [p|m] eqn:Hq; [|intros; simplify_eq; auto].
  case_bool_decide as Ho; simpl; [|intros; simplify_eq; auto].
  destruct (round_trip ctx 1 _); intros; simplify_eq; [|auto].
  right. split; [done|]. exists p. split; [|split; [congruence|done]].
  unfold round_trip in Hq. destruct (ctx_fault ctx 0); [done|]. by apply single_ok.
Qed.

Lemma updatePoll_cases ctx seed pid fd db r db' :
  updatePoll ctx seed pid fd db = (r, db') ->
  db' = db \/ exists uid q, ctx_user ctx = Some uid /\
                            db' = with_polls db (update_polls pid uid q (form_options fd) (polls db)).
Proof.
  unfold updatePoll. destruct (csrf_verify _ _); simpl; [|intros; simplify_eq; auto].
  destruct (form_get fd "question") as [q|]; simpl; [|intros; simplify_eq; auto].
  destruct (_ || _); [intros; simplify_eq; auto|].
  destruct (ctx_user_error ctx); [intros; simplify_eq; auto|].
  destruct (ctx_user ctx) as [uid|]; [|intros; simplify_eq; auto].
  destruct (round_trip ctx 0 _); intros; simplify_eq; eauto 10.
Qed.


Lemma poll_PUT_cases ctx seed pid fd db r db' :
  poll_PUT ctx seed pid fd db = (r, db') ->
  db' = db \/ exists fd' uid q, fd = Some fd' /\ ctx_user ctx = Some uid /\
                               db' = with_polls db (update_polls pid uid q (form_options fd') (polls db)).
Proof.
  unfold poll_PUT. destruct fd as [fd|]; simpl; [|intros; simplify_eq; auto].
  destruct (csrf_verify _ _); simpl; [|intros; simplify_eq; auto].
  destruct (form_get fd "question") as [q|]; simpl; [|intros; simplify_eq; auto].
  destruct (_ || _); [intros; simplify_eq; auto|].
  destruct (ctx_user_error ctx); [intros; simplify_eq; auto|].
  destruct (ctx_user ctx) as [uid|]; [|intros; simplify_eq; auto].
  destruct (round_trip ctx 0 _); intros; simplify_eq; eauto 10.
Qed.
Lemma delete_polls_bounds id db :
  polls_option_bounds db -> polls_option_bounds (with_polls db (delete_polls id (polls db))).
Proof.
  unfold polls_option_bounds, delete_polls. simpl. rewrite !Forall_forall.
  intros Hb p Hp. apply list_elem_of_filter in Hp as [_ Hp]. auto.
Qed.

Lemma update_polls_unchanged caller pid q opts ps :
  unchanged_unless_owned caller pid ps
    (match caller with Some uid => update_polls pid uid q opts ps | None => ps end).
Proof.
  intros i p Hi Hno. destruct caller as [uid|]; [|done].
  unfold update_polls. rewrite list_lookup_fmap, Hi. simpl.
  rewrite decide_False; [done|]. intros [? ?]. apply Hno. split; [done|]. congruence.
Qed.

(** [updatePoll] stores the options as sent: with a verified token,
    a non-empty question and two or more options, the caller's rows
    with that id get the question and options unchecked (no upper bound,
    no character check, no sanitizing), and it answers [{ error: null }]. *)
Lemma updatePoll_accepts ctx seed pid fd db q uid :
  csrf_verify (csrf_secret seed) (form_get fd "csrf_token") = true ->
  form_get fd "question" = Some q -> q <> "" -> 2 <= length (form_options fd) ->
  ctx_user_error ctx = None -> ctx_user ctx = Some uid -> no_fault ctx 0 ->
  updatePoll ctx seed pid fd db =
    (None, with_polls db (update_polls pid uid q (form_options fd) (polls db))).
Proof.
  intros Hv Hq Hne Hlen He Hu Hf. unfold updatePoll. rewrite Hv, Hq. simpl.
  rewrite bool_decide_eq_false_2 by done. rewrite bool_decide_eq_false_2 by lia. simpl.
  by rewrite He, Hu, round_trip_ok.
Qed.

(** ** Theorems *)

(** C26. The create-time validation accepts exactly the well-formed
    polls: a question whose trim is not empty, of at most 255
    characters, 2 to 100 options, and no [<], [>], [&] or quote in the
    question or in any option. *)
Theorem validate_poll_input_accepts q opts q' :
  validate_poll_input (Some q) opts = inr q' <->
  q' = q /\ String.length (trim q) <> 0 /\ String.length q <= 255 /\
  2 <= length opts <= 100 /\ has_forbidden q = false /\
  Forall (fun o => has_forbidden o = false) opts.
Proof.
  unfold validate_poll_input. cbv beta iota. split.
  - destruct (bool_decide (q = "") || _) eqn:H1; [by inversion 1|].
    apply orb_false_iff in H1 as [_ H1]. apply bool_decide_eq_false in H1.
    destruct (bool_decide (255 < _)) eqn:H2; [by inversion 1|].
    apply bool_decide_eq_false in H2.
    destruct (bool_decide (length opts < 2)) eqn:H3; [by inversion 1|].
    apply bool_decide_eq_false in H3.
    destruct (has_forbidden q) eqn:H4; [by inversion 1|].
    destruct (existsb has_forbidden opts) eqn:H5; [by inversion 1|].
    apply existsb_false_Forall in H5.
    destruct (bool_decide (100 < _)) eqn:H6; [by inversion 1|].
    apply bool_decide_eq_false in H6.
    intros Heq. injection Heq as <-. repeat split; auto; lia.
  - intros (-> & H1 & H2 & H3 & H4 & H5).
    rewrite (bool_decide_eq_false_2 (q = "")) by (intros ->; apply H1, length_trim_empty).
    rewrite (bool_decide_eq_false_2 (String.length (trim q) = 0)) by done. simpl.
    rewrite bool_decide_eq_false_2 by lia. rewrite bool_decide_eq_false_2 by lia.
    rewrite H4, (proj2 (existsb_false_Forall _ _) H5).
    by rewrite bool_decide_eq_false_2 by lia.
Qed.

(** With a token that verifies against the request's secret, a
    valid question and options, plain text throughout, and a session
    user, [createPoll] answers [{ error: null }] and appends exactly the
    poll (caller, question, options, now). *)
Theorem createPoll_records_poll ctx seed fd db q uid :
  csrf_verify (csrf_secret seed) (form_get fd "csrf_token") = true ->
  validate_poll_input (form_get fd "question") (form_options fd) = inr q ->
  plain_text q = true -> Forall (fun o => plain_text o = true) (form_options fd) ->
  ctx_user_error ctx = None -> ctx_user ctx = Some uid -> no_fault ctx 0 ->
  createPoll ctx seed fd db = (None, add_poll ctx uid q (form_options fd) db).
Proof.
  intros Hv Hval Hq Hopts He Hu Hf. unfold createPoll. rewrite Hv. simpl.
  rewrite Hval, He, Hu, round_trip_ok by done.
  by rewrite sanitize_plain, sanitize_plain_list.
Qed.

(** Every input the validation refuses is answered with the
    message of the first failing check, before the session is read, by
    the action and by the route (with 400), and nothing is stored. *)
Theorem createPoll_rejects_invalid ctx seed fd db e :
  csrf_verify (csrf_secret seed) (form_get fd "csrf_token") = true ->
  validate_poll_input (form_get fd "question") (form_options fd) = inl e ->
  createPoll ctx seed fd db = (Some e, db) /\
  polls_POST ctx seed (Some fd) db = (error_response e 400, db).
Proof. intros Hv He. unfold createPoll, polls_POST. rewrite Hv. simpl. by rewrite He. Qed.

(** C25. A token made from the secret of any other request is refused:
    [createPoll] draws a fresh secret per request, so only a token
    created from that very secret passes. *)
Theorem createPoll_rejects_stale_token ctx seed m salt fd db :
  form_get fd "csrf_token" = Some (csrf_create (csrf_secret m) salt) -> m <> seed ->
  createPoll ctx seed fd db = (Some msg_csrf, db).
Proof.
  intros Ht Hm. unfold createPoll. rewrite Ht.
  by rewrite csrf_fresh_secret_rejects by congruence.
Qed.

(** C27. Creation (action and route) and deletion (action and route)
    keep every stored poll at 2 to 100 options. *)
Theorem option_bounds_preserved ctx seed fd fdo id db :
  polls_option_bounds db ->
  polls_option_bounds (snd (createPoll ctx seed fd db)) /\
  polls_option_bounds (snd (polls_POST ctx seed fdo db)) /\
  polls_option_bounds (snd (deletePoll ctx id db)) /\
  polls_option_bounds (snd (poll_DELETE ctx id db)).
Proof.
  intros Hinv. repeat split.
  - destruct (createPoll ctx seed fd db) as [r db'] eqn:E. simpl.
    apply createPoll_cases in E as [->|(uid & q & Hv & _ & ->)]; [done|].
    destruct (form_get fd "question") as [q0|]; [|done].
    apply add_poll_bounds; [|done]. by eapply validate_poll_input_bounds.
  - destruct (polls_POST ctx seed fdo db) as [r db'] eqn:E. simpl.
    apply polls_POST_cases in E as [->|(fd' & uid & q & _ & Hv & _ & ->)]; [done|].
    destruct (form_get fd' "question") as [q0|]; [|done].
    apply add_poll_bounds; [|done]. by eapply validate_poll_input_bounds.
  - destruct (deletePoll ctx id db) as [r db'] eqn:E. simpl.
    apply deletePoll_cases in E as [->|(_ & p & _ & _ & ->)]; [done|].
    by apply delete_polls_bounds.
  - destruct (poll_DELETE ctx id db) as [r db'] eqn:E. simpl.
    apply poll_DELETE_cases in E as [->|(_ & p & _ & _ & ->)]; [done|].
    by apply delete_polls_bounds.
Qed.

(** C28. Some store whose polls all have 2 to 100 options is taken by
    one accepted [updatePoll] to a poll with 101 options. *)
Theorem updatePoll_breaks_option_bounds :
  exists ctx seed fd db,
    polls_option_bounds db /\
    fst (updatePoll ctx seed "P1" fd db) = None /\
    ~ polls_option_bounds (snd (updatePoll ctx seed "P1" fd db)).
Proof.
  set (opts := repeat "x" 101).
  exists (ctx_of "U2"), 0, (poll_form (csrf_create (csrf_secret 0) 0) "Pick one" opts), a_db.
  assert (Hfo : form_options (poll_form (csrf_create (csrf_secret 0) 0) "Pick one" opts) = opts)
    by reflexivity.
  rewrite (updatePoll_accepts _ _ _ _ _ "Pick one" "U2"); try done.
  - split; [repeat constructor; unfold option_bounds; simpl; lia|]. split; [done|].
    rewrite Hfo. unfold polls_option_bounds, update_polls. simpl.
    intros Hb. inversion Hb as [|? ? Hb1]; subst.
    unfold option_bounds in Hb1. simpl in Hb1. lia.
  - apply csrf_verify_complete.
  - rewrite Hfo. simpl. lia.
Qed.

(** An update only ever rewrites rows that carry the requested id
    and belong to the session user; every other row keeps its place
    and content, and no row is added or removed. *)
Theorem updatePoll_only_owned ctx seed pid fd db :
  unchanged_unless_owned (ctx_user ctx) pid (polls db)
    (polls (snd (updatePoll ctx seed pid fd db))) /\
  length (polls (snd (updatePoll ctx seed pid fd db))) = length (polls db).
Proof.
  destruct (updatePoll ctx seed pid fd db) as [r db'] eqn:E. simpl.
  apply updatePoll_cases in E as [->|(uid & q & Hu & ->)]; [split; [by intros ? ? ? _|done]|].
  split.
  - pose proof (update_polls_unchanged (ctx_user ctx) pid q (form_options fd) (polls db)) as Hup.
    rewrite Hu in Hup. rewrite Hu. exact Hup.
  - simpl. unfold update_polls. by rewrite length_fmap.
Qed.

(** An update that matches no row (the poll is someone else's, or
    does not exist) still answers [{ error: null }], with the store
    unchanged: the caller cannot tell a refused update from a done one. *)
Theorem updatePoll_success_without_match ctx seed pid fd db q uid :
  csrf_verify (csrf_secret seed) (form_get fd "csrf_token") = true ->
  form_get fd "question" = Some q -> q <> "" -> 2 <= length (form_options fd) ->
  ctx_user_error ctx = None -> ctx_user ctx = Some uid -> no_fault ctx 0 ->
  Forall (fun p => poll_id p = pid -> poll_user_id p <> uid) (polls db) ->
  updatePoll ctx seed pid fd db = (None, db).
Proof.
  intros Hv Hq Hne Hlen He Hu Hf Hall. unfold updatePoll. rewrite Hv, Hq. simpl.
  rewrite bool_decide_eq_false_2 by done. rewrite bool_decide_eq_false_2 by lia. simpl.
  rewrite He, Hu, round_trip_ok by done. f_equal.
  transitivity (with_polls db (polls db)); [f_equal|apply with_polls_same]. unfold update_polls.
  induction Hall as [|p ps Hp _ IH]; [done|]. rewrite fmap_cons, IH.
  rewrite decide_False; [done|]. intros [H1 H2]. by apply (Hp H1).
Qed.

(** C29. Deletion, by the action or the route, changes the store only
    when exactly one poll has the id and it belongs to the session
    user; it then removes that poll and nothing else of [polls]. *)
Theorem deletion_only_by_owner ctx id db :
  (snd (deletePoll ctx id db) = db \/
   exists p, polls_with_id id (polls db) = [p] /\ ctx_user ctx = Some (poll_user_id p) /\
             snd (deletePoll ctx id db) = with_polls db (delete_polls id (polls db))) /\
  (snd (poll_DELETE ctx id db) = db \/
   exists p, polls_with_id id (polls db) = [p] /\ ctx_user ctx = Some (poll_user_id p) /\
             snd (poll_DELETE ctx id db) = with_polls db (delete_polls id (polls db))).
Proof.
  split.
  - destruct (deletePoll ctx id db) as [r db'] eqn:E. simpl.
    apply deletePoll_cases in E as [->|(_ & p & ?)]; eauto.
  - destruct (poll_DELETE ctx id db) as [r db'] eqn:E. simpl.
    apply poll_DELETE_cases in E as [->|(_ & p & ?)]; eauto.
Qed.

(** A caller who is not the owner of the poll is refused with
    "You don't have permission to delete this poll" and nothing is
    deleted. *)
Theorem deletePoll_non_owner ctx id db p uid :
  ctx_user_error ctx = None -> ctx_user ctx = Some uid -> no_fault ctx 0 ->
  polls_with_id id (polls db) = [p] -> poll_user_id p <> uid ->
  deletePoll ctx id db = (Some msg_no_permission, db).
Proof.
  intros He Hu Hf Hp Hne. unfold deletePoll. rewrite He, Hu, round_trip_ok, Hp by done.
  simpl. by rewrite bool_decide_eq_false_2.
Qed.

(** C37. Each route is its server action with HTTP statuses: on a
    parsed form (or no form at all for DELETE) the route and the action
    leave the same store and report the same error message. *)
Theorem poll_routes_agree_with_actions ctx seed pid fd db :
  (snd (polls_POST ctx seed (Some fd) db) = snd (createPoll ctx seed fd db) /\
   response_error (fst (polls_POST ctx seed (Some fd) db)) = fst (createPoll ctx seed fd db)) /\
  (snd (poll_PUT ctx seed pid (Some fd) db) = snd (updatePoll ctx seed pid fd db) /\
   response_error (fst (poll_PUT ctx seed pid (Some fd) db)) = fst (updatePoll ctx seed pid fd db)) /\
  (snd (poll_DELETE ctx pid db) = snd (deletePoll ctx pid db) /\
   response_error (fst (poll_DELETE ctx pid db)) = fst (deletePoll ctx pid db)).
Proof.
  split; [|split].
  - unfold polls_POST, createPoll. simpl.
    destruct (csrf_verify _ _); [|done]. simpl.
    destruct (validate_poll_input _ _); [done|].
    destruct (ctx_user_error ctx); [done|]. destruct (ctx_user ctx); [|done].
    by destruct (round_trip ctx 0 _).
  - unfold poll_PUT, updatePoll. simpl.
    destruct (csrf_verify _ _); [|done]. simpl.
    destruct (form_get fd "question"); [|done]. simpl.
    destruct (_ || _); [done|].
    destruct (ctx_user_error ctx); [done|]. destruct (ctx_user ctx); [|done].
    by destruct (round_trip ctx 0 _).
  - unfold poll_DELETE, deletePoll.
    destruct (ctx_user_error ctx); [done|]. destruct (ctx_user ctx); [|done].
    destruct (round_trip ctx 0 _); [|done]. simpl.
    destruct (bool_decide _); simpl; [|done].
    by destruct (round_trip ctx 1 _).
Qed.

(** C22. The poll routes answer with the types their clients assume:
    [POST /api/polls], [PUT] and [DELETE /api/polls/[id]] answer
    [{ success: boolean }] with a 2xx status and [{ error: string }]
    otherwise, and [GET /api/polls/[id]] answers a poll whose [question]
    is a string and whose [options] are an array of strings, or an
    error. *)
Theorem poll_routes_typed ctx seed pid fd db :
  route_typed success_body (polls_POST ctx seed fd db).1 = true /\
  route_typed success_body (poll_PUT ctx seed pid fd db).1 = true /\
  route_typed success_body (poll_DELETE ctx pid db).1 = true /\
  route_typed poll_body (poll_GET ctx pid db) = true.
Proof.
  split_and!.
  - unfold polls_POST. repeat case_match; reflexivity.
  - unfold poll_PUT. repeat case_match; reflexivity.
  - unfold poll_DELETE. repeat case_match; reflexivity.
  - unfold poll_GET, route_typed. destruct (round_trip _ _ _) as [p|m]; [|done].
    exact (andb_true_intro (conj (poll_json_typed p) eq_refl)).
Qed.

End props.

(** [getUserPolls] returns, for a session user, exactly that
    user's polls (up to order), newest first. *)
Theorem getUserPolls_own_newest_first ctx db uid :
  ctx_user ctx = Some uid -> no_fault ctx 0 ->
  exists ps, getUserPolls ctx db = (ps, None) /\
             ps ≡ₚ filter (fun p => poll_user_id p = uid) (polls db) /\
             StronglySorted (key_ge poll_created_at) ps.
Proof.
  intros Hu Hf. unfold getUserPolls. rewrite Hu, round_trip_ok by done.
  eexists. split; [done|]. unfold user_polls_query.
  split; [apply order_desc_perm | apply order_desc_sorted].
Qed.

(** [getPollById] finds a poll exactly when one row has the id;
    with no row (or two) it returns no poll and PostgREST's error. *)
Theorem getPollById_single ctx id db :
  no_fault ctx 0 ->
  (forall p, getPollById ctx id db = (Some p, None) <-> polls_with_id id (polls db) = [p]) /\
  (length (polls_with_id id (polls db)) <> 1 -> getPollById ctx id db = (None, Some single_error)).
Proof.
  intros Hf. unfold getPollById. rewrite round_trip_ok by done. split.
  - intros p. rewrite <-single_ok. destruct (single _); split; intros; by simplify_eq.
  - destruct (polls_with_id id (polls db)) as [|? [|? ?]]; simpl; done || lia.
Qed.

(** A delete of an id no poll has answers with PostgREST's
    [.single()] error, never with the code's "Poll not found": that
    branch of [deletePoll] cannot be reached. *)
Theorem deletePoll_missing_poll ctx id db uid :
  ctx_user_error ctx = None -> ctx_user ctx = Some uid -> no_fault ctx 0 ->
  polls_with_id id (polls db) = [] ->
  deletePoll ctx id db = (Some single_error, db).
Proof. intros He Hu Hf Hp. unfold deletePoll. by rewrite He, Hu, round_trip_ok, Hp. Qed.

(** ** Witnesses, with the reference [csrf] and [DOMPurify] instances *)

Lemma createPoll_records_poll_witness :
  createPoll (ctx_of "U1") 0 (poll_form good_token "Best?" ["A"; "B"]) a_db =
    (None, add_poll (ctx_of "U1") "U1" "Best?"
            (form_options (poll_form good_token "Best?" ["A"; "B"])) a_db).
Proof.
  apply (createPoll_records_poll _ _ _ _ "Best?" "U1"); try reflexivity.
  repeat constructor.
Defined.

Lemma createPoll_rejects_invalid_witness :
  createPoll (ctx_of "U1") 0 (poll_form good_token "Best?" ["A"; "<b>"]) a_db =
    (Some msg_option_chars, a_db) /\
  polls_POST (ctx_of "U1") 0 (Some (poll_form good_token "Best?" ["A"; "<b>"])) a_db =
    (error_response msg_option_chars 400, a_db).
Proof. apply createPoll_rejects_invalid; reflexivity. Defined.

Lemma createPoll_rejects_stale_token_witness :
  createPoll (ctx_of "U1") 1 (poll_form good_token "Best?" ["A"; "B"]) a_db = (Some msg_csrf, a_db).
Proof. apply (createPoll_rejects_stale_token _ _ 0 0); [reflexivity | lia]. Defined.

Lemma option_bounds_preserved_witness :
  polls_option_bounds (snd (createPoll (ctx_of "U1") 0 (poll_form good_token "Best?" ["A"; "B"]) a_db)).
Proof.
  apply (option_bounds_preserved (ctx_of "U1") 0 _ None "P1" a_db).
  repeat constructor; unfold option_bounds; simpl; lia.
Defined.

Lemma updatePoll_success_without_match_witness :
  updatePoll (ctx_of "U1") 0 "P1" (poll_form good_token "Q" ["x"; "y"]) a_db = (None, a_db).
Proof.
  apply (updatePoll_success_without_match _ _ _ _ _ "Q" "U1"); try reflexivity.
  all: first [done | simpl; lia | constructor; [|constructor]; simpl; intros _ Heq; discriminate Heq].
Defined.

Lemma deletePoll_non_owner_witness :
  deletePoll (ctx_of "U1") "P1" a_db = (Some msg_no_permission, a_db).
Proof.
  apply (deletePoll_non_owner _ _ _ a_poll "U1"); try reflexivity.
  - done.
Defined.

Lemma getUserPolls_own_newest_first_witness :
  exists ps, getUserPolls (ctx_of "U2") a_db = (ps, None) /\
             ps ≡ₚ filter (fun p => poll_user_id p = "U2") (polls a_db) /\
             StronglySorted (key_ge poll_created_at) ps.
Proof. apply getUserPolls_own_newest_first; reflexivity. Defined.

Lemma getPollById_single_witness :
  getPollById (ctx_of "U1") "P9" a_db = (None, Some single_error).
Proof.
  apply (getPollById_single (ctx_of "U1") "P9" a_db); [reflexivity | simpl; lia].
Defined.

Lemma deletePoll_missing_poll_witness :
  deletePoll (ctx_of "U1") "P9" a_db = (Some single_error, a_db).
Proof. apply (deletePoll_missing_poll _ _ _ "U1"); reflexivity. Defined.

End Polls.
