(* ===== verification/Clients.v ===== *)
(** * The browser side of poll creation and editing

    [GET /api/csrf] ([src/app/api/csrf/route.ts]) and the two forms that
    submit polls: [PollCreateForm] ([src/app/(dashboard)/create/PollCreateForm.tsx]),
    which calls the [createPoll] server action, and [EditPollForm]
    ([src/app/(dashboard)/polls/[id]/edit/EditPollForm.tsx]), which
    fetches a CSRF token on mount and sends [PUT /api/polls/[id]].

    The JavaScript conversions the flows rely on are written out:
    [JSON.stringify] of the value [csrf.secret()] returns, the [.token]
    read on the parsed body, [String(v)] when [formData.append] stores a
    non-string, and truthiness for the disabled submit button.
    [Number.prototype.toString] is the one conversion left as an
    argument ([number_string]): no flow below prints a number.

    The option list both forms edit ([handleOptionChange], [addOption],
    [removeOption]) is a step relation on lists of strings, and the
    edit form's initial state is read from the poll's JSON. *)

From S2P Require Import Prelude Http Db Libraries Polls.

Module Clients.
Import Polls.

(** ** [GET /api/csrf] *)

(** What [csrf.secret()] returns.  Called without a callback, the [csrf]
    package returns a Promise of the secret. *)
Inductive secret_value :=
| SecretPromise
| SecretString (s : string).

Definition csrf_secret_call : secret_value := SecretPromise.

(** [JSON.stringify]: a Promise has no own enumerable property and is
    written as an empty object. *)
Definition secret_json (v : secret_value) : json :=
  match v with
  | SecretPromise => JObj []
  | SecretString s => JStr s
  end.

(** Lines 6-16; [csrf.secret()] does not throw synchronously, so the
    [catch] branch is not reached. *)
Definition csrf_GET : response := json_ok (JObj [("token", secret_json csrf_secret_call)]).

(** ** JavaScript conversions *)

(** [String(v)].  Arrays are joined with commas, [null] elements giving
    the empty string; every plain object gives ["[object Object]"]. *)
Fixpoint js_string (number_string : Q -> string) (j : json) : string :=
  match j with
  | JNull => "null"
  | JBool b => if b then "true" else "false"
  | JNum q => number_string q
  | JStr s => s
  | JArr xs =>
      (fix go (xs : list json) : string :=
         match xs with
         | [] => ""
         | x :: rest =>
             let s := match x with JNull => "" | _ => js_string number_string x end in
             match rest with [] => s | _ => String.append s (String.append "," (go rest)) end
         end) xs
  | JObj _ => "[object Object]"
  end.

Definition jsval_string (number_string : Q -> string) (v : jsval) : string :=
  match v with JsUndefined => "undefined" | JsVal j => js_string number_string j end.

(** ** [EditPollForm] *)

(** Lines 16-28: [fetch('/api/csrf')], [response.json()] and
    [setCsrfToken(data.token)].  A throw (a [null] body) is caught and
    the state keeps its value. *)
Definition fetch_csrf_token (r : response) (csrfToken : jsval) : jsval :=
  match destructure (body r) "token" with
  | Some v => v
  | None => csrfToken
  end.

(** The state on mount: [useState<string>("")]. *)
Definition initial_token : jsval := JsVal (JStr "").

(** The entries the form element contributes: the question input and
    one input per option, all named. *)
Definition edit_fields (question : string) (options : list string) : formdata :=
  ("question", question) :: ((fun o => ("options", o)) <$> options).

(** Lines 47-51. *)
Definition edit_form_data (fields : formdata) (csrfToken question : string) (options : list string)
    : formdata :=
  foldl (fun fd opt => form_append fd "options" opt)
    (form_delete (form_set (form_append fields "csrf_token" csrfToken) "question" question) "options")
    options.

(** What the form shows after a submit. *)
Inductive form_outcome :=
| NotSubmitted
| ShownError (msg : string)
| Succeeded.

Section edit.
Context `{!CsrfTokens} `{!Sanitizer}.

(** Lines 41-73, with the submit button's [disabled={isLoading || !csrfToken}]
    (line 113): a falsy token means no submit. *)
Definition edit_submit (number_string : Q -> string) (ctx : Ctx) (seed : nat) (poll_id : string)
    (csrfToken : jsval) (question : string) (options : list string) (db : Db)
    : form_outcome * Db :=
  when negb (js_truthy csrfToken) return (NotSubmitted, db) ;;
  let fd := edit_form_data (edit_fields question options)
              (jsval_string number_string csrfToken) question options in
  let '(r, db') := poll_PUT ctx seed poll_id (Some fd) db in
  (if response_ok r then Succeeded else ShownError (error_or r "Failed to update poll"), db').

(** ** [PollCreateForm] *)

(** Lines 33-39: the question input is the only named field; the
    option inputs have no [name], and the trimmed non-empty options are
    appended. *)
Definition create_form_data (question : string) (options : list string) : formdata :=
  foldl (fun fd opt => if bool_decide (trim opt = "") then fd else form_append fd "options" (trim opt))
    [("question", question)] options.

(** Lines 28-56: [if (result.error)] treats an empty message as none. *)
Definition create_submit (ctx : Ctx) (seed : nat) (question : string) (options : list string) (db : Db)
    : form_outcome * Db :=
  let '(r, db') := createPoll ctx seed (create_form_data question options) db in
  match r with
  | Some e => if bool_decide (e = "") then (Succeeded, db') else (ShownError e, db')
  | None => (Succeeded, db')
  end.
(** The [required] attribute of the question and option inputs (lines
    65 and 75 of [PollCreateForm], 87 and 98 of [EditPollForm]): the
    browser does not submit the form, and [handleSubmit] does not run,
    while one of them is empty. *)
Definition required_filled (values : list string) : bool :=
  forallb (fun v => negb (bool_decide (v = ""))) values.

(** A submit of [PollCreateForm] as the browser runs it. *)
Definition PollCreateForm_submit (ctx : Ctx) (seed : nat) (question : string) (options : list string)
    (db : Db) : form_outcome * Db :=
  if required_filled (question :: options) then create_submit ctx seed question options db
  else (NotSubmitted, db).

(** A submit of [EditPollForm] as the browser runs it. *)
Definition EditPollForm_submit (number_string : Q -> string) (ctx : Ctx) (seed : nat) (poll_id : string)
    (csrfToken : jsval) (question : string) (options : list string) (db : Db) : form_outcome * Db :=
  if required_filled (question :: options)
  then edit_submit number_string ctx seed poll_id csrfToken question options db
  else (NotSubmitted, db).
End edit.

(** ** The option list of both forms

    [PollCreateForm] lines 17-26 and [EditPollForm] lines 30-39 (the
    same code).  Indices are the [idx] of [options.map]. *)

Definition handleOptionChange (idx : nat) (value : string) (opts : list string) : list string :=
  imap (fun i opt => if decide (i = idx) then value else opt) opts.

Definition addOption (opts : list string) : list string := opts ++ [""].

(** The guard reads [options.length]; the updater filters by index. *)
Definition removeOption (idx : nat) (options : list string) : list string :=
  if bool_decide (2 < length options)
  then snd <$> filter (fun io => io.1 <> idx) (imap pair options)
  else options.

Inductive option_event :=
| OptionChange (idx : nat) (value : string)
| AddOption
| RemoveOption (idx : nat).

Definition option_update (e : option_event) (opts : list string) : list string :=
  match e with
  | OptionChange idx value => handleOptionChange idx value opts
  | AddOption => addOption opts
  | RemoveOption idx => removeOption idx opts
  end.

(** Any event, at any index, whether or not the form renders its button. *)
Inductive option_step : list string -> list string -> Prop :=
| OptionStep e opts : option_step opts (option_update e opts).

(** [PollCreateForm], line 11: [useState(["", ""])]. *)
Definition create_initial_options : list string := [""; ""].

(** [EditPollForm] lines 9-10: [useState(poll.question)] and
    [useState<string[]>(poll.options || [])].  The option state is a
    list of strings; a truthy [poll.options] that is not an array of
    strings is outside the model ([None]). *)
Definition json_strings (j : json) : option (list string) :=
  match j with
  | JArr xs => mapM (fun x => match x with JStr s => Some s | _ => None end) xs
  | _ => None
  end.

Definition edit_initial (poll : json) : jsval * option (list string) :=
  (prop poll "question",
   let v := prop poll "options" in
   if js_truthy v then (match v with JsVal j => json_strings j | JsUndefined => None end) else Some []).

(** ** What the forms show *)

(** Lines 69-83 of [PollCreateForm] and 92-106 of [EditPollForm]: each
    option with its Remove button, shown while there are more than two
    options. *)
Definition option_rows (options : list string) : list (string * bool) :=
  (fun opt => (opt, bool_decide (2 < length options))) <$> options.

Record form_view := mkFormView {
  fv_options : list (string * bool);
  fv_error : option string;
  fv_success : bool;
  fv_submit_label : string;
  fv_submit_disabled : bool
}.

(** [{error && <div>{error}</div>}]: an empty message is not shown. *)
Definition shown_error (error : option string) : option string :=
  match error with Some e => if bool_decide (e = "") then None else Some e | None => None end.

(** [PollCreateForm], lines 58-94. *)
Definition PollCreateForm_view (options : list string) (error : option string) (success isLoading : bool)
    : form_view :=
  mkFormView (option_rows options) (shown_error error) success
    (if isLoading then "Creating..." else "Create Poll") isLoading.

(** [EditPollForm], lines 75-117: the submit button also waits for a
    truthy token. *)
Definition EditPollForm_view (options : list string) (error : option string) (success isLoading : bool)
    (csrfToken : jsval) : form_view :=
  mkFormView (option_rows options) (shown_error error) success
    (if isLoading then "Updating..." else "Update Poll") (isLoading || negb (js_truthy csrfToken)).

(** ** Lemmas *)

Lemma create_form_data_no_token question options :
  form_get (create_form_data question options) "csrf_token" = None.
Proof.
  unfold create_form_data.
  assert (Hinv : forall fd, form_get fd "csrf_token" = None ->
    form_get (foldl (fun fd opt => if bool_decide (trim opt = "") then fd
                                   else form_append fd "options" (trim opt)) fd options)
             "csrf_token" = None).
  { induction options as [|o os IH]; intros fd Hfd; simpl; [done|].
    apply IH. case_bool_decide; [done|]. by rewrite form_get_append_other. }
  by apply Hinv.
Qed.

Lemma edit_fields_no_token question options :
  form_get (edit_fields question options) "csrf_token" = None.
Proof.
  unfold edit_fields. simpl. induction options as [|o os IH]; [done|]. by rewrite fmap_cons.
Qed.

Lemma edit_form_data_token question options tok :
  form_get (edit_form_data (edit_fields question options) tok question options) "csrf_token" = Some tok.
Proof.
  unfold edit_form_data. autorewrite with polly_rw. by apply form_get_append_new, edit_fields_no_token.
Qed.

Lemma fetched_token : fetch_csrf_token csrf_GET initial_token = JsVal (JObj []).
Proof. reflexivity. Qed.

Lemma object_string_not_token : url_safe_string "[object Object]" = false.
Proof. vm_compute. reflexivity. Qed.

Lemma removeOption_delete idx opts :
  removeOption idx opts = if bool_decide (2 < length opts) then delete idx opts else opts.
Proof. unfold removeOption. case_bool_decide; [apply filter_index_delete|done]. Qed.

Lemma option_update_length e opts : Nat.min 2 (length opts) <= length (option_update e opts).
Proof.
  destruct e as [idx v| |idx]; unfold option_update.
  - unfold handleOptionChange. rewrite imap_replace_insert, length_insert. lia.
  - unfold addOption. rewrite length_app. cbn [length]. lia.
  - rewrite removeOption_delete. case_bool_decide; [|lia].
    pose proof (length_delete_ge opts idx). lia.
Qed.

Lemma json_strings_fmap l : json_strings (JArr (JStr <$> l)) = Some l.
Proof. unfold json_strings. apply (mapM_fmap_Some _ JStr). by intros. Qed.

Section client_props.
Context `{!CsrfTokens} `{!Sanitizer}.

(** [handleSubmit] of [PollCreateForm] is refused whatever the input. *)
Lemma create_submit_rejected ctx seed question options db :
  create_submit ctx seed question options db = (ShownError msg_csrf, db).
Proof.
  unfold create_submit, createPoll. rewrite create_form_data_no_token, csrf_verify_null. simpl.
  done.
Qed.

(** [handleSubmit] of [EditPollForm], with the token fetched on
    mount, is refused whatever the input. *)
Lemma edit_submit_rejected number_string ctx seed poll_id question options db :
  edit_submit number_string ctx seed poll_id (fetch_csrf_token csrf_GET initial_token)
    question options db = (ShownError msg_csrf, db).
Proof.
  rewrite fetched_token. unfold edit_submit. simpl.
  unfold poll_PUT. rewrite edit_form_data_token.
  by rewrite (csrf_rejects_non_token _ _ object_string_not_token).
Qed.

(** C17. [PollCreateForm] never creates a poll.  While the question
    or an option is empty the browser does not submit; otherwise the
    form data carries no [csrf_token] entry, [createPoll] refuses it
    with "Invalid CSRF token" and the form shows that message.  Either
    way the store is unchanged. *)
Theorem create_form_always_rejected ctx seed question options db :
  PollCreateForm_submit ctx seed question options db =
    (if required_filled (question :: options) then ShownError msg_csrf else NotSubmitted, db).
Proof. unfold PollCreateForm_submit. destruct (required_filled _); [apply create_submit_rejected|done]. Qed.

(** C18. [EditPollForm] never updates a poll.  While the question or
    an option is empty the browser does not submit; otherwise the token
    it fetched from [GET /api/csrf] is the serialised Promise [{}], the
    submit button is enabled (an object is truthy), [formData.append]
    stores ["[object Object]"], which is not a [csrf] token, and [PUT
    /api/polls/[id]] answers 403 "Invalid CSRF token".  Either way the
    store is unchanged. *)
Theorem edit_form_always_rejected number_string ctx seed poll_id question options db :
  EditPollForm_submit number_string ctx seed poll_id (fetch_csrf_token csrf_GET initial_token)
    question options db =
    (if required_filled (question :: options) then ShownError msg_csrf else NotSubmitted, db).
Proof. unfold EditPollForm_submit. destruct (required_filled _); [apply edit_submit_rejected|done]. Qed.

(** A Remove button the forms show always removes its option: it is
    shown only with more than two options, so [removeOption]'s guard
    passes and the list loses exactly that entry. *)
Theorem shown_remove_button_works options idx opt :
  option_rows options !! idx = Some (opt, true) ->
  removeOption idx options = delete idx options /\ length (removeOption idx options) = length options - 1.
Proof.
  unfold option_rows. rewrite list_lookup_fmap. destruct (options !! idx) as [o|] eqn:Ho; [|done].
  intros [= _ Hb]. apply bool_decide_eq_true in Hb.
  rewrite removeOption_delete, bool_decide_eq_true_2 by done.
  split; [done|]. apply length_delete. by exists o.
Qed.

(** The option list of both poll forms never drops below two
    entries, or below its starting length when that is smaller:
    [removeOption]'s own guard ([options.length > 2]) keeps it, whatever
    sequence of edits, additions and removals the user makes and at
    whatever index, so [PollCreateForm], which starts from two empty
    options, always has at least two. *)
Theorem option_list_keeps_two opts opts' :
  rtc option_step opts opts' -> Nat.min 2 (length opts) <= length opts'.
Proof.
  induction 1 as [|o1 o2 o3 Hs _ IH]; [lia|].
  destruct Hs as [e o]. pose proof (option_update_length e o). lia.
Qed.

(** The state [EditPollForm] starts from, read out of the JSON of a
    stored poll, is the poll's question and its options, in order. *)
Lemma edit_initial_poll_json p :
  edit_initial (poll_json p) = (JsVal (JStr (question p)), Some (options p)).
Proof.
  unfold edit_initial.
  change (prop (poll_json p) "options") with (JsVal (JArr (JStr <$> options p))).
  change (prop (poll_json p) "question") with (JsVal (JStr (question p))).
  cbn [js_truthy]. by rewrite json_strings_fmap.
Qed.

Lemma edit_form_data_reads q os tok :
  let fd := edit_form_data (edit_fields q os) tok q os in
  form_get fd "question" = Some q /\ form_getAll fd "options" = os /\
  form_get fd "csrf_token" = Some tok /\ form_options fd = filter_truthy os.
Proof.
  assert (Hall : form_getAll (edit_form_data (edit_fields q os) tok q os) "options" = os).
  { unfold edit_form_data. by rewrite form_getAll_foldl_append, form_getAll_delete. }
  simpl. split_and!; [|done|apply edit_form_data_token|by unfold form_options; rewrite Hall].
  unfold edit_form_data. autorewrite with polly_rw. apply form_get_set_same.
Qed.

(** C23. Round trip of the edit page.  The state [EditPollForm] starts
    from, read out of the JSON of a stored poll, is the poll's question
    and its options, in order; and whatever question, options and token
    the form then holds, the [FormData] it sends reads back on the
    server as that question ([get]), those options in order ([getAll];
    the form deletes the inputs' own entries before appending), that
    token, and, once [.filter(Boolean)] has run, the non-empty
    options. *)
Theorem edit_form_roundtrip p :
  edit_initial (poll_json p) = (JsVal (JStr (question p)), Some (options p)) /\
  forall q os tok,
    let fd := edit_form_data (edit_fields q os) tok q os in
    form_get fd "question" = Some q /\ form_getAll fd "options" = os /\
    form_get fd "csrf_token" = Some tok /\ form_options fd = filter_truthy os.
Proof. split; [apply edit_initial_poll_json|intros; apply edit_form_data_reads]. Qed.

End client_props.

(** ** Witnesses *)

(** The third of three options shows its Remove button, which removes it. *)
Lemma shown_remove_button_works_witness :
  removeOption 2 ["A"; "B"; "C"] = delete 2 ["A"; "B"; "C"] /\
  length (removeOption 2 ["A"; "B"; "C"]) = length ["A"; "B"; "C"] - 1.
Proof. apply (shown_remove_button_works _ _ "C"). reflexivity. Defined.

(** Add an option, then remove the first one twice: the second removal
    is refused by the guard and two options remain. *)
Lemma option_list_keeps_two_witness :
  Nat.min 2 (length create_initial_options) <=
  length (option_update (RemoveOption 0) (option_update (RemoveOption 0)
            (option_update AddOption create_initial_options))).
Proof.
  apply option_list_keeps_two.
  eapply rtc_l; [exact (OptionStep AddOption _)|].
  eapply rtc_l; [exact (OptionStep (RemoveOption 0) _)|].
  eapply rtc_l; [exact (OptionStep (RemoveOption 0) _)|].
  apply rtc_refl.
Defined.

End Clients.
