(* ===== verification/Admin.v ===== *)
(** * Administration

    The server actions of [src/app/lib/actions/admin-actions.ts]
    ([isAdmin], [getAllUsers], [updateUserRole], [getAllPolls],
    [adminDeletePoll], [getPlatformStats]) and the page that gates the
    dashboard on them ([src/app/(dashboard)/admin/page.tsx]).

    Every action first calls [isAdmin], which reads the caller's
    profile with [.single()] (store round trip 0), then issues its own
    queries (round trips 1, 2, ...).  [revalidatePath] only refreshes
    Next.js's page cache and is not modelled.  The page calls [isAdmin]
    and then the three readers; each runs its own queries, and
    [shift_ctx] gives each one its slice of the request's round trips.
    The dashboard component ([AdminDashboard.tsx]) shows the stats
    and two tabs of rows ([AdminDashboard]) and calls [updateUserRole]
    and [adminDeletePoll] from its buttons, both as whole handlers and
    split at their [await] ([dash_step]), where clicks and answers
    interleave.

    The theorems: the gate (nothing is read or changed for a caller who
    is not an admin), what [isAdmin] decides, role updates, the counts
    of the statistics, that an admin who demotes themself is locked
    out at the next click, and that the busy state marks only rows with
    an action in flight but does not stop a second click on a row. *)

From S2P Require Import Prelude Http Db Polls.

Module Admin.
Import Polls.

Definition msg_unauthorized : string := "Unauthorized".

(** [.from("profiles").select(..).eq("id", uid)]. *)
Definition profiles_with_id (uid : string) (prs : list profile) : list profile :=
  filter (fun p => profile_id p = uid) prs.

(** ** [isAdmin], lines 7-26.  A failed read leaves [profile] null, so
    [profile?.role === "admin"] is false. *)
Definition isAdmin (ctx : Ctx) (db : Db) : bool :=
  match ctx_user_error ctx with
  | Some _ => false
  | None =>
      let! uid := ctx_user ctx else false in
      match round_trip ctx 0 (single (profiles_with_id uid (profiles db))) with
      | SbOk p => bool_decide (role p = "admin")
      | SbErr _ => false
      end
  end.

(** ** [getAllUsers], lines 29-43 *)
Definition getAllUsers (ctx : Ctx) (db : Db) : list profile * option string :=
  when negb (isAdmin ctx db) return ([], Some msg_unauthorized) ;;
  match round_trip ctx 1 (SbOk (order_desc profile_created_at (profiles db))) with
  | SbErr m => ([], Some m)
  | SbOk data => (data, None)
  end.

(** ** [updateUserRole], lines 46-62.  The parameter's type is the
    union ["admin" | "user"]. *)
Inductive role_arg := RoleAdmin | RoleUser.

Definition role_string (r : role_arg) : string :=
  match r with RoleAdmin => "admin" | RoleUser => "user" end.

(** [.update({ role }).eq("id", userId)]. *)
Definition set_role (userId r : string) (prs : list profile) : list profile :=
  (fun p => if decide (profile_id p = userId)
            then mkProfile (profile_id p) (email p) r (profile_created_at p) else p) <$> prs.

Definition updateUserRole (ctx : Ctx) (userId : string) (r : role_arg) (db : Db) : action_result * Db :=
  when negb (isAdmin ctx db) return (Some msg_unauthorized, db) ;;
  match round_trip ctx 1 (SbOk tt) with
  | SbErr m => (Some m, db)
  | SbOk _ => (None, with_profiles db (set_role userId (role_string r) (profiles db)))
  end.

(** ** [getAllPolls], lines 65-82: each poll with the embedded email of
    the profile its [user_id] references ([null] when there is none). *)
Definition poll_with_email (prs : list profile) (p : poll) : poll * option string :=
  (p, email <$> head (profiles_with_id (poll_user_id p) prs)).

Definition getAllPolls (ctx : Ctx) (db : Db) : list (poll * option string) * option string :=
  when negb (isAdmin ctx db) return ([], Some msg_unauthorized) ;;
  match round_trip ctx 1 (SbOk (poll_with_email (profiles db) <$> order_desc poll_created_at (polls db))) with
  | SbErr m => ([], Some m)
  | SbOk data => (data, None)
  end.

(** ** [adminDeletePoll], lines 85-102: no owner check. *)
Definition adminDeletePoll (ctx : Ctx) (pollId : string) (db : Db) : action_result * Db :=
  when negb (isAdmin ctx db) return (Some msg_unauthorized, db) ;;
  match round_trip ctx 1 (SbOk tt) with
  | SbErr m => (Some m, db)
  | SbOk _ => (None, with_polls db (delete_polls pollId (polls db)))
  end.

(** ** [getPlatformStats], lines 105-145 *)
Record stats := mkStats {
  totalUsers : nat;
  totalPolls : nat;
  totalVotes : nat;
  recentPolls : nat
}.

(** [{ count }] of a [head: true] select, then [count || 0]: a failed
    query leaves [count] null and counts 0. *)
Definition count_or_zero {A} (r : sb_result (list A)) : nat :=
  match r with SbOk rows => length rows | SbErr _ => 0 end.

(** [setDate(getDate() - 7)]: seven days in milliseconds (local time
    shifts of daylight saving are not modelled). *)
Definition seven_days_ms : Z := 7 * 24 * 3600 * 1000.

Definition recent_polls (since : Z) (ps : list poll) : list poll :=
  filter (fun p => (since <= poll_created_at p)%Z) ps.

Definition getPlatformStats (ctx : Ctx) (db : Db) : option stats * option string :=
  when negb (isAdmin ctx db) return (None, Some msg_unauthorized) ;;
  let totalUsers := count_or_zero (round_trip ctx 1 (SbOk (profiles db))) in
  let totalPolls := count_or_zero (round_trip ctx 2 (SbOk (polls db))) in
  let totalVotes := count_or_zero (round_trip ctx 3 (SbOk (votes db))) in
  let sevenDaysAgo := (ctx_now ctx - seven_days_ms)%Z in
  let recentPolls := count_or_zero (round_trip ctx 4 (SbOk (recent_polls sevenDaysAgo (polls db)))) in
  (Some (mkStats totalUsers totalPolls totalVotes recentPolls), None).

(** ** [AdminPage], lines 5-32 of [page.tsx] *)

(** The request seen from the [k]-th round trip on. *)
Definition shift_ctx (ctx : Ctx) (k : nat) : Ctx :=
  mkCtx (ctx_user ctx) (ctx_user_error ctx) (ctx_now ctx) (fun n => ctx_fault ctx (k + n)).

Inductive admin_page :=
| Redirect (path : string)
| Dashboard (users : list profile) (polls : list (poll * option string)) (stats : option stats)
    (errors : option string * option string * option string).

Definition AdminPage (ctx : Ctx) (db : Db) : admin_page :=
  when negb (isAdmin ctx db) return Redirect "/polls" ;;
  let usersResult := getAllUsers (shift_ctx ctx 1) db in
  let pollsResult := getAllPolls (shift_ctx ctx 3) db in
  let statsResult := getPlatformStats (shift_ctx ctx 5) db in
  Dashboard usersResult.1 pollsResult.1 statsResult.1 (usersResult.2, pollsResult.2, statsResult.2).

(** ** [AdminDashboard] ([src/app/(dashboard)/admin/AdminDashboard.tsx]) *)

Inductive dashboard_outcome :=
| Refreshed
| AlertShown (msg : string)
| Cancelled.

(** Line 157: the button makes an admin a user and anyone else an admin. *)
Definition toggled_role (current : string) : role_arg :=
  if bool_decide (current = "admin") then RoleUser else RoleAdmin.

(** [if (result.error) alert(...) else router.refresh()]. *)
Definition dashboard_result (prefix : string) (r : action_result) : dashboard_outcome :=
  match r with
  | Some e => if bool_decide (e = "") then Refreshed else AlertShown (String.append prefix e)
  | None => Refreshed
  end.

(** Lines 57-67. *)
Definition handleRoleUpdate (ctx : Ctx) (u : profile) (db : Db) : dashboard_outcome * Db :=
  let '(r, db') := updateUserRole ctx (profile_id u) (toggled_role (role u)) db in
  (dashboard_result "Error updating role: " r, db').

(** Lines 69-81. *)
Definition handleDeletePoll (confirmed : bool) (ctx : Ctx) (pollId : string) (db : Db)
    : dashboard_outcome * Db :=
  if negb confirmed then (Cancelled, db) else
  let '(r, db') := adminDeletePoll ctx pollId db in
  (dashboard_result "Error deleting poll: " r, db').

(** *** What the dashboard shows (lines 83-221) *)

(** [errors.x ? <error> : <rows>]: an empty message is falsy. *)
Inductive tab_view (A : Type) :=
| TabError (msg : string)
| TabRows (rows : list A).
Arguments TabError {A} msg.
Arguments TabRows {A} rows.

Definition tab {A} (err : option string) (rows : list A) : tab_view A :=
  match err with
  | Some e => if bool_decide (e = "") then TabRows rows else TabError e
  | None => TabRows rows
  end.

(** Lines 143-163: a user's row; [loading === user.id] disables the
    button and relabels it. *)
Record user_row := mkUserRow {
  ur_email : string;
  ur_badge : string;
  ur_button : string;
  ur_disabled : bool;
  ur_requests : role_arg
}.

Definition user_row_of (loading : option string) (u : profile) : user_row :=
  let busy := bool_decide (loading = Some (profile_id u)) in
  mkUserRow (email u) (role u)
    (if busy then "Updating..."
     else String.append "Make " (if bool_decide (role u = "admin") then "User" else "Admin"))
    busy (toggled_role (role u)).

(** Lines 183-210: a poll's row; [poll.profiles?.email || "Unknown"]. *)
Record poll_row := mkPollRow {
  pr_question : string;
  pr_creator : string;
  pr_button : string;
  pr_disabled : bool;
  pr_options : list string
}.

Definition poll_row_of (loading : option string) (pe : poll * option string) : poll_row :=
  let '(p, e) := pe in
  let busy := bool_decide (loading = Some (poll_id p)) in
  mkPollRow (question p)
    (match e with Some m => if bool_decide (m = "") then "Unknown" else m | None => "Unknown" end)
    (if busy then "Deleting..." else "Delete") busy (options p).

Record dashboard_view := mkDashboardView {
  dv_stats : option stats;
  dv_users : tab_view user_row;
  dv_polls : tab_view poll_row
}.

(** Lines 53 and 83-221: the cards when [stats] is not null, then the
    two tabs. *)
Definition AdminDashboard (users : list profile) (polls : list (poll * option string))
    (stats : option stats) (errors : option string * option string * option string)
    (loading : option string) : dashboard_view :=
  let '(eu, ep, _) := errors in
  mkDashboardView stats (tab eu (user_row_of loading <$> users)) (tab ep (poll_row_of loading <$> polls)).

(** *** The buttons, with their [await] *)

(** A click whose server action has not answered yet. *)
Inductive pending :=
| PendingRole (ctx : Ctx) (userId : string) (r : role_arg)
| PendingDelete (ctx : Ctx) (pollId : string).

Definition pending_id (p : pending) : string :=
  match p with PendingRole _ uid _ => uid | PendingDelete _ pid => pid end.

(** The component's state ([loading]), the actions in flight, the store
    and the alerts and refreshes so far. *)
Record dash := mkDash {
  d_loading : option string;
  d_pending : list pending;
  d_db : Db;
  d_shown : list dashboard_outcome
}.

Definition finish (p : pending) (db : Db) : dashboard_outcome * Db :=
  match p with
  | PendingRole ctx uid r =>
      let '(res, db') := updateUserRole ctx uid r db in (dashboard_result "Error updating role: " res, db')
  | PendingDelete ctx pid =>
      let '(res, db') := adminDeletePoll ctx pid db in (dashboard_result "Error deleting poll: " res, db')
  end.

(** Lines 57-81 split at their [await]: a click on an enabled button
    sets [loading] and sends the action; an answer shows its outcome
    and sets [loading] back to [null], whichever row it belongs to. *)
Inductive dash_step : dash -> dash -> Prop :=
| ClickRole ctx u st :
    d_loading st <> Some (profile_id u) ->
    dash_step st (mkDash (Some (profile_id u))
                   (d_pending st ++ [PendingRole ctx (profile_id u) (toggled_role (role u))])
                   (d_db st) (d_shown st))
| ClickDelete ctx pid st :
    d_loading st <> Some pid ->
    dash_step st (mkDash (Some pid) (d_pending st ++ [PendingDelete ctx pid]) (d_db st) (d_shown st))
| CancelDelete (pid : string) st :
    dash_step st (mkDash (d_loading st) (d_pending st) (d_db st) (d_shown st ++ [Cancelled]))
| Answer i p st :
    d_pending st !! i = Some p ->
    dash_step st (mkDash None (delete i (d_pending st)) (finish p (d_db st)).2
                   (d_shown st ++ [(finish p (d_db st)).1])).

(** Every row whose button shows "Updating..." or "Deleting..." has an
    action in flight. *)
Definition loading_pending (st : dash) : Prop :=
  forall x, d_loading st = Some x -> Exists (fun p => pending_id p = x) (d_pending st).

(** Every profile's role is one of the two the type allows. *)
Definition valid_roles (db : Db) : Prop :=
  Forall (fun p => role p = "admin" \/ role p = "user") (profiles db).

(** ** Scenario: [U9] is an admin, [U1] a user who owns [P1]. *)
Definition admin_db : Db :=
  mkDb [mkPoll "P1" "U1" "Pick one" ["A"; "B"] 0 None] [] []
       [mkProfile "U9" "root@example.com" "admin" 0; mkProfile "U1" "u1@example.com" "user" 0] [] 2.

Definition admin_ctx (uid : string) : Ctx := mkCtx (Some uid) None 1000 (fun _ => None).

(** ** Lemmas *)

Lemma count_or_zero_le {A} ctx n (l : list A) : count_or_zero (round_trip ctx n (SbOk l)) <= length l.
Proof. unfold round_trip. destruct (ctx_fault ctx n); simpl; lia. Qed.

Lemma count_or_zero_ok {A} ctx n (l : list A) :
  no_fault ctx n -> count_or_zero (round_trip ctx n (SbOk l)) = length l.
Proof. intros Hf. by rewrite round_trip_ok. Qed.

Lemma recent_polls_le since ps : length (recent_polls since ps) <= length ps.
Proof. apply length_filter. Qed.

Lemma set_role_lookup userId r prs i p :
  prs !! i = Some p ->
  set_role userId r prs !! i =
    Some (if decide (profile_id p = userId)
          then mkProfile (profile_id p) (email p) r (profile_created_at p) else p).
Proof. intros Hi. unfold set_role. by rewrite list_lookup_fmap, Hi. Qed.

Lemma set_role_valid userId r prs :
  r = "admin" \/ r = "user" ->
  Forall (fun p => role p = "admin" \/ role p = "user") prs ->
  Forall (fun p => role p = "admin" \/ role p = "user") (set_role userId r prs).
Proof.
  intros Hr Hall. unfold set_role. apply Forall_fmap. eapply Forall_impl; [exact Hall|].
  intros p Hp. simpl. by case_decide.
Qed.

Lemma isAdmin_true_of ctx db :
  (exists uid p, ctx_user_error ctx = None /\ ctx_user ctx = Some uid /\ no_fault ctx 0 /\
                 profiles_with_id uid (profiles db) = [p] /\ role p = "admin") ->
  isAdmin ctx db = true.
Proof.
  intros (uid & p & He & Hu & Hf & Hp & Hr). unfold isAdmin. rewrite He, Hu, round_trip_ok, Hp by done.
  simpl. by apply bool_decide_eq_true.
Qed.

(** The profiles with the id, after [set_role] on that id, are the old
    ones with the new role. *)
Lemma profiles_with_id_set_role uid r prs :
  profiles_with_id uid (set_role uid r prs) =
  (fun p => mkProfile (profile_id p) (email p) r (profile_created_at p)) <$> profiles_with_id uid prs.
Proof.
  induction prs as [|p prs IH]; [done|]. unfold profiles_with_id, set_role in *.
  rewrite fmap_cons. cbn. destruct (decide (profile_id p = uid)) as [Hd|Hd]; cbn.
  - rewrite !decide_True by done. f_equal. exact IH.
  - rewrite !decide_False by done. exact IH.
Qed.

Lemma exists_pending_last ps p : Exists (fun q => pending_id q = pending_id p) (ps ++ [p]).
Proof. apply Exists_app. right. by constructor. Qed.

Lemma dash_step_loading_pending st st' : dash_step st st' -> loading_pending st -> loading_pending st'.
Proof.
  destruct 1 as [ctx u st Hu|ctx pid st Hp|pid st|i p st Hi]; intros Hinv x; simpl; try done.
  - intros [= <-]. apply (exists_pending_last _ (PendingRole ctx (profile_id u) (toggled_role (role u)))).
  - intros [= <-]. apply (exists_pending_last _ (PendingDelete ctx pid)).
  - apply Hinv.
Qed.

Lemma adminDeletePoll_cases ctx id db r db' :
  adminDeletePoll ctx id db = (r, db') -> db' = db \/ db' = with_polls db (delete_polls id (polls db)).
Proof.
  unfold adminDeletePoll. destruct (isAdmin ctx db); simpl; [|intros; simplify_eq; auto].
  destruct (round_trip ctx 1 _); intros; simplify_eq; auto.
Qed.

Lemma updateUserRole_cases ctx userId r db res db' :
  updateUserRole ctx userId r db = (res, db') -> db' = db \/ exists prs, db' = with_profiles db prs.
Proof.
  unfold updateUserRole. destruct (isAdmin ctx db); simpl; [|intros; simplify_eq; auto].
  destruct (round_trip ctx 1 _); intros; simplify_eq; eauto.
Qed.

#[export] Hint Resolve count_or_zero_le recent_polls_le : polly.

(** ** Theorems *)

(** C30. The admin gate: when [isAdmin] is false, every admin action
    answers "Unauthorized" with no data and no change to the store, and
    the admin page redirects to [/polls]. *)
Theorem admin_actions_require_admin ctx db userId r pollId :
  isAdmin ctx db = false ->
  getAllUsers ctx db = ([], Some msg_unauthorized) /\
  updateUserRole ctx userId r db = (Some msg_unauthorized, db) /\
  getAllPolls ctx db = ([], Some msg_unauthorized) /\
  adminDeletePoll ctx pollId db = (Some msg_unauthorized, db) /\
  getPlatformStats ctx db = (None, Some msg_unauthorized) /\
  AdminPage ctx db = Redirect "/polls".
Proof.
  intros Hn.
  unfold getAllUsers, updateUserRole, getAllPolls, adminDeletePoll, getPlatformStats, AdminPage.
  by rewrite Hn.
Qed.

(** [isAdmin] holds exactly when the session has a user, the
    profile read succeeds, exactly one profile has the user's id, and
    its role is ["admin"]. *)
Theorem isAdmin_spec ctx db :
  isAdmin ctx db = true <->
  exists uid p, ctx_user_error ctx = None /\ ctx_user ctx = Some uid /\ no_fault ctx 0 /\
                profiles_with_id uid (profiles db) = [p] /\ role p = "admin".
Proof.
  unfold isAdmin, round_trip, no_fault. split.
  - destruct (ctx_user_error ctx); [done|]. destruct (ctx_user ctx) as [uid|]; [|done].
    destruct (ctx_fault ctx 0); [done|].
    destruct (single _) as [p|m] eqn:Hs; [|done]. intros Hr.
    apply bool_decide_eq_true in Hr. apply single_ok in Hs. eauto 10.
  - apply isAdmin_true_of.
Qed.

(** An admin's [updateUserRole] succeeds, gives every profile
    with the id the new role and leaves every other profile as it was;
    and no call, by anyone, takes a role outside ["admin"] and
    ["user"]. *)
Theorem updateUserRole_sets_role ctx userId r db :
  (isAdmin ctx db = true -> no_fault ctx 1 ->
   fst (updateUserRole ctx userId r db) = None /\
   forall i p, profiles db !! i = Some p ->
     profiles (snd (updateUserRole ctx userId r db)) !! i =
       Some (if decide (profile_id p = userId)
             then mkProfile (profile_id p) (email p) (role_string r) (profile_created_at p) else p)) /\
  (valid_roles db -> valid_roles (snd (updateUserRole ctx userId r db))).
Proof.
  unfold updateUserRole. split.
  - intros Ha Hf. rewrite Ha, round_trip_ok by done. split; [done|].
    intros i p Hi. by apply set_role_lookup.
  - intros Hv. destruct (isAdmin ctx db); [|done]. simpl.
    destruct (round_trip ctx 1 _); [|done]. apply set_role_valid; [|done].
    destruct r; [left|right]; reflexivity.
Qed.

(** An admin deletes a poll whoever owns it: [adminDeletePoll]
    removes every poll with the id and answers [{ error: null }]. *)
Theorem adminDeletePoll_any_owner ctx pollId db :
  isAdmin ctx db = true -> no_fault ctx 1 ->
  adminDeletePoll ctx pollId db = (None, with_polls db (delete_polls pollId (polls db))).
Proof. intros Ha Hf. unfold adminDeletePoll. by rewrite Ha, round_trip_ok. Qed.

(** For an admin, [getPlatformStats] always answers with
    statistics and no error; each count is at most the size of its
    table, and is that size when its query succeeds.  A failed count
    query is reported as 0, not as an error. *)
Theorem getPlatformStats_counts ctx db :
  isAdmin ctx db = true ->
  exists s, getPlatformStats ctx db = (Some s, None) /\
    totalUsers s <= length (profiles db) /\ totalPolls s <= length (polls db) /\
    totalVotes s <= length (votes db) /\ recentPolls s <= length (polls db) /\
    (no_fault ctx 1 -> totalUsers s = length (profiles db)) /\
    (no_fault ctx 2 -> totalPolls s = length (polls db)) /\
    (no_fault ctx 3 -> totalVotes s = length (votes db)) /\
    (no_fault ctx 4 -> recentPolls s =
       length (recent_polls (ctx_now ctx - seven_days_ms)%Z (polls db))).
Proof.
  intros Ha. unfold getPlatformStats. rewrite Ha. simpl. eexists. split; [done|]. simpl.
  split_and!; try apply count_or_zero_ok; try apply count_or_zero_le.
  etrans; [apply count_or_zero_le | apply recent_polls_le].
Qed.

(** An admin who uses the dashboard's button on their own row becomes
    a user, and the next click is refused: the only way back is another
    admin. *)
Theorem self_demotion_locks_out ctx db u :
  ctx_user_error ctx = None -> ctx_user ctx = Some (profile_id u) ->
  (forall n, no_fault ctx n) -> profiles_with_id (profile_id u) (profiles db) = [u] ->
  role u = "admin" ->
  let '(o1, db1) := handleRoleUpdate ctx u db in
  let u' := mkProfile (profile_id u) (email u) "user" (profile_created_at u) in
  o1 = Refreshed /\ profiles_with_id (profile_id u) (profiles db1) = [u'] /\
  handleRoleUpdate ctx u' db1 = (AlertShown (String.append "Error updating role: " msg_unauthorized), db1).
Proof.
  intros He Hu Hf Hp Hr.
  assert (Ha : isAdmin ctx db = true).
  { apply isAdmin_true_of. exists (profile_id u), u. by split_and!. }
  unfold handleRoleUpdate, updateUserRole. rewrite Ha, round_trip_ok by done. simpl.
  unfold toggled_role. rewrite Hr. simpl.
  assert (Hp' : profiles_with_id (profile_id u)
                  (set_role (profile_id u) "user" (profiles db)) =
                [mkProfile (profile_id u) (email u) "user" (profile_created_at u)]).
  { by rewrite profiles_with_id_set_role, Hp. }
  split_and!; [done | exact Hp' |].
  assert (Hn : isAdmin ctx (with_profiles db (set_role (profile_id u) "user" (profiles db))) = false).
  { unfold isAdmin. rewrite He, Hu, round_trip_ok by done. simpl. rewrite Hp'. done. }
  simpl. rewrite Hn. done.
Qed.

(** The dashboard's busy state is sound: along any sequence of
    clicks and answers, in any order, a row shown as "Updating..." or
    "Deleting..." has an action in flight. *)
Theorem dashboard_loading_pending st st' :
  loading_pending st -> rtc dash_step st st' -> loading_pending st'.
Proof. intros Hinv Hr. induction Hr as [|s1 s2 s3 Hs _ IH]; eauto using dash_step_loading_pending. Qed.

(** C31. The busy state does not stop a second click.  [loading] holds
    one id: a click on another row replaces it, and the first row's
    button is enabled again while its action is in flight.  From an idle
    dashboard, clicking user [u], then user [v], then [u] again sends two
    role updates for [u] at once. *)
Theorem dashboard_double_submit ctx1 ctx2 ctx3 u v db shown :
  profile_id u <> profile_id v ->
  rtc dash_step (mkDash None [] db shown)
    (mkDash (Some (profile_id u))
       [PendingRole ctx1 (profile_id u) (toggled_role (role u));
        PendingRole ctx2 (profile_id v) (toggled_role (role v));
        PendingRole ctx3 (profile_id u) (toggled_role (role u))] db shown).
Proof.
  intros Huv.
  eapply rtc_l; [apply (ClickRole ctx1 u); simpl; congruence|].
  eapply rtc_l; [apply (ClickRole ctx2 v); simpl; congruence|].
  eapply rtc_l; [apply (ClickRole ctx3 u); simpl; congruence|].
  apply rtc_refl.
Qed.

(** A click answered before any other event computes exactly the
    whole handler: the split model refines [handleRoleUpdate]. *)
Theorem dash_click_answer_is_handleRoleUpdate ctx u db shown :
  let p := PendingRole ctx (profile_id u) (toggled_role (role u)) in
  dash_step (mkDash None [] db shown) (mkDash (Some (profile_id u)) [p] db shown) /\
  dash_step (mkDash (Some (profile_id u)) [p] db shown)
    (mkDash None [] (handleRoleUpdate ctx u db).2 (shown ++ [(handleRoleUpdate ctx u db).1])).
Proof.
  split.
  - apply (ClickRole ctx u (mkDash None [] db shown)). discriminate.
  - apply (Answer 0 (PendingRole ctx (profile_id u) (toggled_role (role u)))). reflexivity.
Qed.

(** ** Witnesses *)

Lemma admin_actions_require_admin_witness :
  adminDeletePoll (admin_ctx "U1") "P1" admin_db = (Some msg_unauthorized, admin_db).
Proof. apply (admin_actions_require_admin _ _ "U1" RoleAdmin "P1"). reflexivity. Defined.

Lemma updateUserRole_sets_role_witness :
  fst (updateUserRole (admin_ctx "U9") "U1" RoleAdmin admin_db) = None.
Proof. apply (updateUserRole_sets_role (admin_ctx "U9") "U1" RoleAdmin admin_db); reflexivity. Defined.

Lemma adminDeletePoll_any_owner_witness :
  adminDeletePoll (admin_ctx "U9") "P1" admin_db =
    (None, with_polls admin_db (delete_polls "P1" (polls admin_db))).
Proof. apply adminDeletePoll_any_owner; reflexivity. Defined.

Lemma getPlatformStats_counts_witness :
  exists s, getPlatformStats (admin_ctx "U9") admin_db = (Some s, None) /\
    totalUsers s <= 2 /\ totalPolls s <= 1 /\ totalVotes s <= 0 /\ recentPolls s <= 1 /\
    (no_fault (admin_ctx "U9") 1 -> totalUsers s = 2) /\
    (no_fault (admin_ctx "U9") 2 -> totalPolls s = 1) /\
    (no_fault (admin_ctx "U9") 3 -> totalVotes s = 0) /\
    (no_fault (admin_ctx "U9") 4 -> recentPolls s = 1).
Proof. apply (getPlatformStats_counts (admin_ctx "U9") admin_db). reflexivity. Defined.

(** An idle dashboard where the admin clicks [U1]'s button. *)
Lemma dashboard_loading_pending_witness :
  loading_pending (mkDash (Some "U1") [PendingRole (admin_ctx "U9") "U1" RoleAdmin] admin_db []).
Proof.
  apply (dashboard_loading_pending (mkDash None [] admin_db [])).
  - intros x Hx. discriminate.
  - apply rtc_once.
    apply (ClickRole (admin_ctx "U9") (mkProfile "U1" "u1@example.com" "user" 0) (mkDash None [] admin_db [])).
    discriminate.
Defined.

(** [U1] clicked twice around a click on [U9]. *)
Lemma dashboard_double_submit_witness :
  rtc dash_step (mkDash None [] admin_db [])
    (mkDash (Some "U1")
       [PendingRole (admin_ctx "U9") "U1" RoleAdmin; PendingRole (admin_ctx "U9") "U9" RoleUser;
        PendingRole (admin_ctx "U9") "U1" RoleAdmin] admin_db []).
Proof.
  apply (dashboard_double_submit _ _ _ (mkProfile "U1" "u1@example.com" "user" 0)
           (mkProfile "U9" "root@example.com" "admin" 0)).
  discriminate.
Defined.


End Admin.
