(* ===== verification/Comments.v ===== *)
(** * Comments

    [GET] and [POST /api/polls/[id]/comments]
    ([src/app/api/polls/[id]/comments/route.ts]) and the component that
    lists and posts them ([src/components/comments/comments-section.tsx]).

    [GET] reads the poll's comments newest first (round trip 0); [POST]
    reads the session, takes [content] from the JSON body, refuses it
    when it is falsy or only white space, and inserts the trimmed text
    (round trip 0, [.insert(..).select(..).single()] returning the new
    row).  The embedded [profiles(username, avatar_url)] columns are
    display data and are not modelled in the route's answer; the
    component reads them with fallbacks ("Anonymous", a default
    avatar).  The component keeps the list it fetched, puts a posted
    comment in front of it, and shows an error line, a loading line,
    the empty message or one card per comment ([CommentsSection]). *)

From S2P Require Import Prelude Http Db.

Module Comments.

Definition msg_unauthorized : string := "Unauthorized".
Definition msg_empty : string := "Comment content cannot be empty".

(** [.eq("poll_id", pollId).order("created_at", { ascending: false })]. *)
Definition comments_for (pid : string) (cs : list comment) : list comment :=
  order_desc comment_created_at (filter (fun c => comment_poll_id c = pid) cs).

Definition comment_json (c : comment) : json :=
  JObj [("id", JStr (comment_id c)); ("poll_id", JStr (comment_poll_id c));
        ("user_id", JStr (comment_user_id c)); ("content", JStr (content c));
        ("created_at", JNum (inject_Z (comment_created_at c)))].

(** ** [GET], lines 5-32 *)
Definition comments_GET (ctx : Ctx) (pollId : string) (db : Db) : response :=
  match round_trip ctx 0 (SbOk (comments_for pollId (comments db))) with
  | SbErr m => error_response m 500
  | SbOk cs => json_ok (JObj [("comments", JArr (comment_json <$> cs))])
  end.

(** The row of lines 54-58: [id] and [created_at] are column defaults. *)
Definition new_comment (ctx : Ctx) (pid uid text : string) (db : Db) : comment :=
  mkComment (fresh_id db) pid uid text (ctx_now ctx).

Definition add_comment (ctx : Ctx) (pid uid text : string) (db : Db) : Db :=
  bump_id (with_comments db (comments db ++ [new_comment ctx pid uid text db])).

(** ** [POST], lines 34-73.  A failed [getSession] leaves [session]
    null.  [request.json()] and [content.trim()] run outside the [try]:
    a body that is not JSON, a [null] body, or a truthy [content] that
    is not a string throws, and Next.js answers 500. *)
Definition comments_POST (ctx : Ctx) (pollId : string) (body : option json) (db : Db)
    : response * Db :=
  let session := match ctx_user_error ctx with Some _ => None | None => ctx_user ctx end in
  let! uid := session else (error_response msg_unauthorized 401, db) in
  let! b := body else (unhandled_error, db) in
  let! content := destructure b "content" else (unhandled_error, db) in
  when negb (js_truthy content) return (error_response msg_empty 400, db) ;;
  match content with
  | JsVal (JStr s) =>
      when bool_decide (String.length (trim s) = 0) return (error_response msg_empty 400, db) ;;
      match round_trip ctx 0 (SbOk tt) with
      | SbErr m => (error_response m 500, db)
      | SbOk _ =>
          (mkResponse 201 (JObj [("comment", comment_json (new_comment ctx pollId uid (trim s) db))]),
           add_comment ctx pollId uid (trim s) db)
      end
  | _ => (unhandled_error, db)
  end.

(** ** [handlePostComment], lines 42-67 of the component.  The state is
    the list on screen and the error shown.  Blank input returns at once;
    a failed response shows [data.error]; a posted comment is put in
    front of the list.  The text field is cleared, which is not state
    the theorems need. *)
Definition handlePostComment (ctx : Ctx) (pollId : string) (shown : list jsval) (newComment : string)
    (db : Db) : (list jsval * option string) * Db :=
  when bool_decide (trim newComment = "") return ((shown, None), db) ;;
  let '(r, db') := comments_POST ctx pollId (Some (JObj [("content", JStr newComment)])) db in
  if response_ok r then
    match destructure (body r) "comment" with
    | Some c => ((c :: shown, None), db')
    | None => ((shown, Some "TypeError"), db')
    end
  else ((shown, Some (error_or r "Failed to post comment")), db').

(** [fetchComments], lines 24-40: the list a successful [GET] shows. *)
Definition fetched_comments (r : response) : option (list jsval) :=
  if response_ok r then
    match destructure (body r) "comments" with
    | Some (JsVal (JArr cs)) => Some (JsVal <$> cs)
    | _ => None
    end
  else None.

(** ** What the component shows, lines 69-113 *)

(** [comment.profiles?.k || fallback] for the string columns of the
    embedded profile. *)
Definition profile_or (c : json) (k fallback : string) : string :=
  match prop c "profiles" with
  | JsVal (JObj pf) =>
      match obj_get pf k with
      | JsVal (JStr s) => if bool_decide (s = "") then fallback else s
      | _ => fallback
      end
  | _ => fallback
  end.

(** Lines 80-90: one card.  The avatar's initial ([charAt(0)
    .toUpperCase()]) and the date ([toLocaleString]) are not modelled. *)
Record comment_card := mkCommentCard {
  cc_avatar : string;
  cc_name : string;
  cc_content : jsval
}.

(** [comment.id] on an entry that is [undefined] or [null] throws and
    the component does not render ([None]). *)
Definition comment_card_of (c : jsval) : option comment_card :=
  match c with
  | JsVal JNull | JsUndefined => None
  | JsVal j =>
      Some (mkCommentCard (profile_or j "avatar_url" "https://github.com/shadcn.png")
              (profile_or j "username" "Anonymous") (prop j "content"))
  end.

Inductive comments_body :=
| NoCommentsYet
| CommentCards (cards : list comment_card)
| RenderError.

Record comments_view := mkCommentsView {
  cv_error : option string;
  cv_loading_note : bool;
  cv_body : comments_body;
  cv_button : string;
  cv_button_disabled : bool
}.

(** Lines 72-110: the error line, the loading line, the empty message
    or the cards, and the submit button. *)
Definition CommentsSection (comments : list jsval) (newComment : string) (isLoading : bool)
    (error : option string) : comments_view :=
  let shown_error := match error with Some e => if bool_decide (e = "") then None else Some e | None => None end in
  let empty := bool_decide (length comments = 0) in
  mkCommentsView shown_error (isLoading && empty)
    (if empty && negb isLoading && negb (bool_decide (is_Some shown_error)) then NoCommentsYet
     else match mapM comment_card_of comments with Some cards => CommentCards cards | None => RenderError end)
    (if isLoading then "Posting..." else "Post Comment")
    (isLoading || bool_decide (trim newComment = "")).

(** ** Scenario: one comment on [P1], posted at time 10. *)
Definition c_db : Db := mkDb [] [] [mkComment "0" "P1" "U2" "First" 10] [] [] 1.
Definition c_ctx (uid : string) : Ctx := mkCtx (Some uid) None 1000 (fun _ => None).

(** Every stored comment is trimmed and not empty. *)
Definition comments_trimmed (db : Db) : Prop :=
  Forall (fun c => trim (content c) = content c /\ content c <> "") (comments db).

(** ** Lemmas *)

Lemma comments_POST_cases ctx pid body db r db' :
  comments_POST ctx pid body db = (r, db') ->
  db' = db \/ exists uid s, String.length (trim s) <> 0 /\ db' = add_comment ctx pid uid (trim s) db.
Proof.
  unfold comments_POST. destruct (ctx_user_error ctx); simpl; [intros; simplify_eq; auto|].
  destruct (ctx_user ctx) as [uid|]; simpl; [|intros; simplify_eq; auto].
  destruct body as [b|]; simpl; [|intros; simplify_eq; auto].
  destruct (destructure b "content") as [v|]; simpl; [|intros; simplify_eq; auto].
  destruct (js_truthy v); simpl; [|intros; simplify_eq; auto].
  destruct v as [|[| | | s | |]]; try (intros; simplify_eq; auto; fail).
  case_bool_decide as Hb; [intros; simplify_eq; auto|].
  destruct (round_trip ctx 0 _); intros; simplify_eq; eauto 10.
Qed.

Lemma add_comment_trimmed ctx pid uid s db :
  String.length (trim s) <> 0 -> comments_trimmed db ->
  comments_trimmed (add_comment ctx pid uid (trim s) db).
Proof.
  intros Hs Hinv. unfold comments_trimmed, add_comment. simpl. apply Forall_app. split; [done|].
  constructor; [|constructor]. simpl. rewrite trim_idem. split; [done|].
  by rewrite <-string_length_zero.
Qed.

Lemma trim_nonempty s : trim s <> "" -> s <> "".
Proof. by intros Hs ->. Qed.

Lemma comments_for_add ctx pid uid s db :
  Forall (fun c => (comment_created_at c < ctx_now ctx)%Z) (comments db) ->
  comments_for pid (comments (add_comment ctx pid uid s db)) =
    new_comment ctx pid uid s db :: comments_for pid (comments db).
Proof.
  intros Hall. unfold comments_for, add_comment. simpl. rewrite filter_app, filter_cons_True by done.
  rewrite filter_nil. apply order_desc_app_newest. apply Forall_forall. intros c Hc.
  apply list_elem_of_filter in Hc as [_ Hc]. by apply (proj1 (Forall_forall _ _) Hall).
Qed.

Lemma fetched_comments_GET ctx pid db :
  no_fault ctx 0 ->
  fetched_comments (comments_GET ctx pid db) =
    Some (JsVal <$> (comment_json <$> comments_for pid (comments db))).
Proof. intros Hf. unfold comments_GET. by rewrite round_trip_ok. Qed.

Lemma comment_cards_of_json cs :
  mapM comment_card_of (JsVal <$> (comment_json <$> cs)) =
    Some ((fun c => mkCommentCard "https://github.com/shadcn.png" "Anonymous" (JsVal (JStr (content c)))) <$> cs).
Proof. induction cs as [|c cs IH]; [done|]. rewrite !fmap_cons. cbn [mapM]. by rewrite IH. Qed.

(** ** Theorems *)

(** [POST] stores the trimmed text: every stored comment stays
    trimmed and non-empty; a blank or empty [content] is refused with
    400 and no change; a non-blank one is inserted, trimmed, in the
    session user's name, with status 201. *)
Theorem comments_POST_trimmed ctx pid body db :
  (comments_trimmed db -> comments_trimmed (snd (comments_POST ctx pid body db))) /\
  (forall uid s, ctx_user_error ctx = None -> ctx_user ctx = Some uid ->
     body = Some (JObj [("content", JStr s)]) ->
     (String.length (trim s) = 0 -> comments_POST ctx pid body db = (error_response msg_empty 400, db)) /\
     (String.length (trim s) <> 0 -> no_fault ctx 0 ->
        status (fst (comments_POST ctx pid body db)) = 201%Z /\
        snd (comments_POST ctx pid body db) = add_comment ctx pid uid (trim s) db)).
Proof.
  split.
  - intros Hinv. destruct (comments_POST ctx pid body db) as [r db'] eqn:E. simpl.
    apply comments_POST_cases in E as [->|(uid & s & Hs & ->)]; [done|].
    by apply add_comment_trimmed.
  - intros uid s He Hu ->. unfold comments_POST. rewrite He, Hu. simpl. split.
    + intros H0. destruct (bool_decide (s = "")); [done|]. simpl.
      by rewrite bool_decide_eq_true_2.
    + intros H0 Hf. assert (Hne : s <> "") by (intros ->; by apply H0).
      rewrite bool_decide_eq_false_2 by done. simpl.
      rewrite bool_decide_eq_false_2 by done. by rewrite round_trip_ok.
Qed.

(** The component's list after a successful post is what a fresh
    [GET] returns: when the list on screen came from a [GET] and the
    clock is past every stored comment, posting a non-blank comment
    shows no error, stores the comment, and the new list (the new row in
    front) equals the list the [GET] route now sends. *)
Theorem posted_comment_matches_refetch ctx gctx gctx' pid db shown newComment uid :
  no_fault gctx 0 -> no_fault gctx' 0 ->
  fetched_comments (comments_GET gctx pid db) = Some shown ->
  ctx_user_error ctx = None -> ctx_user ctx = Some uid -> no_fault ctx 0 ->
  trim newComment <> "" ->
  Forall (fun c => (comment_created_at c < ctx_now ctx)%Z) (comments db) ->
  exists shown',
    handlePostComment ctx pid shown newComment db =
      ((shown', None), add_comment ctx pid uid (trim newComment) db) /\
    fetched_comments (comments_GET gctx' pid (add_comment ctx pid uid (trim newComment) db)) = Some shown'.
Proof.
  intros Hg Hg' Hshown He Hu Hf Ht Hall.
  rewrite fetched_comments_GET in Hshown by done. injection Hshown as <-.
  rewrite fetched_comments_GET, comments_for_add by done.
  eexists. split; [|reflexivity].
  unfold handlePostComment. rewrite bool_decide_eq_false_2 by done. simpl.
  unfold comments_POST. rewrite He, Hu. simpl.
  rewrite bool_decide_eq_false_2 by (apply trim_nonempty, Ht). simpl.
  rewrite bool_decide_eq_false_2 by (by rewrite string_length_zero). rewrite round_trip_ok by done.
  reflexivity.
Qed.

(** What the section shows once [fetchComments] has answered: with
    the [GET] answered, the empty message when the poll has no comment,
    and otherwise one card per comment, newest first, with its text. *)
Theorem CommentsSection_after_fetch ctx pid db newComment :
  no_fault ctx 0 ->
  exists shown, fetched_comments (comments_GET ctx pid db) = Some shown /\
    match cv_body (CommentsSection shown newComment false None) with
    | NoCommentsYet => comments_for pid (comments db) = []
    | CommentCards cards =>
        cc_content <$> cards = (fun c => JsVal (JStr (content c))) <$> comments_for pid (comments db)
    | RenderError => False
    end.
Proof.
  intros Hf. rewrite fetched_comments_GET by done. eexists. split; [reflexivity|].
  unfold CommentsSection. cbn [cv_body]. rewrite comment_cards_of_json, !length_fmap.
  destruct (comments_for pid (comments db)) as [|c cs]; [reflexivity|].
  rewrite (bool_decide_eq_false_2 (length (c :: cs) = 0)) by done. cbn [andb].
  by rewrite <-list_fmap_compose.
Qed.

(** ** Witnesses *)

Lemma comments_POST_trimmed_witness :
  comments_POST (c_ctx "U1") "P1" (Some (JObj [("content", JStr "   ")])) c_db =
    (error_response msg_empty 400, c_db).
Proof.
  apply (proj1 (proj2 (comments_POST_trimmed (c_ctx "U1") "P1" _ c_db) "U1" "   "
    eq_refl eq_refl eq_refl)). reflexivity.
Defined.

Lemma posted_comment_matches_refetch_witness :
  exists shown',
    handlePostComment (c_ctx "U1") "P1" (JsVal <$> (comment_json <$> comments_for "P1" (comments c_db)))
      " Nice " c_db = ((shown', None), add_comment (c_ctx "U1") "P1" "U1" (trim " Nice ") c_db) /\
    fetched_comments (comments_GET (c_ctx "U1") "P1"
      (add_comment (c_ctx "U1") "P1" "U1" (trim " Nice ") c_db)) = Some shown'.
Proof.
  apply (posted_comment_matches_refetch _ (c_ctx "U1")); try reflexivity.
  all: first [vm_compute; discriminate | repeat constructor; simpl; lia].
Defined.

Lemma CommentsSection_after_fetch_witness :
  exists shown, fetched_comments (comments_GET (c_ctx "U1") "P1" c_db) = Some shown /\
    match cv_body (CommentsSection shown "" false None) with
    | NoCommentsYet => comments_for "P1" (comments c_db) = []
    | CommentCards cards =>
        cc_content <$> cards = (fun c => JsVal (JStr (content c))) <$> comments_for "P1" (comments c_db)
    | RenderError => False
    end.
Proof. apply CommentsSection_after_fetch. reflexivity. Defined.

End Comments.
