(* ===== verification/CommentsClient.v ===== *)
(** * The comments component as a state machine

    [CommentsSection] ([src/components/comments/comments-section.tsx])
    keeps four pieces of state (lines 14-18) and runs two handlers that
    [await] the server: [fetchComments] on mount and whenever the
    [pollId] prop changes (lines 20-40), and [handlePostComment] when the
    enabled button is clicked (lines 42-67).  Each handler sets
    [isLoading], sends its request, and on the answer updates the list
    or the error and sets [isLoading] back to [false].  Between the
    request and its answer other events run: typing (the text area is
    disabled while loading), another [pollId], the answer of another
    request.

    The state is [section]: the component's four variables, the
    requests in flight with the [pollId] and text each one captured, and
    the store.  [comments_step] has one constructor per event; the
    server runs a request when its answer arrives, with the context of
    that answer.  Two results:
    - on one poll, with answers that find the store ([fair_step]), the
      component never has two requests in flight, shows "loading"
      exactly while one is, and whenever none is, shows exactly the
      comments the [GET] route would send ([single_poll_consistent]);
    - once [pollId] changes, an answer for the previous poll can arrive
      last and the component shows the previous poll's comments under
      the new one ([stale_fetch_shows_other_poll]): the handlers do not
      check that the [pollId] they captured is still the prop. *)

From S2P Require Import Prelude Http Db Comments.

Module CommentsClient.
Import Comments.

(** A request of the component in flight, with the [pollId] (and the
    text) its handler captured. *)
Inductive comments_request :=
| FetchReq (pollId : string)
| PostReq (pollId text : string).

(** Lines 14-18 and what is in flight. *)
Record section := mkSection {
  s_pollId : string;
  s_comments : list jsval;
  s_newComment : string;
  s_isLoading : bool;
  s_error : option string;
  s_inflight : list comments_request;
  s_db : Db
}.

(** The list the route sends for [pid]. *)
Definition server_view (pid : string) (db : Db) : list jsval :=
  JsVal <$> (comment_json <$> comments_for pid (comments db)).

(** Lines 20-22 and 24-27: the effect calls [fetchComments], which sets
    [isLoading] and clears the error before its [await]. *)
Definition start_fetch (pid : string) (st : section) : section :=
  mkSection pid (s_comments st) (s_newComment st) true None
    (s_inflight st ++ [FetchReq pid]) (s_db st).

(** The first render: empty state, then the effect. *)
Definition mount (pid : string) (db : Db) : section :=
  start_fetch pid (mkSection pid [] "" false None [] db).

(** Lines 28-39 on the answer of [GET]: the list, or the error
    ([data.error || 'Failed to fetch comments'], or the [TypeError] of a
    body with no array, which the route never sends); [finally]
    clears [isLoading]. *)
Definition answer_fetch (r : response) (st : section) (rest : list comments_request) : section :=
  match fetched_comments r with
  | Some cs => mkSection (s_pollId st) cs (s_newComment st) false (s_error st) rest (s_db st)
  | None =>
      let e := if response_ok r then "TypeError" else error_or r "Failed to fetch comments" in
      mkSection (s_pollId st) (s_comments st) (s_newComment st) false (Some e) rest (s_db st)
  end.

(** Lines 45-66 on the answer of [POST], through [handlePostComment]:
    the list and error it leaves; a success also clears the text area
    ([setNewComment('')]); [finally] clears [isLoading]. *)
Definition answer_post (ctx : Ctx) (pid text : string) (st : section) (rest : list comments_request)
    : section :=
  let '((shown, err), db') := handlePostComment ctx pid (s_comments st) text (s_db st) in
  mkSection (s_pollId st) shown (match err with None => "" | Some _ => s_newComment st end) false
    (match err with None => s_error st | Some e => Some e end) rest db'.

(** The events on one poll. *)
Inductive local_step : option Ctx -> section -> section -> Prop :=
| TypeText s st :
    s_isLoading st = false ->
    local_step None st (mkSection (s_pollId st) (s_comments st) s (s_isLoading st) (s_error st)
                          (s_inflight st) (s_db st))
| ClickPost st :
    s_isLoading st = false -> trim (s_newComment st) <> "" ->
    local_step None st (mkSection (s_pollId st) (s_comments st) (s_newComment st) true None
                          (s_inflight st ++ [PostReq (s_pollId st) (s_newComment st)]) (s_db st))
| AnswerFetch ctx i pid st :
    s_inflight st !! i = Some (FetchReq pid) ->
    local_step (Some ctx) st (answer_fetch (comments_GET ctx pid (s_db st)) st (delete i (s_inflight st)))
| AnswerPost ctx i pid text st :
    s_inflight st !! i = Some (PostReq pid text) ->
    local_step (Some ctx) st (answer_post ctx pid text st (delete i (s_inflight st))).

(** Every event, a new [pollId] prop included. *)
Inductive comments_step : section -> section -> Prop :=
| Local c st st' : local_step c st st' -> comments_step st st'
| ChangePollId pid st : comments_step st (start_fetch pid st).

(** An answer that finds the store: the [GET] is answered, and a
    comment is stamped after every stored one. *)
Definition fair_answer (c : option Ctx) (st : section) : Prop :=
  match c with
  | Some ctx => no_fault ctx 0 /\ Forall (fun cm => (comment_created_at cm < ctx_now ctx)%Z) (comments (s_db st))
  | None => True
  end.

Definition fair_step (st st' : section) : Prop := exists c, local_step c st st' /\ fair_answer c st.

(** The states of one poll: nothing in flight and the route's list on
    screen, the fetch in flight, or a post in flight over the route's
    list. *)
Definition consistent (pid : string) (st : section) : Prop :=
  s_pollId st = pid /\
  ((s_inflight st = [] /\ s_isLoading st = false /\ s_comments st = server_view pid (s_db st)) \/
   (s_inflight st = [FetchReq pid] /\ s_isLoading st = true) \/
   (exists t, s_inflight st = [PostReq pid t] /\ trim t <> "" /\ s_isLoading st = true /\
              s_comments st = server_view pid (s_db st))).

(** ** Lemmas *)

(** A post of a non-blank text either changes nothing but the error, or
    stores the trimmed text and puts its row in front of the list. *)
Lemma handlePostComment_outcome ctx pid shown text db :
  trim text <> "" ->
  let '((shown', err), db') := handlePostComment ctx pid shown text db in
  (shown' = shown /\ db' = db /\ is_Some err) \/
  (exists uid, err = None /\ db' = add_comment ctx pid uid (trim text) db /\
     shown' = JsVal (comment_json (new_comment ctx pid uid (trim text) db)) :: shown).
Proof.
  intros Ht. unfold handlePostComment. rewrite bool_decide_eq_false_2 by done. simpl.
  unfold comments_POST. destruct (ctx_user_error ctx); [left; by eauto|].
  destruct (ctx_user ctx) as [uid|]; simpl; [|left; by eauto].
  rewrite bool_decide_eq_false_2 by (apply trim_nonempty, Ht). simpl.
  rewrite bool_decide_eq_false_2 by (by rewrite string_length_zero).
  destruct (round_trip ctx 0 _); simpl; [right; by eauto|left; by eauto].
Qed.

Lemma server_view_add ctx pid uid s db :
  Forall (fun c => (comment_created_at c < ctx_now ctx)%Z) (comments db) ->
  server_view pid (add_comment ctx pid uid s db) =
    JsVal (comment_json (new_comment ctx pid uid s db)) :: server_view pid db.
Proof. intros Hall. unfold server_view. by rewrite comments_for_add. Qed.

Lemma consistent_fetch_answer pid ctx i p st :
  no_fault ctx 0 -> s_inflight st !! i = Some (FetchReq p) -> consistent pid st ->
  consistent pid (answer_fetch (comments_GET ctx p (s_db st)) st (delete i (s_inflight st))).
Proof.
  intros Hf Hi (Hp & [(Hnil & _)|[(Hone & _)|(t & Hone & _)]]);
    rewrite ?Hnil, ?Hone in Hi |- *; [done| |by destruct i as [|[]]].
  destruct i as [|[]]; simplify_eq/=. unfold answer_fetch. rewrite fetched_comments_GET by done.
  split; [done|]. by left.
Qed.

Lemma consistent_post_answer pid ctx i p text st :
  Forall (fun c => (comment_created_at c < ctx_now ctx)%Z) (comments (s_db st)) ->
  s_inflight st !! i = Some (PostReq p text) -> consistent pid st ->
  consistent pid (answer_post ctx p text st (delete i (s_inflight st))).
Proof.
  intros Hall Hi (Hp & [(Hnil & _)|[(Hone & _)|(t & Hone & Ht & _ & Hv)]]);
    rewrite ?Hnil, ?Hone in Hi |- *; [done|by destruct i as [|[]]|].
  destruct i as [|[]]; [|done|done]. injection Hi as <- <-. unfold answer_post.
  pose proof (handlePostComment_outcome ctx pid (s_comments st) t (s_db st) Ht) as Ho.
  destruct (handlePostComment _ _ _ _ _) as [[shown err] db'].
  split; [done|]. left. simpl. split_and!; [done|done|].
  destruct Ho as [(-> & -> & _)|(uid & _ & -> & ->)]; [done|].
  by rewrite server_view_add, Hv.
Qed.

Lemma fair_step_consistent pid st st' : fair_step st st' -> consistent pid st -> consistent pid st'.
Proof.
  intros (c & Hs & Hf) Hc. destruct Hs as [s st Hl|st Hl Ht|ctx i p st Hi|ctx i p text st Hi].
  - destruct Hc as (Hp & [(Hn & _ & Hv)|[(_ & Hl')|(t & _ & _ & Hl' & _)]]); [|congruence|congruence].
    split; [done|]. left. simpl. auto.
  - destruct Hc as (Hp & [(Hn & _ & Hv)|[(_ & Hl')|(t & _ & _ & Hl' & _)]]); [|congruence|congruence].
    split; [done|]. right; right. exists (s_newComment st). simpl. rewrite Hn, Hp. auto.
  - by apply consistent_fetch_answer; [apply Hf| |].
  - by apply consistent_post_answer; [apply Hf| |].
Qed.

Lemma consistent_mount pid db : consistent pid (mount pid db).
Proof. split; [done|]. right; left. done. Qed.

Lemma consistent_rtc pid db st : rtc fair_step (mount pid db) st -> consistent pid st.
Proof.
  intros Hr. apply (rtc_ind_r (R:=fair_step) (consistent pid) (mount pid db));
    eauto using fair_step_consistent, consistent_mount.
Qed.

(** An answer with no fault at any round trip. *)
Definition quiet_ctx : Ctx := mkCtx None None 0 (fun _ => None).

(** ** Theorems *)

(** C15. On one poll, with answers that find the store, the comments
    component never has two requests in flight, shows "Posting..." and
    disables its controls exactly while one is, and whenever none is,
    shows exactly the comments the [GET] route would send now: a
    posted comment appears in front of the list as a refetch would
    show it, and a refused post leaves the list as the store is. *)
Theorem single_poll_consistent pid db st :
  rtc fair_step (mount pid db) st ->
  (s_inflight st = [] <-> s_isLoading st = false) /\ length (s_inflight st) <= 1 /\
  (s_inflight st = [] -> s_comments st = server_view pid (s_db st)).
Proof.
  intros Hr. destruct (consistent_rtc pid db st Hr) as (_ & [(Hn & Hl & Hv)|[(Hn & Hl)|(t & Hn & _ & Hl & Hv)]]);
    rewrite Hn, Hl; split_and!; simpl; try done; try lia.
Qed.

(** C16. Once the [pollId] prop changes, the comments of the previous
    poll can end up under the new one: from the component mounted on
    [p1], a change to [p2] starts a second fetch; when the [p2] fetch
    answers first (and clears [isLoading] while the [p1] fetch is still
    in flight), the late [p1] answer replaces the list.  Nothing is in
    flight and nothing is loading, yet the list shown is [p1]'s, not
    the one the route sends for [p2]. *)
Theorem stale_fetch_shows_other_poll p1 p2 db :
  server_view p1 db <> server_view p2 db ->
  exists st, rtc comments_step (mount p1 db) st /\ s_pollId st = p2 /\ s_inflight st = [] /\
    s_isLoading st = false /\ s_comments st = server_view p1 db /\ s_comments st <> server_view p2 (s_db st).
Proof.
  intros Hne. eexists. split.
  - eapply rtc_l; [apply (ChangePollId p2)|].
    eapply rtc_l; [apply (Local (Some quiet_ctx)), (AnswerFetch quiet_ctx 1 p2); reflexivity|].
    apply rtc_once, (Local (Some quiet_ctx)), (AnswerFetch quiet_ctx 0 p1). reflexivity.
  - unfold answer_fetch. rewrite !fetched_comments_GET by done. simpl. done.
Qed.

(** A post answered after the [pollId] changed lands on the new
    poll's list: mounted on [P1] of [c_db], [U1] posts "Hi", the prop
    changes to [P2], the [P2] fetch answers (no comment), then the post
    answers and its [P1] row is put in front of [P2]'s list. *)
Theorem stale_post_shows_on_other_poll :
  exists st, rtc comments_step (mount "P1" c_db) st /\ s_pollId st = "P2" /\ s_inflight st = [] /\
    s_comments st <> server_view "P2" (s_db st).
Proof.
  eexists. split.
  - eapply rtc_l; [apply (Local (Some quiet_ctx)), (AnswerFetch quiet_ctx 0 "P1"); reflexivity|].
    eapply rtc_l; [apply (Local None), (TypeText "Hi"); reflexivity|].
    eapply rtc_l; [apply (Local None), ClickPost; [reflexivity | vm_compute; discriminate]|].
    eapply rtc_l; [apply (ChangePollId "P2")|].
    eapply rtc_l; [apply (Local (Some quiet_ctx)), (AnswerFetch quiet_ctx 1 "P2"); reflexivity|].
    apply rtc_once, (Local (Some (c_ctx "U1"))), (AnswerPost (c_ctx "U1") 0 "P1" "Hi"). reflexivity.
  - vm_compute. split_and!; [reflexivity | reflexivity | discriminate].
Qed.

(** ** Witnesses *)

(** The component mounted on [P1] of [c_db], after its fetch answers. *)
Lemma single_poll_consistent_witness :
  let st := answer_fetch (comments_GET (c_ctx "U1") "P1" c_db) (mount "P1" c_db) [] in
  (s_inflight st = [] <-> s_isLoading st = false) /\ length (s_inflight st) <= 1 /\
  (s_inflight st = [] -> s_comments st = server_view "P1" (s_db st)).
Proof.
  apply (single_poll_consistent "P1" c_db). apply rtc_once. exists (Some (c_ctx "U1")). split.
  - apply (AnswerFetch (c_ctx "U1") 0 "P1" (mount "P1" c_db)). reflexivity.
  - split; [reflexivity|]. repeat constructor; simpl; lia.
Defined.

(** [P1] has a comment, [P2] none. *)
Lemma stale_fetch_shows_other_poll_witness :
  exists st, rtc comments_step (mount "P1" c_db) st /\ s_pollId st = "P2" /\ s_inflight st = [] /\
    s_isLoading st = false /\ s_comments st = server_view "P1" c_db /\
    s_comments st <> server_view "P2" (s_db st).
Proof. apply stale_fetch_shows_other_poll. vm_compute. discriminate. Defined.

End CommentsClient.
