(* ===== verification/Email.v ===== *)
(** * The poll-closing notification

    [sendPollClosingEmail] ([src/app/lib/utils/email.ts]) logs the mail
    it would send and records it in [email_notifications] (round trip 0).  The function is
    typed [Poll] but receives whatever object its caller has; the poll
    detail page passes the JSON of [GET /api/polls/[id]], so the poll is
    a JSON value here and its properties are read as JavaScript reads
    them.  The row's [user_id] is what the code sends: [poll.created_at].
    The three log lines are modelled as the list of [console.log] calls
    ([email_log]), so that the unit test [email.test.ts] can be run
    against the model: its input, its mocked client and its two
    content expectations are definitions here, and both expectations
    fail ([email_test_fails]). *)

From S2P Require Import Prelude Http Db Polls Clients.

Module Email.
Import Polls Clients.

(** A column of an inserted row: a property that is [undefined] is left
    out and the column takes its default, [null]. *)
Definition column_value (v : jsval) : json :=
  match v with JsUndefined => JNull | JsVal j => j end.

(** Lines 14-19. *)
Definition notification_row (poll : json) (recipientEmail : string) : notification :=
  mkNotification (column_value (prop poll "created_at")) (column_value (prop poll "id"))
    "poll_closing" recipientEmail.

Inductive email_result :=
| EmailSent                   (* [{ success: true }] *)
| EmailFailed (msg : string)  (* [{ success: false, error }] *)
| EmailThrew.                 (* [poll.question] on [null]: the promise rejects *)

(** Lines 3-27. *)
Definition sendPollClosingEmail (ctx : Ctx) (poll : json) (recipientEmail : string) (db : Db)
    : email_result * Db :=
  match poll with
  | JNull => (EmailThrew, db)
  | _ =>
      match round_trip ctx 0 (SbOk tt) with
      | SbErr m => (EmailFailed m, db)
      | SbOk _ => (EmailSent, with_notifications db (notifications db ++ [notification_row poll recipientEmail]))
      end
  end.

(** Lines 9-11: the three [console.log] calls, each with one
    argument, the template strings converting the properties with
    [String()]. *)
Definition email_log (number_string : Q -> string) (poll : json) (recipientEmail : string)
    : list (list string) :=
  [[String.append "Sending poll closing email to "
      (String.append recipientEmail
        (String.append " for poll: " (jsval_string number_string (prop poll "question"))))];
   [String.append "Poll ID: " (jsval_string number_string (prop poll "id"))];
   [String.append "Expires At: " (jsval_string number_string (prop poll "expires_at"))]].

(** ** The unit test [src/app/lib/utils/email.test.ts]

    The test mocks the Supabase client so that the insert reports no
    error, calls [sendPollClosingEmail(mockPoll, recipientEmail)] and
    checks a [console.log] call and the inserted row.  (Its third check
    reads [supabase.from] on a client the mock creates afresh, whose
    calls are not those of the code; the mock's object identity is not
    modelled.) *)

Definition nl : string := String (Ascii.ascii_of_nat 10) EmptyString.
Definition dq : string := String (Ascii.ascii_of_nat 34) EmptyString.

(** Lines 24-33. *)
Definition mockPoll : json :=
  JObj [("id", JStr "123"); ("question", JStr "Test Poll Question");
        ("options", JArr [JStr "Option 1"; JStr "Option 2"]);
        ("created_at", JStr "2023-01-01T00:00:00Z"); ("expires_at", JStr "2023-01-02T00:00:00Z");
        ("created_by", JStr "user1"); ("total_votes", JNum 10);
        ("profiles", JObj [("email", JStr "creator@example.com")])].

Definition test_recipient : string := "test@example.com".

(** The mocked client: every call answers without error. *)
Definition mock_ctx : Ctx := mkCtx None None 0 (fun _ => None).

(** Lines 42-53: the one [console.log] call the test expects, with ten
    arguments. *)
Definition expected_log : list string :=
  [String.append nl "--- Sending Poll Closing Email ---";
   String.append "To: " test_recipient;
   String.append "Subject: Your Poll " (String.append dq (String.append "Test Poll Question" (String.append dq " has closed!")));
   String.append nl (String.append "Dear " (String.append "creator@example.com" ","));
   String.append nl (String.append "Your poll titled " (String.append dq (String.append "Test Poll Question" (String.append dq " has officially closed."))));
   String.append nl "You can view the final results here: [Link to Poll Results] (e.g., /polls/123)";
   String.append nl "Thank you for using our polling service.";
   String.append nl "Best regards,";
   "The Polly Team";
   String.append "----------------------------------" nl].

(** Lines 59-64: the row the test expects, [user_id: mockPoll.created_by]. *)
Definition expected_row : notification :=
  mkNotification (JStr "user1") (JStr "123") "poll_closing" test_recipient.

(** A closing poll owned by [U2]. *)
Definition closing_poll : poll :=
  mkPoll "P1" "U2" "Pick one" ["A"; "B"] 1672531200000%Z (Some 1672617600000%Z).

Lemma sendPollClosingEmail_cases ctx poll recipientEmail db r db' :
  sendPollClosingEmail ctx poll recipientEmail db = (r, db') ->
  db' = db \/ exists ns, db' = with_notifications db ns.
Proof.
  unfold sendPollClosingEmail. destruct poll; try (destruct (round_trip ctx 0 _));
    intros; simplify_eq; eauto.
Qed.

(** For a poll as the routes send it, a notification is recorded
    for the poll and the recipient, but its [user_id] is the poll's
    creation time, never the poll's owner: [email.test.ts] expects the
    creator there. *)
Theorem notification_user_is_creation_time ctx p recipientEmail db :
  no_fault ctx 0 ->
  exists n, sendPollClosingEmail ctx (poll_json p) recipientEmail db =
              (EmailSent, with_notifications db (notifications db ++ [n])) /\
            notif_poll_id n = JStr (poll_id p) /\ notif_email n = recipientEmail /\
            notif_type n = "poll_closing" /\
            notif_user_id n = JNum (inject_Z (poll_created_at p)) /\
            notif_user_id n <> JStr (poll_user_id p).
Proof.
  intros Hf. unfold sendPollClosingEmail. simpl. rewrite round_trip_ok by done.
  eexists. split_and!; [reflexivity | done | done | done | done | discriminate].
Qed.

(** A failed insert is reported as [{ success: false, error }] and
    nothing is recorded. *)
Theorem sendPollClosingEmail_failure ctx p recipientEmail db m :
  ctx_fault ctx 0 = Some m ->
  sendPollClosingEmail ctx (poll_json p) recipientEmail db = (EmailFailed m, db).
Proof. intros Hf. unfold sendPollClosingEmail, round_trip. simpl. by rewrite Hf. Qed.

(** The unit test of [sendPollClosingEmail] fails against the code:
    the call succeeds and records one notification, but none of the
    three [console.log] calls is the ten-argument call the test expects,
    and the recorded row has [user_id] ["2023-01-01T00:00:00Z"]
    ([poll.created_at]) where the test expects ["user1"]
    ([poll.created_by]). *)
Theorem email_test_fails number_string :
  let '(r, db') := sendPollClosingEmail mock_ctx mockPoll test_recipient empty_db in
  r = EmailSent /\ notifications db' = [notification_row mockPoll test_recipient] /\
  (expected_log ∉ email_log number_string mockPoll test_recipient) /\
  (expected_row ∉ notifications db') /\
  notif_user_id (notification_row mockPoll test_recipient) = JStr "2023-01-01T00:00:00Z".
Proof.
  split_and!; [reflexivity|reflexivity| |cbn; rewrite list_elem_of_singleton; discriminate|reflexivity].
  unfold email_log. rewrite !elem_of_cons. intros [H|[H|[H|H]]]; [done..|by apply not_elem_of_nil in H].
Qed.

Lemma notification_user_is_creation_time_witness :
  exists n, sendPollClosingEmail (mkCtx None None 0 (fun _ => None)) (poll_json closing_poll)
              "test@example.com" empty_db =
              (EmailSent, with_notifications empty_db (notifications empty_db ++ [n])) /\
            notif_poll_id n = JStr (poll_id closing_poll) /\ notif_email n = "test@example.com" /\
            notif_type n = "poll_closing" /\
            notif_user_id n = JNum (inject_Z (poll_created_at closing_poll)) /\
            notif_user_id n <> JStr (poll_user_id closing_poll).
Proof. apply notification_user_is_creation_time. reflexivity. Defined.

Lemma sendPollClosingEmail_failure_witness :
  sendPollClosingEmail (mkCtx None None 0 (fun _ => Some "denied")) (poll_json closing_poll)
    "test@example.com" empty_db = (EmailFailed "denied", empty_db).
Proof. apply sendPollClosingEmail_failure. reflexivity. Defined.

End Email.
