(* ===== verification/Chart.v ===== *)
(** * The result charts and the QR code

    - [PollChart] ([src/components/ui/poll-chart.tsx]): the rows it
      builds from its props ([chartData], lines 17-23), the pie slices
      and table colours ([pieData], lines 25-28), the tooltips (lines
      30-64) and the choice between the empty card and the charts (lines
      66-84).  The component is not imported by any page.
    - [PollResultsChart] ([src/components/poll-results-chart.tsx]): a
      bar chart of its one prop [data].
    - [QRCodeDisplay] ([src/components/qr-code-display.tsx]): the code
      of [url], or a placeholder when [url] is empty.

    Numbers are rationals.  [toFixed(1)] is the rounding ECMAScript
    specifies (the integer [n] nearest to [10 x], the larger on a tie),
    applied to the exact quotient: the double rounding of [c / t * 100]
    before it is not modelled.  Numbers of [10^21] or more are printed
    by [Number.prototype.toString], an argument here as in [Clients.v].
    The layout (recharts, cards, tabs) is not modelled. *)

From S2P Require Import Prelude Http.
From Stdlib Require Import Qround Qabs Lqa.
#[local] Close Scope Q_scope.

Module Chart.

(** ** [PollChart] *)

(** Line 14. *)
Definition COLORS : list string :=
  ["#0088FE"; "#00C49F"; "#FFBB28"; "#FF8042"; "#8884D8"; "#82CA9D"; "#FFC658"; "#FF7C7C"].

(** Lines 7-12; [userVote?: number]. *)
Record PollChartProps := mkPollChartProps {
  options : list string;
  voteCounts : list Q;
  totalVotes : Q;
  userVote : option Q
}.

(** One entry of [chartData]. *)
Record chart_row := mkChartRow {
  name : string;
  fullName : string;
  votes : Q;
  percentage : string;
  isUserChoice : bool
}.

(** [voteCounts[index] || 0]: a missing entry is [undefined]. *)
Definition count_at (voteCounts : list Q) (index : nat) : Q :=
  match voteCounts !! index with
  | Some c => if Qeq_bool c 0 then 0 else c
  | None => 0
  end.

(** Line 18: [option.length > 20 ? `${option.substring(0, 20)}...` : option]. *)
Definition chart_name (option : string) : string :=
  if bool_decide (20 < String.length option)
  then String.append (String.substring 0 20 option) "..."
  else option.

(** The [n] of [toFixed(1)]: [n / 10 - x] as close to zero as possible,
    the larger [n] on a tie. *)
Definition tenths (x : Q) : Z := Qfloor (x * 10 + Qmake 1 2).

(** [n] written with one decimal: the digits of [n / 10], a point and
    the last digit. *)
Definition fixed1_digits (n : Z) : string :=
  String.append (pretty (Z.to_N (n / 10))) (String.append "." (pretty (Z.to_N (n mod 10)))).

(** [x.toFixed(1)]: a negative [x] is written as ["-"] and the digits
    of [-x]. *)
Definition toFixed1 (number_string : Q -> string) (x : Q) : string :=
  if Qle_bool (inject_Z (10 ^ 21)) (Qabs x) then number_string x
  else if Qle_bool 0 x then fixed1_digits (tenths x)
  else String.append "-" (fixed1_digits (tenths (- x))).

(** Lines 17-23. *)
Definition chartData (number_string : Q -> string) (p : PollChartProps) : list chart_row :=
  imap (fun index option =>
          let c := count_at (voteCounts p) index in
          mkChartRow (chart_name option) option c
            (if negb (Qle_bool (totalVotes p) 0)
             then toFixed1 number_string (c / totalVotes p * 100) else "0")
            (match userVote p with
             | Some u => Qeq_bool u (inject_Z (Z.of_nat index))
             | None => false
             end))
       (options p).

(** [COLORS[index % COLORS.length]]. *)
Definition color (index : nat) : string := default "" (COLORS !! (index mod length COLORS)).

(** Lines 25-28; the results table (lines 142-164) colours its rows
    the same way. *)
Definition pieData (rows : list chart_row) : list (chart_row * string) :=
  imap (fun index item => (item, color index)) rows.

(** Lines 30-64: both tooltips show the first payload entry when the
    tooltip is active and the payload is not empty. *)
Definition CustomTooltip (active : bool) (payload : list chart_row) : option chart_row :=
  if active then match payload with item :: _ => Some item | [] => None end else None.

(** One row of the results table, lines 142-164: the swatch colour,
    the full option text, the green background and the
    [✓ Your choice] mark, [{item.votes} votes] and
    [{item.percentage}%]. *)
Record table_row := mkTableRow {
  row_colour : string;
  row_name : string;
  row_marked : bool;
  row_votes : string;
  row_percentage : string
}.

(** Lines 139-168: [chartData.map((item, index) => ...)]; a number in
    JSX text is printed by [number_string]. *)
Definition results_table (number_string : Q -> string) (rows : list chart_row) : list table_row :=
  imap (fun index item =>
          mkTableRow (color index) (fullName item) (isUserChoice item)
            (String.append (number_string (votes item)) " votes")
            (String.append (percentage item) "%"))
       rows.

Inductive chart_view :=
| NoVotesYet
| ChartResults (plural : bool) (bars : list chart_row) (slices : list (chart_row * string))
    (table : list table_row).

(** Lines 66-168: [totalVotes === 0] gives the empty card; otherwise the
    title's plural [s] ([totalVotes !== 1]), the bars, the slices and
    the results table. *)
Definition PollChart (number_string : Q -> string) (p : PollChartProps) : chart_view :=
  if Qeq_bool (totalVotes p) 0 then NoVotesYet
  else
    let rows := chartData number_string p in
    ChartResults (negb (Qeq_bool (totalVotes p) 1)) rows (pieData rows)
      (results_table number_string rows).

(** ** [PollResultsChart] *)

(** The props a JSX element passes: names and JavaScript values,
    [undefined] included. *)
Definition jsx_props := list (string * jsval).

Fixpoint jsx_prop (props : jsx_props) (k : string) : jsval :=
  match props with
  | [] => JsUndefined
  | (k', v) :: rest => if decide (k = k') then v else jsx_prop rest k
  end.

(** Lines 13-33: the bars are the entries of [data]; with no array
    there, recharts draws no bar. *)
Definition PollResultsChart (props : jsx_props) : list json :=
  match jsx_prop props "data" with
  | JsVal (JArr xs) => xs
  | _ => []
  end.

(** ** [QRCodeDisplay] *)

Inductive qr_view :=
| QRCode (value : string) (size : Z)
| NoUrl.

(** Lines 11-28; [size] defaults to 128. *)
Definition QRCodeDisplay (url : string) (size : option Z) : qr_view :=
  if bool_decide (url = "") then NoUrl else QRCode url (default 128%Z size).

(** ** Scenario *)

(** Three options with 1, 2 and 0 votes out of 3: the first row shows
    ["33.3"]; the user chose the second. *)
Definition sample_props : PollChartProps := mkPollChartProps ["Red"; "Green"; "Blue"] [1; 2]%Q 3 (Some 1%Q).

(** ** Lemmas *)

Lemma tenths_spec x : (inject_Z (tenths x) <= x * 10 + Qmake 1 2 < inject_Z (tenths x) + 1)%Q.
Proof.
  unfold tenths. split; [apply Qfloor_le|].
  pose proof (Qlt_floor (x * 10 + Qmake 1 2)) as H. by rewrite inject_Z_plus in H.
Qed.

(** A share of a positive total, as a percentage. *)
Lemma share_bounds c t : (0 < t -> 0 <= c <= t -> 0 <= c / t * 100 <= 100)%Q.
Proof.
  intros Ht [H0 Hct].
  assert (0 <= c / t)%Q by (apply Qle_shift_div_l; lra).
  assert (c / t <= 1)%Q by (apply Qle_shift_div_r; lra).
  set (y := (c / t)%Q) in *. lra.
Qed.

(** [toFixed(1)] of a percentage: its digits are those of the nearest
    tenth, between 0 and 1000 tenths. *)
Lemma toFixed1_percentage ns x :
  (0 <= x <= 100)%Q ->
  toFixed1 ns x = fixed1_digits (tenths x) /\ (0 <= tenths x <= 1000)%Z /\
  (Qabs (inject_Z (tenths x) / 10 - x) <= Qmake 1 20)%Q.
Proof.
  intros Hx. pose proof (tenths_spec x) as [Hlo Hhi].
  assert (Hbig : (100 < inject_Z (10 ^ 21))%Q) by (vm_compute; reflexivity).
  unfold toFixed1. split_and!.
  - destruct (Qle_bool _ (Qabs x)) eqn:E.
    + apply Qle_bool_iff in E.
      assert (Qabs x <= 100)%Q by (apply Qabs_Qle_condition; lra). lra.
    + by rewrite (proj2 (Qle_bool_iff 0 x)) by lra.
  - destruct (Z.lt_ge_cases (tenths x) 0) as [Hn|Hn]; [exfalso|done].
    assert (Hn' : (tenths x <= -1)%Z) by lia. rewrite Zle_Qle in Hn'.
    change (inject_Z (-1)) with (Qmake (-1) 1) in Hn'. lra.
  - destruct (Z.le_gt_cases (tenths x) 1000) as [Hn|Hn]; [done|exfalso].
    assert (Hn' : (1001 <= tenths x)%Z) by lia. rewrite Zle_Qle in Hn'.
    change (inject_Z 1001) with (Qmake 1001 1) in Hn'. lra.
  - apply Qabs_Qle_condition. set (n := inject_Z (tenths x)) in *.
    change (n / 10)%Q with (n * Qmake 1 10)%Q. split; lra.
Qed.

Lemma chartData_lookup ns p i row :
  chartData ns p !! i = Some row ->
  exists option, options p !! i = Some option /\ votes row = count_at (voteCounts p) i /\
    percentage row = (if negb (Qle_bool (totalVotes p) 0)
                      then toFixed1 ns (count_at (voteCounts p) i / totalVotes p * 100) else "0") /\
    isUserChoice row = match userVote p with
                       | Some u => Qeq_bool u (inject_Z (Z.of_nat i))
                       | None => false
                       end.
Proof.
  unfold chartData. rewrite list_lookup_imap. destruct (options p !! i) as [o|]; [|done].
  intros [= <-]. by exists o.
Qed.

Lemma chartData_fullName ns p : fullName <$> chartData ns p = options p.
Proof.
  apply list_eq. intros i. unfold chartData. rewrite list_lookup_fmap, list_lookup_imap.
  by destruct (options p !! i).
Qed.

(** ** Theorems *)

(** C24. The percentages [PollChart] prints are the nearest tenth of
    the exact share: for a positive total and a count between 0 and the
    total, the string is [toFixed(1)]'s digits of a whole number [n] of
    tenths between 0 and 1000, at most 0.05 away from
    [count / total * 100]. *)
Theorem percentage_rounding ns p i row :
  chartData ns p !! i = Some row ->
  (0 < totalVotes p)%Q -> (0 <= count_at (voteCounts p) i <= totalVotes p)%Q ->
  exists n, percentage row = fixed1_digits n /\ (0 <= n <= 1000)%Z /\
    (Qabs (inject_Z n / 10 - count_at (voteCounts p) i / totalVotes p * 100) <= Qmake 1 20)%Q.
Proof.
  intros Hrow Ht Hc. destruct (chartData_lookup _ _ _ _ Hrow) as (o & _ & _ & -> & _).
  destruct (Qle_bool (totalVotes p) 0) eqn:E; [apply Qle_bool_iff in E; lra|]. simpl.
  destruct (toFixed1_percentage ns (count_at (voteCounts p) i / totalVotes p * 100))
    as (-> & Hn & Habs); [by apply share_bounds|].
  by exists (tenths (count_at (voteCounts p) i / totalVotes p * 100)).
Qed.

(** At most one row of [PollChart] is marked as the user's choice:
    two marked rows are the same row. *)
Theorem user_choice_unique ns p i j ri rj :
  chartData ns p !! i = Some ri -> chartData ns p !! j = Some rj ->
  isUserChoice ri = true -> isUserChoice rj = true -> i = j.
Proof.
  intros Hi Hj. destruct (chartData_lookup _ _ _ _ Hi) as (_ & _ & _ & _ & ->).
  destruct (chartData_lookup _ _ _ _ Hj) as (_ & _ & _ & _ & ->).
  destruct (userVote p) as [u|]; [|done]. intros Hu1 Hu2.
  apply Qeq_bool_iff in Hu1, Hu2.
  assert (H : (inject_Z (Z.of_nat i) == inject_Z (Z.of_nat j))%Q) by (rewrite <-Hu1; exact Hu2).
  apply (proj1 (inject_Z_injective _ _)) in H. lia.
Qed.

(** The results table under the charts lists every option of the
    poll in order, in full (the bars shorten names longer than 20
    characters), and its row [i] has the colour of slice [i] of the pie
    and is marked exactly when bar [i] is the user's choice. *)
Theorem results_table_agrees ns p pl bars slices table :
  PollChart ns p = ChartResults pl bars slices table ->
  row_name <$> table = options p /\
  Forall2 (fun r sl => row_colour r = sl.2 /\ row_marked r = isUserChoice sl.1) table slices.
Proof.
  unfold PollChart. destruct (Qeq_bool _ 0); [done|]. intros [= _ _ <- <-]. split.
  - rewrite <-(chartData_fullName ns p). apply list_eq. intros i. unfold results_table.
    rewrite !list_lookup_fmap, list_lookup_imap. by destruct (chartData ns p !! i).
  - apply Forall2_lookup. intros i. unfold results_table, pieData. rewrite !list_lookup_imap.
    destruct (chartData ns p !! i); by constructor.
Qed.

(** ** Witnesses *)

(** The first row of [sample_props] shows ["33.3"]. *)
Lemma percentage_rounding_witness :
  exists n, fixed1_digits 333 = fixed1_digits n /\ (0 <= n <= 1000)%Z /\
    (Qabs (inject_Z n / 10 - count_at (voteCounts sample_props) 0 / totalVotes sample_props * 100)
       <= Qmake 1 20)%Q.
Proof.
  apply (percentage_rounding (fun _ => "") sample_props 0
           (mkChartRow "Red" "Red" 1 (fixed1_digits 333) false)).
  - reflexivity.
  - vm_compute. reflexivity.
  - split; vm_compute; discriminate.
Defined.

(** The user's choice in [sample_props] is the second row. *)
Lemma user_choice_unique_witness : 1 = 1.
Proof.
  apply (user_choice_unique (fun _ => "") sample_props 1 1
           (mkChartRow "Green" "Green" 2 (fixed1_digits 667) true)
           (mkChartRow "Green" "Green" 2 (fixed1_digits 667) true)); reflexivity.
Defined.

(** [sample_props] has votes: its table names Red, Green and Blue. *)
Lemma results_table_agrees_witness :
  exists pl bars slices table,
    PollChart (fun _ => "") sample_props = ChartResults pl bars slices table /\
    row_name <$> table = ["Red"; "Green"; "Blue"].
Proof.
  do 4 eexists. split; [reflexivity|].
  exact (proj1 (results_table_agrees (fun _ => "") sample_props _ _ _ _ eq_refl)).
Defined.

End Chart.
