(* ===== verification/Pages.v ===== *)
(** * The pages that read and act on polls

    - [PollsPage] ([src/app/(dashboard)/polls/page.tsx]) fetches
      [/api/polls/user]; there is no such route, so Next.js serves it
      with [GET /api/polls/[id]] and [params.id = "user"].
    - [PollActions] ([src/app/(dashboard)/polls/PollActions.tsx]): the
      owner's edit and delete controls and the delete request.
    - [EditPollPage] ([src/app/(dashboard)/polls/[id]/edit/page.tsx])
      loads the poll for [EditPollForm].
    - [PollDetailPage] ([src/app/(dashboard)/polls/[id]/page.tsx]):
      [fetchPoll], which also calls [sendPollClosingEmail] when the poll
      has expired, and [handleVote], which posts the selected option to
      the vote route and fetches the poll again.

    Each page is a function of the store and of the contexts of the
    requests it makes: [ctx] for the route it calls and [ectx] for the
    Supabase client that [sendPollClosingEmail] creates.  Un-awaited
    calls ([sendPollClosingEmail(...)], [fetchPoll()] after a vote) are
    run to completion in program order.  What the detail page renders
    is modelled down to its choices ([PollDetailPage]: loading, error,
    not found, or the card with options or results, the chart's props
    and the share code); the markup is not.  [String()] of a number is
    the argument [number_string], as in [Clients.v]. *)

From S2P Require Import Prelude Http Db RateLimit Vote Polls Clients Email Chart.
From Stdlib Require Import Qround Lqa.
#[local] Close Scope Q_scope.

Module Pages.
Import RateLimit Vote Polls Clients Email.

(** ** [PollsPage] *)

(** Line 10: the id the request reaches [GET /api/polls/[id]] with. *)
Definition polls_user_id : string := "user".

(** [polls && polls.length > 0 ? polls.map(...) : <empty state>]: the
    polls rendered. *)
Definition shown_list (v : jsval) : list json :=
  match v with JsVal (JArr xs) => xs | _ => [] end.

Record list_view := mkListView { lv_polls : list json; lv_error : jsval }.

(** Lines 6-24: [polls = data.polls || []], [error = data.error]; any
    throw (a response that is not ok) gives "Failed to load polls". *)
Definition PollsPage (ctx : Ctx) (db : Db) : list_view :=
  let r := poll_GET ctx polls_user_id db in
  if negb (response_ok r) then mkListView [] (JsVal (JStr "Failed to load polls")) else
  match destructure (body r) "polls", destructure (body r) "error" with
  | Some pv, Some ev => mkListView (shown_list (if js_truthy pv then pv else JsVal (JArr []))) ev
  | _, _ => mkListView [] (JsVal (JStr "Failed to load polls"))
  end.

(** ** [PollActions] *)

(** Line 59: [user && user.id === poll.user_id]. *)
Definition owner_controls (user : option string) (poll : json) : bool :=
  match user with
  | Some uid => match prop poll "user_id" with JsVal (JStr s) => bool_decide (uid = s) | _ => false end
  | None => false
  end.

Inductive delete_outcome :=
| DeleteCancelled
| Reloaded
| Alerted (msg : string).

(** Lines 23-43: [confirm(...)], then [DELETE /api/polls/${poll.id}]. *)
Definition handleDelete (number_string : Q -> string) (confirmed : bool) (ctx : Ctx) (poll : json)
    (db : Db) : delete_outcome * Db :=
  if negb confirmed then (DeleteCancelled, db) else
  let '(r, db') := poll_DELETE ctx (jsval_string number_string (prop poll "id")) db in
  if response_ok r then (Reloaded, db')
  else
    match destructure (body r) "error" with
    | Some v => (Alerted (String.append "Failed to delete poll: " (jsval_string number_string v)), db')
    | None => (Alerted "Network error occurred while deleting poll", db')
    end.

(** [poll.options.length]: an array's length, a string's length, and
    [undefined] for other values; on [null] or [undefined] the read
    throws and the card does not render ([None]). *)
Definition options_length (v : jsval) : option jsval :=
  match v with
  | JsVal (JArr xs) => Some (JsVal (JNum (inject_Z (Z.of_nat (length xs)))))
  | JsVal (JStr s) => Some (JsVal (JNum (inject_Z (Z.of_nat (String.length s)))))
  | JsVal JNull | JsUndefined => None
  | _ => Some JsUndefined
  end.

Record poll_actions_view := mkPollActionsView {
  pa_href : string;
  pa_title : jsval;
  pa_option_count : jsval;
  pa_controls : option (string * string * bool)
}.

(** Lines 45-76: the link to the poll, its question and option count,
    and for the owner the edit link and the delete button, disabled
    while a delete runs. *)
Definition PollActions (number_string : Q -> string) (user : option string) (poll : json)
    (isDeleting : bool) : option poll_actions_view :=
  let id := jsval_string number_string (prop poll "id") in
  match options_length (prop poll "options") with
  | None => None
  | Some n =>
      Some (mkPollActionsView (String.append "/polls/" id) (prop poll "question") n
              (if owner_controls user poll
               then Some (String.append "/polls/" (String.append id "/edit"),
                          if isDeleting then "Deleting..." else "Delete", isDeleting)
               else None))
  end.

(** *** The delete button with its [await] (lines 21-43, 66-71) *)

(** One card: [isDeleting] (line 21), the [DELETE] requests in flight,
    the store and the outcomes so far. *)
Record card_state := mkCardState {
  k_isDeleting : bool;
  k_inflight : nat;
  k_db : Db;
  k_shown : list delete_outcome
}.

(** A click on the owner's enabled button asks [confirm]; a refusal
    does nothing, an acceptance sets [isDeleting] and sends [DELETE];
    the answer reloads the page or alerts, and [finally] clears
    [isDeleting]. *)
Inductive card_step (number_string : Q -> string) (user : option string) (poll : json)
    : card_state -> card_state -> Prop :=
| ClickCancelled st :
    owner_controls user poll = true -> k_isDeleting st = false ->
    card_step number_string user poll st
      (mkCardState (k_isDeleting st) (k_inflight st) (k_db st) (k_shown st ++ [DeleteCancelled]))
| ClickConfirmed st :
    owner_controls user poll = true -> k_isDeleting st = false ->
    card_step number_string user poll st
      (mkCardState true (S (k_inflight st)) (k_db st) (k_shown st))
| DeleteAnswered ctx n st :
    k_inflight st = S n ->
    card_step number_string user poll st
      (mkCardState false n (handleDelete number_string true ctx poll (k_db st)).2
                   (k_shown st ++ [(handleDelete number_string true ctx poll (k_db st)).1])).

(** ** [EditPollPage] *)

Inductive edit_view :=
| NotFound
| EditView (poll : json).

(** Lines 5-35: [notFound()] on a failed fetch, an error, or no poll;
    otherwise [EditPollForm] with the poll.  No session is read. *)
Definition EditPollPage (ctx : Ctx) (id : string) (db : Db) : edit_view :=
  let r := poll_GET ctx id db in
  if negb (response_ok r) then NotFound else
  match destructure (body r) "poll", destructure (body r) "error" with
  | Some (JsVal p), Some ev => if js_truthy ev || negb (js_truthy (JsVal p)) then NotFound else EditView p
  | _, _ => NotFound
  end.

(** ** [PollDetailPage] *)

Record detail := mkDetail {
  d_poll : option json;
  d_error : option string;
  d_hasVoted : bool
}.

(** [new Date(expires_at) < new Date()], for the numeric timestamps
    the routes send in this model; a missing or [null] [expires_at] is
    falsy and never expired. *)
Definition expired (now : Z) (v : jsval) : bool :=
  match v with
  | JsVal (JNum t) => js_truthy v && negb (Qle_bool (inject_Z now) t)
  | _ => false
  end.

(** [poll.profiles?.email || fallback], for the string emails of the
    [profiles] embedding. *)
Definition profiles_email_or (poll : json) (fallback : string) : string :=
  match prop poll "profiles" with
  | JsVal (JObj fields) =>
      match obj_get fields "email" with
      | JsVal (JStr e) => if bool_decide (e = "") then fallback else e
      | _ => fallback
      end
  | _ => fallback
  end.

(** Line 36: [data.poll.profiles?.email || "admin@example.com"]. *)
Definition closing_recipient (poll : json) : string := profiles_email_or poll "admin@example.com".

(** The message of the [TypeError] of a property read on [null] or
    [undefined]. *)
Definition type_error : string := "TypeError".

(** Lines 21-44.  [setError(null)] first; a response that is not ok
    throws [data.error || "Failed to fetch poll"]. *)
Definition fetchPoll (ctx ectx : Ctx) (now : Z) (pid : string) (st : detail) (db : Db) : detail * Db :=
  let r := poll_GET ctx pid db in
  if negb (response_ok r) then
    (mkDetail (d_poll st) (Some (error_or r "Failed to fetch poll")) (d_hasVoted st), db)
  else
    match destructure (body r) "poll" with
    | Some (JsVal p) =>
        let st' := mkDetail (Some p) None (d_hasVoted st) in
        match p with
        | JNull => (mkDetail (Some p) (Some type_error) (d_hasVoted st), db)
        | _ =>
            if expired now (prop p "expires_at")
            then (st', snd (sendPollClosingEmail ectx p (closing_recipient p) db))
            else (st', db)
        end
    | _ => (mkDetail (d_poll st) (Some type_error) (d_hasVoted st), db)
    end.

(** Lines 64-86: the selected option's index is posted as
    [{ optionIndex }]; on success [hasVoted] is set and the poll is
    fetched again (with the contexts [gctx] and [ectx]). *)
Definition handleVote (ctx gctx ectx : Ctx) (now : Z) (pid : string) (selectedOption : option nat)
    (st : detail) (db : Db) : detail * Db :=
  let! i := selectedOption else (st, db) in
  let '(r, db1) := vote_POST ctx pid (Some (JObj [("optionIndex", JNum (inject_Z (Z.of_nat i)))])) db in
  if response_ok r then fetchPoll gctx ectx now pid (mkDetail (d_poll st) (d_error st) true) db1
  else (mkDetail (d_poll st) (Some (error_or r "Failed to submit vote")) (d_hasVoted st), db1).

(** Line 62: [poll.total_votes || 0]. *)
Definition total_votes (poll : json) : Q :=
  match prop poll "total_votes" with
  | JsVal (JNum q) => if Qeq_bool q 0 then 0 else q
  | _ => 0
  end.

(** [interface PollWithStats extends Poll] of [types/index.ts] (lines
    40-45), the type of the page's [poll] state (line 14), over the
    columns of [Poll] the model's row has ([updated_at] and [is_active]
    are not among them); [comments?: Comment[]] is left [unknown]. *)
Definition PollWithStats_type : jtype :=
  TObject [("id", false, TString); ("user_id", false, TString); ("question", false, TString);
           ("options", false, TArray TString); ("created_at", false, TUnknown);
           ("expires_at", true, TUnknown);
           ("vote_counts", false, TArray TNumber); ("total_votes", false, TNumber);
           ("user_vote", true, TNumber); ("comments", true, TUnknown)].

(** Lines 88-91, [getPercentage] (the page never calls it):
    [Math.round] is [Math.floor(x + 0.5)]. *)
Definition getPercentage (totalVotes votes : Q) : Z :=
  if Qeq_bool totalVotes 0 then 0%Z else Qfloor (votes / totalVotes * 100 + Qmake 1 2).

(** Lines 141-147: the props of [<PollResultsChart>]; there is no
    [data] among them. *)
Definition detail_chart_props (poll : json) (totalVotes : Q) : Chart.jsx_props :=
  [("question", prop poll "question"); ("options", prop poll "options");
   ("voteCounts", let v := prop poll "vote_counts" in if js_truthy v then v else JsVal (JArr []));
   ("totalVotes", JsVal (JNum totalVotes)); ("userVote", prop poll "user_vote")].

(** The body of the poll card. *)
Inductive detail_body :=
| VoteButtons (options : jsval) (selectedOption : option nat)
| Results (bars : list json) (totalVotes : Q).

(** Lines 93 and 119-151: the options to vote on unless the user has
    voted or the poll has expired; otherwise the chart and the total. *)
Definition detail_card (now : Z) (poll : json) (hasVoted : bool) (selectedOption : option nat)
    : detail_body :=
  let isPollExpired := expired now (prop poll "expires_at") in
  if negb hasVoted && negb isPollExpired then VoteButtons (prop poll "options") selectedOption
  else Results (Chart.PollResultsChart (detail_chart_props poll (total_votes poll))) (total_votes poll).

(** What the detail page renders. *)
Inductive detail_view :=
| LoadingPoll
| DetailError (msg : string)
| PollNotFound
| PollCard (title : jsval) (isPollExpired : bool) (card : detail_body) (createdBy : string).

(** Lines 58-60 and 93-157: [!poll] gives "Poll not found."; otherwise
    the card, whose footer shows [poll.profiles?.email || "Unknown"]. *)
Definition poll_card (now : Z) (poll : option json) (hasVoted : bool) (selectedOption : option nat)
    : detail_view :=
  match poll with
  | Some p =>
      if js_truthy (JsVal p)
      then PollCard (prop p "question") (expired now (prop p "expires_at"))
             (detail_card now p hasVoted selectedOption) (profiles_email_or p "Unknown")
      else PollNotFound
  | None => PollNotFound
  end.

(** Lines 50-60: [loadingPoll], then a truthy [error], then the poll. *)
Definition PollDetailPage (loadingPoll : bool) (now : Z) (st : detail) (selectedOption : option nat)
    : detail_view :=
  if loadingPoll then LoadingPoll else
  match d_error st with
  | Some e =>
      if bool_decide (e = "") then poll_card now (d_poll st) (d_hasVoted st) selectedOption
      else DetailError e
  | None => poll_card now (d_poll st) (d_hasVoted st) selectedOption
  end.

(** [`${process.env.NEXT_PUBLIC_BASE_URL}`]: an unset variable is
    written ["undefined"]. *)
Definition env_string (v : option string) : string := default "undefined" v.

(** Line 165: the share code of the poll. *)
Definition detail_qr (base : option string) (id : string) : Chart.qr_view :=
  Chart.QRCodeDisplay (String.append (env_string base) (String.append "/polls/" id)) (Some 200%Z).

(** A button of the page: its label and whether it has an [onClick]. *)
Record button := mkButton { button_label : string; button_onClick : bool }.

(** Lines 162-176: the share section, the code of the poll's URL and
    two buttons that have no [onClick]. *)
Definition share_section (base : option string) (params_id : string) : Chart.qr_view * list button :=
  (detail_qr base params_id, [mkButton "Copy Link" false; mkButton "Share on Twitter" false]).

(** The page past its early returns (lines 95-178): the card, the
    comments of [params.id] (line 160) and the share section. *)
Record detail_layout := mkDetailLayout {
  layout_card : detail_view;
  layout_comments : string;
  layout_share : Chart.qr_view * list button
}.

Definition detail_page (loadingPoll : bool) (now : Z) (st : detail) (selectedOption : option nat)
    (base : option string) (params_id : string) : detail_view + detail_layout :=
  match PollDetailPage loadingPoll now st selectedOption with
  | PollCard _ _ _ _ as v => inr (mkDetailLayout v params_id (share_section base params_id))
  | v => inl v
  end.

(** Loading the page [k] times, each fetch with its own contexts. *)
Fixpoint reload (ctxs : nat -> Ctx * Ctx) (now : Z) (pid : string) (k : nat) (st : detail) (db : Db)
    : detail * Db :=
  match k with
  | 0 => (st, db)
  | S k' =>
      let '(st', db') := reload ctxs now pid k' st db in
      fetchPoll (fst (ctxs k')) (snd (ctxs k')) now pid st' db'
  end.

#[local] Instance JStr_inj : Inj (=) (=) JStr.
Proof. by injection 1. Qed.

(** ** Scenario: [P1] of [U2], expired at time 5000, and [U1] at 100000. *)
Definition expired_poll : poll := mkPoll "P1" "U2" "Pick one" ["A"; "B"] 1000 (Some 5000%Z).
Definition expired_db : Db := with_polls empty_db [expired_poll].
Definition ok_ctx (uid : string) : Ctx := mkCtx (Some uid) None 100000 (fun _ => None).

(** [U1] has voted for [A] on [P1]. *)
Definition voted_db : Db := with_votes expired_db [mkVote "V1" "P1" "U1" 0 50000].

(** ** Lemmas *)

Lemma getPercentage_bounds (t v : Q) :
  (0 < t)%Q -> (0 <= v <= t)%Q -> (0 <= getPercentage t v <= 100)%Z.
Proof.
  intros Ht Hv. unfold getPercentage.
  destruct (Qeq_bool t 0) eqn:E; [apply Qeq_bool_iff in E; exfalso; lra|].
  pose proof (Chart.share_bounds v t Ht Hv) as Hs.
  pose proof (Qfloor_le (v / t * 100 + Qmake 1 2)) as Hle.
  pose proof (Qlt_floor (v / t * 100 + Qmake 1 2)) as Hlt. rewrite inject_Z_plus in Hlt.
  set (n := Qfloor _) in *. split.
  - destruct (Z.lt_ge_cases n 0) as [Hn|Hn]; [exfalso|done].
    assert (Hn' : (n <= -1)%Z) by lia. rewrite Zle_Qle in Hn'.
    change (inject_Z (-1)) with (Qmake (-1) 1) in Hn'. change (inject_Z 1) with (Qmake 1 1) in Hlt. lra.
  - destruct (Z.le_gt_cases n 100) as [Hn|Hn]; [done|exfalso].
    assert (Hn' : (101 <= n)%Z) by lia. rewrite Zle_Qle in Hn'.
    change (inject_Z 101) with (Qmake 101 1) in Hn'. lra.
Qed.

Lemma poll_json_inj p1 p2 : poll_json p1 = poll_json p2 -> p1 = p2.
Proof.
  destruct p1 as [i1 u1 q1 o1 c1 e1], p2 as [i2 u2 q2 o2 c2 e2]. unfold poll_json. simpl.
  intros H. injection H as -> -> -> Ho Hc He.
  apply (inj (fmap JStr)) in Ho as ->. subst.
  destruct e1, e2; simplify_eq; done.
Qed.

Lemma poll_GET_ok ctx pid db p :
  no_fault ctx 0 -> polls_with_id pid (polls db) = [p] ->
  poll_GET ctx pid db = json_ok (JObj [("poll", poll_json p); ("error", JNull)]).
Proof. intros Hf Hp. unfold poll_GET. by rewrite round_trip_ok, Hp. Qed.

Lemma expired_poll_json p now t :
  expires_at p = Some t -> t <> 0%Z -> (t < now)%Z ->
  expired now (prop (poll_json p) "expires_at") = true.
Proof.
  intros He Ht Hlt. unfold poll_json. simpl. rewrite He. simpl.
  apply andb_true_intro. split.
  - apply negb_true_iff. apply not_true_is_false. intros Hq. apply Qeq_bool_iff in Hq.
    apply Ht. unfold Qeq in Hq. simpl in Hq. lia.
  - apply negb_true_iff. apply not_true_is_false. intros Hq. apply Qle_bool_iff in Hq.
    rewrite <-Zle_Qle in Hq. lia.
Qed.

Lemma fetchPoll_expired ctx ectx now pid st db p t :
  no_fault ctx 0 -> no_fault ectx 0 -> polls_with_id pid (polls db) = [p] ->
  expires_at p = Some t -> t <> 0%Z -> (t < now)%Z ->
  fetchPoll ctx ectx now pid st db =
    (mkDetail (Some (poll_json p)) None (d_hasVoted st),
     with_notifications db (notifications db ++ [notification_row (poll_json p) "admin@example.com"])).
Proof.
  intros Hf Hef Hp He Ht Hlt. unfold fetchPoll. rewrite (poll_GET_ok _ _ _ p) by done.
  pose proof (expired_poll_json p now t He Ht Hlt) as Hexp.
  simpl. simpl in Hexp. rewrite Hexp.
  unfold sendPollClosingEmail. simpl. by rewrite round_trip_ok.
Qed.

(** [fetchPoll] touches no table but [notifications], and keeps [hasVoted]. *)
Lemma fetchPoll_frame ctx ectx now pid st db :
  let '(st', db') := fetchPoll ctx ectx now pid st db in
  d_hasVoted st' = d_hasVoted st /\ polls db' = polls db /\ votes db' = votes db /\
  comments db' = comments db /\ profiles db' = profiles db.
Proof.
  unfold fetchPoll. destruct (response_ok _); simpl; [|done].
  destruct (destructure _ "poll") as [[|p]|]; simpl; try done.
  destruct p; simpl; try (destruct (expired _ _)); try done;
    unfold sendPollClosingEmail; destruct (round_trip ectx 0 _); done.
Qed.

(** [GET /api/polls/[id]] sends the row of [polls], which has no
    [total_votes], so [poll.total_votes || 0] is 0 for every poll. *)
Lemma detail_total_votes_zero p : total_votes (poll_json p) = 0%Q.
Proof. unfold poll_json, total_votes. simpl. by destruct (expires_at p). Qed.

Lemma append_polls_nonempty s id : String.append s (String.append "/polls/" id) <> "".
Proof. by destruct s. Qed.

(** The body [handleVote] posts carries a valid index. *)
Lemma handleVote_index (i : nat) :
  destructure (JObj [("optionIndex", JNum (inject_Z (Z.of_nat i)))]) "optionIndex" =
    Some (JsVal (JNum (inject_Z (Z.of_nat i)))) /\ (0 <= inject_Z (Z.of_nat i))%Q.
Proof. split; [reflexivity|unfold Qle; simpl; lia]. Qed.

(** A fetch that leaves no error shows a row the route sent. *)
Lemma fetchPoll_shown ctx ectx now pid st db st' db' :
  fetchPoll ctx ectx now pid st db = (st', db') -> d_error st' = None ->
  exists p, d_poll st' = Some (poll_json p).
Proof.
  unfold fetchPoll, poll_GET. destruct (round_trip ctx 0 _) as [p|m]; simpl.
  - case_match; intros [= <- _] _; eauto.
  - intros [= <- _]. done.
Qed.

Lemma poll_json_not_PollWithStats p : has_type PollWithStats_type (poll_json p) = false.
Proof. unfold poll_json. simpl. apply andb_false_r. Qed.

(** At most one [DELETE] of a card is in flight, exactly while the card
    shows "Deleting...". *)
Definition card_ok (st : card_state) : Prop :=
  (k_isDeleting st = false /\ k_inflight st = 0) \/ (k_isDeleting st = true /\ k_inflight st = 1).

Lemma card_step_ok ns user poll st st' : card_step ns user poll st st' -> card_ok st -> card_ok st'.
Proof.
  unfold card_ok. destruct 1 as [st _ Hd|st _ Hd|ctx n st Hn]; simpl; [done| |]; intros [[Hd' Hi]|[Hd' Hi]].
  - right. by rewrite Hi.
  - congruence.
  - rewrite Hi in Hn. discriminate Hn.
  - left. rewrite Hi in Hn. by injection Hn as <-.
Qed.

(** ** Theorems *)

(** C19. The My Polls page never lists a poll: it fetches
    [/api/polls/user], which [GET /api/polls/[id]] answers as the poll
    with id ["user"], a body with no [polls] field, so the list is
    always empty, whoever is logged in and whatever the store holds. *)
Theorem PollsPage_never_lists ctx db : lv_polls (PollsPage ctx db) = [].
Proof.
  unfold PollsPage, poll_GET. destruct (round_trip ctx 0 _); reflexivity.
Qed.

(** C35. Every load of the page of an expired poll records one more
    closing notification: [k] loads append [k] identical rows, and
    nothing prevents repeats. *)
Theorem expired_poll_notified_per_load ctxs now pid st db p t k :
  (forall n, no_fault (fst (ctxs n)) 0 /\ no_fault (snd (ctxs n)) 0) ->
  polls_with_id pid (polls db) = [p] -> expires_at p = Some t -> t <> 0%Z -> (t < now)%Z ->
  notifications (snd (reload ctxs now pid k st db)) =
    notifications db ++ repeat (notification_row (poll_json p) "admin@example.com") k /\
  polls (snd (reload ctxs now pid k st db)) = polls db.
Proof.
  intros Hf Hp He Ht Hlt. induction k as [|k IH]; simpl; [by rewrite app_nil_r|].
  destruct (reload ctxs now pid k st db) as [st' db'] eqn:E. simpl in IH |- *.
  destruct IH as [IHn IHp]. destruct (Hf k) as [Hf1 Hf2].
  rewrite (fetchPoll_expired _ _ _ _ _ _ p t) by (try rewrite IHp; done). simpl.
  rewrite IHn, repeat_cons, <-app_assoc. done.
Qed.

(** C33. Voting from the detail page records the option the user
    picked: for a logged-in user under the rate limit with no vote on
    the poll, the page posts the option's index, the store gains exactly
    the vote row with that index, and the page switches to results. *)
Theorem handleVote_records_selected ctx gctx ectx now pid i st db uid :
  ctx_user ctx = Some uid -> votes_in_window uid (ctx_now ctx) (votes db) < 5 ->
  votes_for pid uid (votes db) = [] -> no_fault ctx 2 ->
  let '(st', db') := handleVote ctx gctx ectx now pid (Some i) st db in
  d_hasVoted st' = true /\
  votes db' = votes db ++ [mkVote (fresh_id db) pid uid (inject_Z (Z.of_nat i)) (ctx_now ctx)].
Proof.
  intros Hu Hw Hn Hf. destruct (handleVote_index i) as [Hj Hq].
  unfold handleVote. cbv beta iota. vote_route Hj Hq. rewrite Hu.
  rewrite rate_limited_data_false, existing_vote_none, insert_vote_ok by done. simpl.
  pose proof (fetchPoll_frame gctx ectx now pid (mkDetail (d_poll st) (d_error st) true)
    (add_vote ctx pid uid (inject_Z (Z.of_nat i)) db)) as Hfr.
  destruct (fetchPoll _ _ _ _ _ _) as [st' db']. destruct Hfr as (Hv & _ & Hvs & _).
  by rewrite Hv, Hvs.
Qed.

(** The edit page opens for anyone: with the poll read answered,
    it shows the edit form exactly when one poll has the id, whatever
    the session, and otherwise answers not found. *)
Theorem EditPollPage_any_visitor ctx id db p :
  no_fault ctx 0 ->
  EditPollPage ctx id db = EditView (poll_json p) <-> polls_with_id id (polls db) = [p].
Proof.
  intros Hf. split.
  - unfold EditPollPage, poll_GET. rewrite round_trip_ok by done.
    destruct (single _) as [p'|m] eqn:Hs; simpl; [|done].
    intros Hv. assert (Hj : poll_json p' = poll_json p) by congruence. apply poll_json_inj in Hj as ->. by apply single_ok.
  - intros Hp. unfold EditPollPage. by rewrite (poll_GET_ok _ _ _ p).
Qed.

(** C20. The results of the detail page are empty.  Once the user has
    voted or the poll has expired, the card shows [PollResultsChart]
    with props [question], [options], [voteCounts], [totalVotes] and
    [userVote], but the component draws the entries of its one prop
    [data], which the page never passes: no bar is drawn, and the
    total printed below is 0 because the poll JSON has no
    [total_votes].  Before that, the card lists the poll's options. *)
Theorem detail_results_empty now p hasVoted sel :
  match detail_card now (poll_json p) hasVoted sel with
  | Results bars total => bars = [] /\ total = 0%Q
  | VoteButtons opts _ => hasVoted = false /\ opts = JsVal (JArr (JStr <$> options p))
  end.
Proof.
  unfold detail_card. destruct (negb hasVoted && _) eqn:E.
  - apply andb_true_iff in E as [E _]. split; [by destruct hasVoted|reflexivity].
  - split; [reflexivity|apply detail_total_votes_zero].
Qed.

(** The share code of the detail page is always a QR code, of
    [NEXT_PUBLIC_BASE_URL] followed by [/polls/<id>]: the "No URL"
    placeholder is unreachable, and with the variable unset the code
    encodes ["undefined/polls/<id>"]. *)
Theorem detail_qr_encodes base id :
  detail_qr base id = Chart.QRCode (String.append (default "undefined" base) (String.append "/polls/" id)) 200%Z.
Proof. unfold detail_qr, Chart.QRCodeDisplay. by rewrite bool_decide_eq_false_2 by apply append_polls_nonempty. Qed.

(** C34. A vote the route refuses replaces the whole detail page by
    its error: a caller who already voted on the poll, voting again from
    the page, gets "Error: You have already voted on this poll" in place
    of the poll and its results, and the store is unchanged; only a new
    fetch clears the error. *)
Theorem vote_refused_replaces_page ctx gctx ectx now pid i st db uid v sel :
  ctx_user ctx = Some uid -> votes_in_window uid (ctx_now ctx) (votes db) < 5 ->
  no_fault ctx 1 -> votes_for pid uid (votes db) = [v] ->
  let '(st', db') := handleVote ctx gctx ectx now pid (Some i) st db in
  db' = db /\ PollDetailPage false now st' sel = DetailError msg_already.
Proof.
  intros Hu Hw Hf Hv. destruct (handleVote_index i) as [Hj Hq].
  unfold handleVote. cbv beta iota. vote_route Hj Hq.
  rewrite Hu, rate_limited_data_false, (existing_vote_one _ _ _ _ v) by done.
  split; reflexivity.
Qed.

(** The detail page keeps the poll it fetched in state declared
    [PollWithStats | null], but no poll [GET /api/polls/[id]] sends has
    the required [vote_counts] and [total_votes]: whenever a fetch
    leaves no error, the poll in state is not a [PollWithStats]. *)
Theorem fetched_poll_not_PollWithStats ctx ectx now pid st db st' db' :
  fetchPoll ctx ectx now pid st db = (st', db') -> d_error st' = None ->
  exists p, d_poll st' = Some p /\ has_type PollWithStats_type p = false.
Proof.
  intros Hf He. destruct (fetchPoll_shown _ _ _ _ _ _ _ _ Hf He) as [p ->].
  exists (poll_json p). split; [done|]. apply poll_json_not_PollWithStats.
Qed.

(** C32. Unlike the admin dashboard's shared [loading], the card's own
    [isDeleting] keeps it to one delete at a time: from a fresh card,
    whatever the clicks, refusals and answers, at most one [DELETE] is
    in flight, exactly while the button is disabled and reads
    "Deleting...". *)
Theorem card_single_delete ns user poll db st :
  rtc (card_step ns user poll) (mkCardState false 0 db []) st ->
  k_inflight st <= 1 /\ (k_isDeleting st = true <-> k_inflight st = 1).
Proof.
  intros Hr. assert (Hok : card_ok st).
  { apply (rtc_ind_r (R:=card_step ns user poll) card_ok (mkCardState false 0 db []));
      eauto using card_step_ok. by left. }
  destruct Hok as [[-> ->]|[-> ->]]; split; [lia|done|lia|done].
Qed.

(** ** Witnesses *)

Lemma expired_poll_notified_per_load_witness :
  notifications (snd (reload (fun _ => (ok_ctx "U1", ok_ctx "U1")) 100000 "P1" 2
                        (mkDetail None None false) expired_db)) =
    notifications expired_db ++ repeat (notification_row (poll_json expired_poll) "admin@example.com") 2 /\
  polls (snd (reload (fun _ => (ok_ctx "U1", ok_ctx "U1")) 100000 "P1" 2
                (mkDetail None None false) expired_db)) = polls expired_db.
Proof.
  apply (expired_poll_notified_per_load _ _ _ _ _ expired_poll 5000).
  all: first [reflexivity | intros n; split; reflexivity | lia].
Defined.

Lemma handleVote_records_selected_witness :
  let '(st', db') := handleVote (ok_ctx "U1") (ok_ctx "U1") (ok_ctx "U1") 100000 "P1" (Some 1)
                       (mkDetail None None false) expired_db in
  d_hasVoted st' = true /\
  votes db' = votes expired_db ++
    [mkVote (fresh_id expired_db) "P1" "U1" (inject_Z (Z.of_nat 1)) (ctx_now (ok_ctx "U1"))].
Proof.
  apply (handleVote_records_selected _ _ _ _ _ _ _ _ "U1"); try reflexivity. vm_compute. lia.
Defined.

Lemma EditPollPage_any_visitor_witness :
  EditPollPage (ok_ctx "U1") "P1" expired_db = EditView (poll_json expired_poll).
Proof. apply (EditPollPage_any_visitor _ _ _ expired_poll); reflexivity. Defined.

(** [U1], who voted for [A] on [P1], votes again from the page. *)
Lemma vote_refused_replaces_page_witness :
  let '(st', db') := handleVote (ok_ctx "U1") (ok_ctx "U1") (ok_ctx "U1") 100000 "P1" (Some 1)
                       (mkDetail None None false) voted_db in
  db' = voted_db /\ PollDetailPage false 100000 st' None = DetailError msg_already.
Proof.
  apply (vote_refused_replaces_page _ _ _ _ _ _ _ _ "U1" (mkVote "V1" "P1" "U1" 0 50000)).
  all: first [reflexivity | vm_compute; lia].
Defined.

(** [U1] opens the page of the expired [P1]. *)
Lemma fetched_poll_not_PollWithStats_witness :
  exists p, d_poll (fetchPoll (ok_ctx "U1") (ok_ctx "U1") 100000 "P1" (mkDetail None None false) expired_db).1
              = Some p /\ has_type PollWithStats_type p = false.
Proof.
  apply (fetched_poll_not_PollWithStats (ok_ctx "U1") (ok_ctx "U1") 100000 "P1" (mkDetail None None false)
           expired_db _ (fetchPoll (ok_ctx "U1") (ok_ctx "U1") 100000 "P1" (mkDetail None None false)
                           expired_db).2); [apply surjective_pairing | reflexivity].
Defined.

(** [U2], the owner of [expired_poll], confirms a delete. *)
Lemma card_single_delete_witness :
  k_inflight (mkCardState true 1 expired_db []) <= 1 /\
  (k_isDeleting (mkCardState true 1 expired_db []) = true <-> k_inflight (mkCardState true 1 expired_db []) = 1).
Proof.
  apply (card_single_delete (fun _ => "") (Some "U2") (poll_json expired_poll) expired_db).
  apply rtc_once. apply (ClickConfirmed _ _ _ (mkCardState false 0 expired_db [])); reflexivity.
Defined.

End Pages.
