(* ===== verification/Store.v ===== *)
(** * The polls table as a keyed store

    Every handler reads a poll with [.eq("id", id)] and most of them
    with [.single()], as if [id] were a key.  The table is a list of
    rows here ([Db.v]); this file gives its abstract view, the finite
    map from [id] to row ([poll_map]), and shows that the list behaves
    as that map:

    - the hypothesis [keyed]: the ids of the polls table are distinct
      and were all issued by the store's counter, which stands for the
      table's primary key default (no handler writes an id).  Every
      handler of the program that writes ([store_request], [run]) keeps
      it ([keyed_reachable]);
    - the abstract specification of the poll writes on the map
      ([spec_step]): a creation inserts a fresh id owned by the session
      user, an update changes the caller's own poll, a deletion removes
      a poll of the caller, and the admin deletion removes any poll.
      Every request, run on a keyed store, changes the map as the
      specification allows ([store_refines_spec]): the list model
      refines the map, and the ownership filters of the update and the
      delete are what makes it hold. *)

From S2P Require Import Prelude Http Db RateLimit Vote Libraries Polls Admin Comments Email.
From stdpp Require Import gmap.

Module Store.
Import Vote Polls Admin Comments Email.

(** ** The abstract store *)

(** The polls table seen as a map from [id] to row. *)
Definition poll_map (ps : list poll) : gmap string poll :=
  list_to_map ((fun p => (poll_id p, p)) <$> ps).

(** [.update({ question, options }).eq("id", id).eq("user_id", uid)] on
    the map: the row of [id], when [uid] owns it, takes the new question
    and options. *)
Definition spec_update (uid id q : string) (opts : list string) (m : gmap string poll)
    : gmap string poll :=
  match m !! id with
  | Some p =>
      if decide (poll_user_id p = uid)
      then <[id := mkPoll (poll_id p) (poll_user_id p) q opts (poll_created_at p) (expires_at p)]> m
      else m
  | None => m
  end.

(** ** The invariant *)

(** An id the counter has issued. *)
Definition issued (db : Db) (id : string) : Prop := exists k, id = pretty k /\ k < next_id db.

Definition keyed (db : Db) : Prop :=
  NoDup (poll_id <$> polls db) /\ Forall (fun p => issued db (poll_id p)) (polls db).

(** ** Requests that write *)

Inductive store_request :=
| RVote (ctx : Ctx) (pid : string) (body : option json)
| RSubmitVote (ctx : Ctx) (pid : string) (q : Q)
| RComment (ctx : Ctx) (pid : string) (body : option json)
| RCreatePoll (ctx : Ctx) (seed : nat) (fd : formdata)
| RPostPoll (ctx : Ctx) (seed : nat) (fd : option formdata)
| RUpdatePoll (ctx : Ctx) (seed : nat) (pid : string) (fd : formdata)
| RPutPoll (ctx : Ctx) (seed : nat) (pid : string) (fd : option formdata)
| RDeletePoll (ctx : Ctx) (pid : string)
| RDeleteRoute (ctx : Ctx) (pid : string)
| RAdminDelete (ctx : Ctx) (pid : string)
| RSetRole (ctx : Ctx) (uid : string) (r : role_arg)
| RClosingEmail (ctx : Ctx) (poll : json) (recipientEmail : string).

(** What the specification allows a request to do to the map. *)
Definition spec_step (rq : store_request) (m m' : gmap string poll) : Prop :=
  m' = m \/
  match rq with
  | RCreatePoll ctx _ _ | RPostPoll ctx _ _ =>
      exists p, ctx_user ctx = Some (poll_user_id p) /\ m !! poll_id p = None /\ m' = <[poll_id p := p]> m
  | RUpdatePoll ctx _ pid _ | RPutPoll ctx _ pid _ =>
      exists uid q opts, ctx_user ctx = Some uid /\ m' = spec_update uid pid q opts m
  | RDeletePoll ctx pid | RDeleteRoute ctx pid =>
      exists p, m !! pid = Some p /\ ctx_user ctx = Some (poll_user_id p) /\ m' = delete pid m
  | RAdminDelete _ pid => m' = delete pid m
  | _ => False
  end.

(** How a write changes the polls table and the counter. *)
Inductive poll_effect (db db' : Db) : Prop :=
| EffFrame : polls db' = polls db -> next_id db <= next_id db' -> poll_effect db db'
| EffInsert ctx uid q opts : db' = add_poll ctx uid q opts db -> poll_effect db db'
| EffUpdate pid uid q opts : db' = with_polls db (update_polls pid uid q opts (polls db)) -> poll_effect db db'
| EffDelete pid : db' = with_polls db (delete_polls pid (polls db)) -> poll_effect db db'.

Section requests.
Context `{!CsrfTokens} `{!Sanitizer}.

(** The store after a request. *)
Definition run (rq : store_request) (db : Db) : Db :=
  match rq with
  | RVote ctx pid body => snd (vote_POST ctx pid body db)
  | RSubmitVote ctx pid q => snd (submitVote ctx pid q db)
  | RComment ctx pid body => snd (comments_POST ctx pid body db)
  | RCreatePoll ctx seed fd => snd (createPoll ctx seed fd db)
  | RPostPoll ctx seed fd => snd (polls_POST ctx seed fd db)
  | RUpdatePoll ctx seed pid fd => snd (updatePoll ctx seed pid fd db)
  | RPutPoll ctx seed pid fd => snd (poll_PUT ctx seed pid fd db)
  | RDeletePoll ctx pid => snd (deletePoll ctx pid db)
  | RDeleteRoute ctx pid => snd (poll_DELETE ctx pid db)
  | RAdminDelete ctx pid => snd (adminDeletePoll ctx pid db)
  | RSetRole ctx uid r => snd (updateUserRole ctx uid r db)
  | RClosingEmail ctx poll e => snd (sendPollClosingEmail ctx poll e db)
  end.

Definition store_step (db db' : Db) : Prop := exists rq, db' = run rq db.

End requests.

(** ** The map of rows *)

Lemma poll_map_cons p ps : poll_map (p :: ps) = <[poll_id p := p]> (poll_map ps).
Proof. reflexivity. Qed.

Lemma poll_map_None ps id : id ∉ poll_id <$> ps -> poll_map ps !! id = None.
Proof.
  induction ps as [|p ps IH]; intros Hid; [done|]. rewrite fmap_cons, elem_of_cons in Hid.
  rewrite poll_map_cons, lookup_insert_ne by naive_solver. apply IH. naive_solver.
Qed.

(** [.eq("id", id)] on a table with distinct ids reads the map. *)
Lemma polls_with_id_map ps id :
  NoDup (poll_id <$> ps) ->
  polls_with_id id ps = match poll_map ps !! id with Some p => [p] | None => [] end.
Proof.
  induction ps as [|p ps IH]; intros Hnd; [done|].
  rewrite fmap_cons in Hnd. apply NoDup_cons in Hnd as [Hnotin Hnd].
  unfold polls_with_id in *. rewrite filter_cons, poll_map_cons, IH by done.
  destruct (decide (poll_id p = id)) as [<-|Hne].
  - rewrite lookup_insert_eq, poll_map_None by done. done.
  - rewrite lookup_insert_ne by done. done.
Qed.

Lemma poll_map_snoc ps p :
  poll_id p ∉ poll_id <$> ps -> poll_map (ps ++ [p]) = <[poll_id p := p]> (poll_map ps).
Proof.
  induction ps as [|r ps IH]; intros Hid; [done|]. rewrite fmap_cons, elem_of_cons in Hid.
  rewrite <-app_comm_cons, !poll_map_cons, IH by naive_solver.
  apply insert_insert_ne. naive_solver.
Qed.

Lemma poll_map_update ps pid uid q opts :
  NoDup (poll_id <$> ps) ->
  poll_map (update_polls pid uid q opts ps) = spec_update uid pid q opts (poll_map ps).
Proof.
  induction ps as [|p ps IH]; intros Hnd; [done|].
  rewrite fmap_cons in Hnd. apply NoDup_cons in Hnd as [Hnotin Hnd].
  pose proof (poll_map_None ps (poll_id p) Hnotin) as Hnone.
  unfold update_polls in *. rewrite fmap_cons, !poll_map_cons, IH by done.
  unfold spec_update. destruct (decide (poll_id p = pid)) as [<-|Hne].
  - rewrite Hnone, lookup_insert_eq. simpl.
    destruct (decide (poll_id p = poll_id p /\ poll_user_id p = uid)) as [[_ Ho]|Ho];
      simpl; [rewrite decide_True by done; by rewrite insert_insert_eq|].
    rewrite decide_False by naive_solver. done.
  - rewrite decide_False by (intros []; done). simpl. rewrite lookup_insert_ne by done.
    destruct (poll_map ps !! pid) as [r|]; [|done]. case_decide; [|done].
    apply insert_insert_ne. done.
Qed.

Lemma poll_map_delete ps pid :
  NoDup (poll_id <$> ps) -> poll_map (delete_polls pid ps) = delete pid (poll_map ps).
Proof.
  induction ps as [|p ps IH]; intros Hnd; [symmetry; apply delete_empty|].
  rewrite fmap_cons in Hnd. apply NoDup_cons in Hnd as [Hnotin Hnd].
  unfold delete_polls in *. rewrite filter_cons, poll_map_cons. case_decide as Hp.
  - rewrite poll_map_cons, IH by done. by rewrite delete_insert_ne.
  - assert (poll_id p = pid) as <- by (destruct (decide (poll_id p = pid)); naive_solver).
    rewrite IH, delete_insert_eq by done. done.
Qed.

(** ** The invariant *)

Lemma update_polls_ids pid uid q opts ps : poll_id <$> update_polls pid uid q opts ps = poll_id <$> ps.
Proof.
  unfold update_polls. rewrite <-list_fmap_compose. apply list_fmap_ext. intros _ p _. simpl.
  by case_decide.
Qed.

Lemma issued_mono db db' id : next_id db <= next_id db' -> issued db id -> issued db' id.
Proof. intros Hle (k & -> & Hk). exists k. split; [done|lia]. Qed.

Lemma fresh_not_issued db : ~ issued db (fresh_id db).
Proof. intros (k & Hk & Hlt). unfold fresh_id in Hk. apply (inj pretty) in Hk. lia. Qed.

Lemma keyed_frame db db' : polls db' = polls db -> next_id db <= next_id db' -> keyed db -> keyed db'.
Proof.
  intros Hp Hle [Hnd Hall]. unfold keyed. rewrite Hp. split; [done|].
  eapply Forall_impl; [exact Hall|]. intros p. by apply issued_mono.
Qed.

Lemma keyed_fresh db : keyed db -> fresh_id db ∉ poll_id <$> polls db.
Proof.
  intros [_ Hall] (p & Heq & Hp)%list_elem_of_fmap. apply (fresh_not_issued db).
  rewrite Heq. by apply (proj1 (Forall_forall _ _) Hall).
Qed.

Lemma keyed_insert ctx uid q opts db : keyed db -> keyed (add_poll ctx uid q opts db).
Proof.
  intros Hk. pose proof (keyed_fresh db Hk) as Hfresh. destruct Hk as [Hnd Hall].
  unfold keyed, add_poll. simpl. rewrite fmap_app. split.
  - apply NoDup_app. split_and!; [done| |by apply NoDup_singleton].
    intros x Hx ->%list_elem_of_singleton. by apply Hfresh.
  - apply Forall_app. split.
    + eapply Forall_impl; [exact Hall|]. intros p. apply issued_mono. simpl. lia.
    + constructor; [|constructor]. exists (next_id db). simpl. split; [done|lia].
Qed.

Lemma keyed_update pid uid q opts db :
  keyed db -> keyed (with_polls db (update_polls pid uid q opts (polls db))).
Proof.
  intros [Hnd Hall]. unfold keyed. simpl. rewrite update_polls_ids. split; [done|].
  unfold update_polls. apply Forall_fmap. eapply Forall_impl; [exact Hall|].
  intros p Hp. simpl. by case_decide.
Qed.

Lemma keyed_delete pid db : keyed db -> keyed (with_polls db (delete_polls pid (polls db))).
Proof.
  intros [Hnd Hall]. unfold keyed, delete_polls. simpl. split.
  - eapply sublist_NoDup; [exact Hnd|]. apply fmap_sublist, sublist_filter.
  - apply Forall_forall. intros p [_ Hp]%list_elem_of_filter.
    by apply (proj1 (Forall_forall _ _) Hall).
Qed.

Lemma keyed_effect db db' : poll_effect db db' -> keyed db -> keyed db'.
Proof.
  destruct 1 as [Hp Hle| ? ? ? ? ->| ? ? ? ? ->| ? ->];
    eauto using keyed_frame, keyed_insert, keyed_update, keyed_delete.
Qed.

(** ** Every request is one of the four effects *)

Lemma eff_frame_add_vote ctx pid uid q db : poll_effect db (add_vote ctx pid uid q db).
Proof. apply EffFrame; simpl; [done|lia]. Qed.

Lemma eff_frame_add_comment ctx pid uid s db : poll_effect db (add_comment ctx pid uid s db).
Proof. apply EffFrame; simpl; [done|lia]. Qed.

Lemma eff_frame_refl db : poll_effect db db.
Proof. by apply EffFrame. Qed.

Lemma eff_frame_profiles db prs : poll_effect db (with_profiles db prs).
Proof. by apply EffFrame. Qed.

Lemma eff_frame_notifications db ns : poll_effect db (with_notifications db ns).
Proof. by apply EffFrame. Qed.

#[export] Hint Resolve eff_frame_add_vote eff_frame_add_comment eff_frame_refl
  eff_frame_profiles eff_frame_notifications : polly.
#[export] Hint Constructors poll_effect : polly.

(** Runs the handler of one request, and splits its outcome with the
    handler's [_cases] lemma. *)
Ltac handler_outcome lem :=
  let H := fresh "Hrun" in
  match goal with |- context [snd ?e] => destruct e as [? ?] eqn:H end; simpl;
  apply lem in H; unfold inserted in H;
  repeat match type of H with
  | _ \/ _ => destruct H as [H|H]
  | exists _, _ => destruct H as [? H]
  | _ /\ _ => destruct H as [? H]
  end; subst.

(** Splits [run rq db] into the outcomes of the handler [rq] names. *)
Ltac run_outcome rq :=
  destruct rq; simpl;
    [handler_outcome vote_POST_cases | handler_outcome submitVote_cases
    | handler_outcome comments_POST_cases | handler_outcome createPoll_cases
    | handler_outcome polls_POST_cases | handler_outcome updatePoll_cases
    | handler_outcome poll_PUT_cases | handler_outcome deletePoll_cases
    | handler_outcome poll_DELETE_cases | handler_outcome adminDeletePoll_cases
    | handler_outcome updateUserRole_cases | handler_outcome sendPollClosingEmail_cases].

Section effects.
Context `{!CsrfTokens} `{!Sanitizer}.

Lemma run_effect rq db : poll_effect db (run rq db).
Proof. run_outcome rq. all: eauto with polly. Qed.

End effects.

(** ** The writes on the map *)

Lemma keyed_nodup db : keyed db -> NoDup (poll_id <$> polls db).
Proof. by intros [? _]. Qed.

Lemma add_poll_spec db ctx uid q opts :
  keyed db -> ctx_user ctx = Some uid ->
  exists p, ctx_user ctx = Some (poll_user_id p) /\ poll_map (polls db) !! poll_id p = None /\
            poll_map (polls (add_poll ctx uid q opts db)) = <[poll_id p := p]> (poll_map (polls db)).
Proof.
  intros Hk Hu. pose proof (keyed_fresh db Hk) as Hf.
  exists (new_poll ctx uid q opts db). split_and!; [done|by apply poll_map_None|].
  by apply poll_map_snoc.
Qed.

Lemma update_spec db ctx pid uid q opts :
  keyed db -> ctx_user ctx = Some uid ->
  exists uid' q' opts', ctx_user ctx = Some uid' /\
    poll_map (polls (with_polls db (update_polls pid uid q opts (polls db))))
    = spec_update uid' pid q' opts' (poll_map (polls db)).
Proof. intros Hk Hu. exists uid, q, opts. split; [done|]. by apply poll_map_update, keyed_nodup. Qed.

Lemma delete_spec db ctx id p :
  keyed db -> polls_with_id id (polls db) = [p] -> ctx_user ctx = Some (poll_user_id p) ->
  exists p', poll_map (polls db) !! id = Some p' /\ ctx_user ctx = Some (poll_user_id p') /\
    poll_map (polls (with_polls db (delete_polls id (polls db)))) = delete id (poll_map (polls db)).
Proof.
  intros Hk Hp Hu. exists p. rewrite polls_with_id_map in Hp by apply keyed_nodup, Hk.
  split_and!; [by destruct (_ !! id); simplify_eq|done|by apply poll_map_delete, keyed_nodup].
Qed.

Lemma admin_delete_spec db id :
  keyed db ->
  poll_map (polls (with_polls db (delete_polls id (polls db)))) = delete id (poll_map (polls db)).
Proof. intros Hk. by apply poll_map_delete, keyed_nodup. Qed.

Lemma keyed_empty : keyed empty_db.
Proof. split; constructor. Qed.

Section theorems.
Context `{!CsrfTokens} `{!Sanitizer}.

Lemma keyed_step db db' : store_step db db' -> keyed db -> keyed db'.
Proof. intros [rq ->]. apply keyed_effect, run_effect. Qed.

Lemma keyed_rtc db : rtc store_step empty_db db -> keyed db.
Proof.
  intros Hr. apply (rtc_ind_r (R:=store_step) (fun db => keyed db) empty_db); eauto using keyed_step, keyed_empty.
Qed.

(** The hypothesis of [store_refines_spec] holds in every store
    reachable from the empty one by the writing handlers.  It rests on
    the model's id counter, which stands for the table's primary key
    default: no handler writes a poll id. *)
Lemma keyed_reachable db :
  rtc store_step empty_db db ->
  keyed db /\ forall id, length (polls_with_id id (polls db)) <= 1.
Proof.
  intros Hr. pose proof (keyed_rtc db Hr) as Hk. split; [done|]. intros id.
  rewrite polls_with_id_map by apply keyed_nodup, Hk. destruct (poll_map (polls db) !! id); simpl; lia.
Qed.

(** C14. Refinement: on a keyed store, every request changes the map
    from id to poll as the abstract specification [spec_step] allows.
    A creation inserts a fresh id owned by the session user, an update
    changes only the caller's own poll, a deletion through the action
    or the route removes an existing poll of the caller, the admin
    deletion removes its id, and the other writes leave the polls
    alone. *)
Theorem store_refines_spec rq db :
  keyed db -> spec_step rq (poll_map (polls db)) (poll_map (polls (run rq db))).
Proof.
  intros Hk. unfold spec_step. run_outcome rq.
  all: first [by left | right].
  all: eauto using add_poll_spec, update_spec, delete_spec, admin_delete_spec.
Qed.

End theorems.

(** ** Witnesses, with the reference [csrf] and [DOMPurify] instances *)

(** U1 creates a poll in the empty store. *)
Definition created_db : Db :=
  run (RCreatePoll (ctx_of "U1") 0 (poll_form good_token "Best?" ["A"; "B"])) empty_db.

Lemma store_refines_spec_witness :
  keyed created_db /\
  spec_step (RDeletePoll (ctx_of "U1") "0") (poll_map (polls created_db))
            (poll_map (polls (run (RDeletePoll (ctx_of "U1") "0") created_db))).
Proof.
  assert (Hk : keyed created_db).
  { split; vm_compute; [repeat constructor; set_solver|].
    repeat constructor. exists 0. split; [reflexivity|lia]. }
  split; [exact Hk|]. apply store_refines_spec. exact Hk.
Defined.

End Store.
