(* ===== verification/JestConfig.v ===== *)
(** * The Jest configuration ([src/jest.config.js])

    The test configuration the file exports with [export default]
    ([customJestConfig], lines 12-21): its [moduleNameMapper] rule
    [^@/lib/( .* )$ -> <rootDir>/app/lib/$1], its setup file and its
    ignore patterns, with Jest's use of the mapper (the first rule whose
    pattern matches a module name rewrites it) and of the ignore
    patterns (a match anywhere in the path).

    Not modelled: module resolution against the file system (the
    repository holds only [src/], and several modules the code imports,
    such as [@/lib/supabase/server] and [@/components/ui/*], are not in
    it), [next/jest]'s own additions to the configuration, and which of
    the two objects the file builds Jest loads (it assigns
    [module.exports] on lines 3-6 and also has an [export default]). *)

From S2P Require Import Prelude.
From Stdlib Require Import Ascii.

Module JestConfig.

(** A [moduleNameMapper] entry of the shape [^prefix( .* )$ -> target$1]. *)
Record mapper_rule := mkMapperRule {
  rule_prefix : string;
  rule_target : string
}.

Record jest_config := mkJestConfig {
  setupFilesAfterEnv : list string;
  testEnvironment : string;
  moduleNameMapper : list mapper_rule;
  testPathIgnorePatterns : list string
}.

(** Lines 3-6: the object the file also assigns to [module.exports]. *)
Record cjs_config := mkCjsConfig {
  cjs_testEnvironment : string;
  cjs_setupFiles : list string
}.

Definition module_exports : cjs_config := mkCjsConfig "jsdom" ["whatwg-fetch"].

(** Lines 12-19. *)
Definition customJestConfig : jest_config :=
  mkJestConfig ["<rootDir>/jest.setup.js"] "jest-environment-jsdom-latest"
    [mkMapperRule "@/lib/" "<rootDir>/app/lib/"] ["/node_modules/"; "/.next/"].

(** [.] matches any character but a line terminator. *)
Definition line_terminator (c : Ascii.ascii) : bool :=
  bool_decide (c = "010"%char) || bool_decide (c = "013"%char).

Fixpoint no_line_terminator (s : string) : bool :=
  match s with
  | EmptyString => true
  | String c s' => negb (line_terminator c) && no_line_terminator s'
  end.

(** [^prefix( .* )$] against a module name: the captured rest. *)
Definition rule_capture (r : mapper_rule) (name : string) : option string :=
  if String.prefix (rule_prefix r) name then
    let rest := String.substring (String.length (rule_prefix r))
                  (String.length name - String.length (rule_prefix r)) name in
    if no_line_terminator rest then Some rest else None
  else None.

(** The first rule that matches rewrites the name: [target$1]. *)
Fixpoint apply_mapper (rules : list mapper_rule) (name : string) : option string :=
  match rules with
  | [] => None
  | r :: rest =>
      match rule_capture r name with
      | Some c => Some (String.append (rule_target r) c)
      | None => apply_mapper rest name
      end
  end.

(** An ignore pattern matches anywhere in the path; the patterns use
    no metacharacter but [.]. *)
Fixpoint dot_prefix (pat s : string) : bool :=
  match pat, s with
  | EmptyString, _ => true
  | String c pat', String d s' =>
      (if bool_decide (c = "."%char) then negb (line_terminator d) else bool_decide (c = d))
      && dot_prefix pat' s'
  | String _ _, EmptyString => false
  end.

Fixpoint dot_search (pat s : string) : bool :=
  dot_prefix pat s || match s with EmptyString => false | String _ s' => dot_search pat s' end.

Definition ignored (cfg : jest_config) (path : string) : bool :=
  existsb (fun pat => dot_search pat path) (testPathIgnorePatterns cfg).

(** ** Lemmas *)

Lemma substring_0_length s : String.substring 0 (String.length s) s = s.
Proof. induction s as [|c s IH]; [done|]. simpl. by rewrite IH. Qed.

(** ** Theorems *)

(** The exported [moduleNameMapper] sends every module name that starts
    with [@/lib/] (and has no line break) to the same path under
    [<rootDir>/app/lib/]. *)
Theorem customJestConfig_mapper_lib rest :
  no_line_terminator rest = true ->
  apply_mapper (moduleNameMapper customJestConfig) (String.append "@/lib/" rest) =
    Some (String.append "<rootDir>/app/lib/" rest).
Proof.
  intros Hr. unfold customJestConfig, apply_mapper, rule_capture. simpl.
  change (String.append "" rest) with rest.
  rewrite Nat.sub_0_r, substring_0_length, Hr. by destruct rest.
Qed.

End JestConfig.
